(** * tortoise: the HPA client of pkg/hpa/client.go

    A shallow embedding of [pkg/hpa/client.go] and the properties its
    specification states about it.

    Conventions of the embedding:
    - Go's [int], [int32] and [int64] are [Z]; where the source does
      arithmetic on them the wrap-around is written out ([wrap32]).
    - [float64] is [spec_float] at precision 53 and [emax] 1024, with the
      operations of the Standard Library's IEEE 754 specification.
    - a Go pointer field is an [option]; dereferencing [nil] panics, and a
      panic is an outcome of its own ([Panic]), distinct from a returned
      [error].
    - an object reached through a pointer and mutated in place ([hpa],
      [tortoise]) is passed in and returned.
    - the [client.Client] interface is a type class over the state of the
      store; every call made through it is also recorded in a trace. *)

From Stdlib Require Import ZArith Lia Bool.
From Stdlib Require Import SpecFloat.
From stdpp Require Import base option list strings gmap.

Local Open Scope Z_scope.

(** ** Machine integers *)

(** Go's conversion to, and arithmetic in, [int32]: two's complement
    wrap-around. *)
Definition wrap32 (z : Z) : Z := (z + 2^31) mod 2^32 - 2^31.

Definition int32_min : Z := - 2^31.
Definition int32_max : Z := 2^31 - 1.
Definition in_int32 (z : Z) : bool := (int32_min <=? z) && (z <=? int32_max).

(** ** time.Time and time.Weekday

    The source observes [now] only through [now.Hour()] and
    [now.Weekday()]; [Time] holds these two observations.
    [time.Weekday] is an [int] with [Sunday = 0]. *)
Definition Weekday := Z.
Definition Sunday : Weekday := 0.
Definition Monday : Weekday := 1.
Definition Tuesday : Weekday := 2.
Definition Wednesday : Weekday := 3.
Definition Thursday : Weekday := 4.
Definition Friday : Weekday := 5.
Definition Saturday : Weekday := 6.

Record Time := mkTime { Time_Hour : Z; Time_Weekday : Weekday }.

(** ** Errors

    [errors.New] and [fmt.Errorf] without [%w] make an [errorString];
    [fmt.Errorf] with a trailing [: %w] makes a [wrapError]; errors of the
    API server carry a status reason. *)
Inductive StatusReason :=
| StatusReasonNotFound
| StatusReasonAlreadyExists
| StatusReasonConflict
| StatusReasonOther (reason : string).

Inductive error :=
| errorString (msg : string)
| wrapError (msg : string) (err : error)
| StatusError (reason : StatusReason).

(** [apierrors.IsAlreadyExists]: the reason of the first status error on
    the unwrap chain. *)
Fixpoint IsAlreadyExists (err : error) : bool :=
  match err with
  | StatusError StatusReasonAlreadyExists => true
  | StatusError _ => false
  | wrapError _ e => IsAlreadyExists e
  | errorString _ => false
  end.

(** A Go call either returns or panics. *)
Inductive go (A : Type) :=
| Return (a : A)
| Panic.
Arguments Return {A} a.
Arguments Panic {A}.

(** ** float64

    IEEE 754 binary64 as the Standard Library specifies it: a sign, a
    positive mantissa and an exponent, rounding to nearest, ties to even. *)
Module F64.

Definition prec : Z := 53.
Definition emax : Z := 1024.

Definition float64 := spec_float.

(** A finite [float64] is one whose mantissa and exponent are canonical
    for binary64. *)
Definition valid (x : float64) : bool := valid_binary prec emax x.

Definition mul (x y : float64) : float64 := SFmul prec emax x y.
Definition div (x y : float64) : float64 := SFdiv prec emax x y.
Definition leb (x y : float64) : bool := SFleb x y.
Definition ltb (x y : float64) : bool := SFltb x y.

(** [float64(n)] for an integer [n] (exact up to 2^53 in magnitude). *)
Definition of_Z (n : Z) : float64 := binary_normalize prec emax n 0 false.

Definition zero : float64 := S754_zero false.
Definition one : float64 := of_Z 1.

(** The decimal constant [p/q] as the compiler and [strconv] read it:
    the [float64] nearest to the quotient. *)
Definition of_ratio (p q : Z) : float64 := div (of_Z p) (of_Z q).

(** The integer part, the floor and the ceiling of the value of a finite
    [float64]; [None] for infinities and NaN. *)
Definition Ztrunc (x : float64) : option Z :=
  match x with
  | S754_zero _ => Some 0
  | S754_finite s m e =>
      Some (cond_Zopp s (if 0 <=? e then Z.pos m * 2 ^ e
                         else Z.pos m / 2 ^ (- e)))
  | _ => None
  end.

Definition Zfloor (x : float64) : option Z :=
  match x with
  | S754_zero _ => Some 0
  | S754_finite s m e =>
      Some (if 0 <=? e then cond_Zopp s (Z.pos m * 2 ^ e)
            else if s then - ((Z.pos m + 2 ^ (- e) - 1) / 2 ^ (- e))
            else Z.pos m / 2 ^ (- e))
  | _ => None
  end.

Definition Zceil (x : float64) : option Z :=
  match x with
  | S754_zero _ => Some 0
  | S754_finite s m e =>
      Some (if 0 <=? e then cond_Zopp s (Z.pos m * 2 ^ e)
            else if s then - (Z.pos m / 2 ^ (- e))
            else (Z.pos m + 2 ^ (- e) - 1) / 2 ^ (- e))
  | _ => None
  end.

(** [math.Trunc] and [math.Ceil]: zeros, infinities and NaN are returned
    as they are; a result that rounds to zero keeps the sign of [x]. *)
Definition sign (x : float64) : bool :=
  match x with
  | S754_zero s | S754_infinity s | S754_finite s _ _ => s
  | S754_nan => false
  end.

Definition Trunc (x : float64) : float64 :=
  match Ztrunc x with
  | Some z => binary_normalize prec emax z 0 (sign x)
  | None => x
  end.

Definition Ceil (x : float64) : float64 :=
  match Zceil x with
  | Some z => binary_normalize prec emax z 0 (sign x)
  | None => x
  end.

End F64.

(** ** k8s.io/apimachinery/pkg/api/resource.Quantity

    The amount is [value * 10^scale] when [d] is [None], and the
    arbitrary-precision decimal [d] otherwise; [s] caches the printed
    form. *)
Record Quantity := mkQuantity {
  Quantity_i_value : Z;
  Quantity_i_scale : Z;
  Quantity_d : option (Z * Z);
  Quantity_s : string;
  Quantity_Format : string
}.

(** [resource.MustParse] on a short literal of digits, the only use the
    source makes of it (the literals 50 and 90): the parser keeps the
    integer at scale 0, in decimal SI format, and the literal as the cached
    string. *)
Definition MustParse_small (value : Z) (str : string) : Quantity :=
  {| Quantity_i_value := value; Quantity_i_scale := 0; Quantity_d := None;
     Quantity_s := str; Quantity_Format := "DecimalSI" |}.

(** [Quantity.Set], on the quantity behind the pointer: the amount becomes [value], the cached string and
    the decimal are dropped, the format stays. *)
Definition Quantity_Set (q : Quantity) (value : Z) : Quantity :=
  {| Quantity_i_value := value; Quantity_i_scale := 0; Quantity_d := None;
     Quantity_s := ""; Quantity_Format := Quantity_Format q |}.

(** ** k8s.io/api/autoscaling/v2

    Only the fields this package reads or writes. The [Object], [Pods]
    and [Resource] sources of a [MetricSpec] and the label selector of a
    [MetricIdentifier] are never touched and are left out. *)
Definition ResourceName := string.
Definition ResourceCPU : ResourceName := "cpu".
Definition ResourceMemory : ResourceName := "memory".

Definition MetricSourceType := string.
Definition ContainerResourceMetricSourceType : MetricSourceType := "ContainerResource".
Definition ExternalMetricSourceType : MetricSourceType := "External".

Definition MetricTargetType := string.
Definition UtilizationMetricType : MetricTargetType := "Utilization".
Definition ValueMetricType : MetricTargetType := "Value".

Record MetricTarget := mkMetricTarget {
  MetricTarget_Type : MetricTargetType;
  MetricTarget_Value : option Quantity;
  MetricTarget_AverageValue : option Quantity;
  MetricTarget_AverageUtilization : option Z
}.

Record ContainerResourceMetricSource := mkContainerResourceMetricSource {
  ContainerResource_Name : ResourceName;
  ContainerResource_Target : MetricTarget;
  ContainerResource_Container : string
}.

Record ExternalMetricSource := mkExternalMetricSource {
  External_Metric_Name : string;
  External_Target : MetricTarget
}.

Record MetricSpec := mkMetricSpec {
  MetricSpec_Type : MetricSourceType;
  MetricSpec_ContainerResource : option ContainerResourceMetricSource;
  MetricSpec_External : option ExternalMetricSource
}.

Record CrossVersionObjectReference := mkCrossVersionObjectReference {
  Ref_Kind : string;
  Ref_Name : string;
  Ref_APIVersion : string
}.

Record HPAScalingPolicy := mkHPAScalingPolicy {
  Policy_Type : string;
  Policy_Value : Z;
  Policy_PeriodSeconds : Z
}.

Definition PercentScalingPolicy : string := "Percent".

Record HPAScalingRules := mkHPAScalingRules {
  Rules_Policies : list HPAScalingPolicy
}.

Record HorizontalPodAutoscalerBehavior := mkHorizontalPodAutoscalerBehavior {
  Behavior_ScaleUp : option HPAScalingRules;
  Behavior_ScaleDown : option HPAScalingRules
}.

Record HorizontalPodAutoscaler := mkHorizontalPodAutoscaler {
  HPA_Name : string;
  HPA_Namespace : string;
  HPA_Annotations : gmap string string;
  HPA_ScaleTargetRef : CrossVersionObjectReference;
  HPA_MinReplicas : option Z;
  HPA_MaxReplicas : Z;
  HPA_Behavior : option HorizontalPodAutoscalerBehavior;
  HPA_Metrics : list MetricSpec
}.

(** Assignments to single fields of the object behind the [hpa] pointer. *)
Definition set_Metrics (hpa : HorizontalPodAutoscaler) (ms : list MetricSpec)
    : HorizontalPodAutoscaler :=
  {| HPA_Name := HPA_Name hpa; HPA_Namespace := HPA_Namespace hpa;
     HPA_Annotations := HPA_Annotations hpa;
     HPA_ScaleTargetRef := HPA_ScaleTargetRef hpa;
     HPA_MinReplicas := HPA_MinReplicas hpa;
     HPA_MaxReplicas := HPA_MaxReplicas hpa;
     HPA_Behavior := HPA_Behavior hpa; HPA_Metrics := ms |}.

Definition set_MaxReplicas (hpa : HorizontalPodAutoscaler) (max : Z)
    : HorizontalPodAutoscaler :=
  {| HPA_Name := HPA_Name hpa; HPA_Namespace := HPA_Namespace hpa;
     HPA_Annotations := HPA_Annotations hpa;
     HPA_ScaleTargetRef := HPA_ScaleTargetRef hpa;
     HPA_MinReplicas := HPA_MinReplicas hpa;
     HPA_MaxReplicas := max;
     HPA_Behavior := HPA_Behavior hpa; HPA_Metrics := HPA_Metrics hpa |}.

Definition set_MinReplicas (hpa : HorizontalPodAutoscaler) (min : option Z)
    : HorizontalPodAutoscaler :=
  {| HPA_Name := HPA_Name hpa; HPA_Namespace := HPA_Namespace hpa;
     HPA_Annotations := HPA_Annotations hpa;
     HPA_ScaleTargetRef := HPA_ScaleTargetRef hpa;
     HPA_MinReplicas := min;
     HPA_MaxReplicas := HPA_MaxReplicas hpa;
     HPA_Behavior := HPA_Behavior hpa; HPA_Metrics := HPA_Metrics hpa |}.

(** [hpa.GetAnnotations()[key]]: the zero value when the key is absent. *)
Definition annotationOf (hpa : HorizontalPodAutoscaler) (key : string) : string :=
  default "" (HPA_Annotations hpa !! key).

(** ** apps/v1.Deployment: the one field the source reads. *)
Record Deployment := mkDeployment { Deployment_Status_Replicas : Z }.

(** ** api/v1alpha1 *)

(** Modelled from the spec: the declarations of package [api/v1alpha1]
    (types [Tortoise], [TortoisePhase], [AutoscalingType],
    [ContainerResourcePolicy], [ReplicasRecommendation] and
    [HPATargetUtilizationRecommendationPerContainer]) are not among the
    sources; the fields are the ones [client.go] selects, with the types
    its uses force. A phase or autoscaling type other than the constants
    the source names is kept with its string. *)
Inductive TortoisePhase :=
| TortoisePhaseWorking
| TortoisePhaseEmergency
| TortoisePhaseBackToNormal
| TortoisePhaseOther (name : string).

Inductive AutoscalingType :=
| AutoscalingTypeHorizontal
| AutoscalingTypeVertical
| AutoscalingTypeOther (name : string).

Record ReplicasRecommendation := mkReplicasRecommendation {
  Rec_From : Z;
  Rec_To : Z;
  Rec_WeekDay : Weekday;
  Rec_Value : Z
}.

Record ContainerResourcePolicy := mkContainerResourcePolicy {
  Policy_ContainerName : string;
  Policy_AutoscalingPolicy : gmap string AutoscalingType
}.

Record HPATargetUtilizationRecommendationPerContainer := mkTargetUtilizations {
  Target_ContainerName : string;
  Target_TargetUtilization : gmap string Z
}.

Record Tortoise := mkTortoise {
  Tortoise_Namespace : string;
  Spec_TargetRefs_HorizontalPodAutoscalerName : option string;
  Spec_TargetRefs_DeploymentName : string;
  Spec_ResourcePolicy : list ContainerResourcePolicy;
  Status_TortoisePhase : TortoisePhase;
  Status_Targets_HorizontalPodAutoscaler : string;
  Status_TargetUtilizations : list HPATargetUtilizationRecommendationPerContainer;
  Status_MaxReplicas : list ReplicasRecommendation;
  Status_MinReplicas : list ReplicasRecommendation
}.

Definition set_TortoisePhase (t : Tortoise) (p : TortoisePhase) : Tortoise :=
  {| Tortoise_Namespace := Tortoise_Namespace t;
     Spec_TargetRefs_HorizontalPodAutoscalerName :=
       Spec_TargetRefs_HorizontalPodAutoscalerName t;
     Spec_TargetRefs_DeploymentName := Spec_TargetRefs_DeploymentName t;
     Spec_ResourcePolicy := Spec_ResourcePolicy t;
     Status_TortoisePhase := p;
     Status_Targets_HorizontalPodAutoscaler :=
       Status_Targets_HorizontalPodAutoscaler t;
     Status_TargetUtilizations := Status_TargetUtilizations t;
     Status_MaxReplicas := Status_MaxReplicas t;
     Status_MinReplicas := Status_MinReplicas t |}.

Definition set_Targets_HorizontalPodAutoscaler (t : Tortoise) (name : string)
    : Tortoise :=
  {| Tortoise_Namespace := Tortoise_Namespace t;
     Spec_TargetRefs_HorizontalPodAutoscalerName :=
       Spec_TargetRefs_HorizontalPodAutoscalerName t;
     Spec_TargetRefs_DeploymentName := Spec_TargetRefs_DeploymentName t;
     Spec_ResourcePolicy := Spec_ResourcePolicy t;
     Status_TortoisePhase := Status_TortoisePhase t;
     Status_Targets_HorizontalPodAutoscaler := name;
     Status_TargetUtilizations := Status_TargetUtilizations t;
     Status_MaxReplicas := Status_MaxReplicas t;
     Status_MinReplicas := Status_MinReplicas t |}.

(** ** sigs.k8s.io/controller-runtime/pkg/client.Client

    The three methods the package calls, over the state [S] of the store.
    [Get] reads; [Create] and [Update] may change the store and may
    fail. *)
Definition NamespacedName : Type := string * string.

Class client_Client (S : Type) := {
  client_Get : S -> NamespacedName -> HorizontalPodAutoscaler + error;
  client_Create : S -> HorizontalPodAutoscaler -> S * option error;
  client_Update : S -> HorizontalPodAutoscaler -> S * option error
}.

(** The calls made through the interface, in order. *)
Inductive Call :=
| CallGet (key : NamespacedName)
| CallCreate (obj : HorizontalPodAutoscaler)
| CallUpdate (obj : HorizontalPodAutoscaler).

Definition isUpdate (c : Call) : bool :=
  match c with CallUpdate _ => true | _ => false end.

(** What a method of [Client] leaves behind: the store, the calls it
    made, and what it returned (or that it panicked). *)
Record Outcome (S A : Type) := mkOutcome {
  store : S;
  calls : list Call;
  returned : go A
}.
Arguments mkOutcome {S A} _ _ _.
Arguments store {S A} _.
Arguments calls {S A} _.
Arguments returned {S A} _.

(** ** hpa.Client: the configuration fields of the struct. *)
Record Client := mkClient {
  replicaReductionFactor : F64.float64;
  upperTargetResourceUtilization : Z
}.

(** [New] (client.go, lines 34-40). *)
Definition New (replicaReductionFactor : F64.float64)
    (upperTargetResourceUtilization : Z) : Client :=
  {| replicaReductionFactor := replicaReductionFactor;
     upperTargetResourceUtilization := wrap32 upperTargetResourceUtilization |}.

(** ** getReplicasRecommendation (client.go, lines 180-187) *)
Definition slotMatches (now : Time) (r : ReplicasRecommendation) : bool :=
  (Time_Hour now <? Rec_To r) && (Time_Hour now >=? Rec_From r)
  && (Time_Weekday now =? Rec_WeekDay r).

Fixpoint getReplicasRecommendation
    (recommendations : list ReplicasRecommendation) (now : Time)
    : Z * option error :=
  match recommendations with
  | [] => (0, Some (errorString "no recommendation slot"))
  | r :: rest =>
      if slotMatches now r then (Rec_Value r, None)
      else getReplicasRecommendation rest now
  end.

(** ** An in-memory store

    The store of controller-runtime's fake client, restricted to
    autoscalers: a finite map from namespaced names to objects. [Get] of
    a missing object is NotFound, [Create] of a present one is
    AlreadyExists, [Update] of a missing one is NotFound. *)
Definition keyOf (obj : HorizontalPodAutoscaler) : NamespacedName :=
  (HPA_Namespace obj, HPA_Name obj).

#[export] Instance memory_Client
    : client_Client (gmap NamespacedName HorizontalPodAutoscaler) := {
  client_Get s key :=
    match s !! key with
    | Some obj => inl obj
    | None => inr (StatusError StatusReasonNotFound)
    end;
  client_Create s obj :=
    match s !! keyOf obj with
    | Some _ => (s, Some (StatusError StatusReasonAlreadyExists))
    | None => (<[keyOf obj := obj]> s, None)
    end;
  client_Update s obj :=
    match s !! keyOf obj with
    | Some _ => (<[keyOf obj := obj]> s, None)
    | None => (s, Some (StatusError StatusReasonNotFound))
    end
}.

(** A store that refuses every write with a conflict, as the API server
    does when the object has changed since it was read. *)
Definition conflicting_Client
    : client_Client (gmap NamespacedName HorizontalPodAutoscaler) := {|
  client_Get s key :=
    match s !! key with
    | Some obj => inl obj
    | None => inr (StatusError StatusReasonNotFound)
    end;
  client_Create s obj := (s, Some (StatusError StatusReasonConflict));
  client_Update s obj := (s, Some (StatusError StatusReasonConflict))
|}.

(** ** Sample objects *)
Module Sample.

Definition cpuKey : string :=
  "tortoises.autoscaling.mercari.com/container-based-cpu-metric-prefix".
Definition memoryKey : string :=
  "tortoises.autoscaling.mercari.com/container-based-memory-metric-prefix".

(** [range] in the order of the map's list of entries. *)
Definition range (V : Type) (m : gmap string V) : list (string * V) :=
  map_to_list m.

(** An implementation that converts what [int32] cannot represent to
    the least [int32]. *)
Definition unrepresentable (x : F64.float64) : Z := int32_min.

Definition half : F64.float64 := F64.of_ratio 5 10.
Definition nine_tenths : F64.float64 := F64.of_ratio 9 10.

Definition mondayAt14 : Time := mkTime 14 Monday.
Definition tuesdayAt14 : Time := mkTime 14 Tuesday.

(** The slots of the lookup scenario of the specification. *)
Definition slots : list ReplicasRecommendation :=
  [ mkReplicasRecommendation 0 12 Monday 3;
    mkReplicasRecommendation 12 24 Monday 5 ].

Definition utilization (v : Z) : MetricTarget :=
  {| MetricTarget_Type := UtilizationMetricType; MetricTarget_Value := None;
     MetricTarget_AverageValue := None;
     MetricTarget_AverageUtilization := Some v |}.

Definition containerResource (container : string) (k : ResourceName) (v : Z)
    : MetricSpec :=
  {| MetricSpec_Type := ContainerResourceMetricSourceType;
     MetricSpec_ContainerResource :=
       Some {| ContainerResource_Name := k;
               ContainerResource_Target := utilization v;
               ContainerResource_Container := container |};
     MetricSpec_External := None |}.

Definition external (name : string) (v : Z) : MetricSpec :=
  {| MetricSpec_Type := ExternalMetricSourceType;
     MetricSpec_ContainerResource := None;
     MetricSpec_External :=
       Some {| External_Metric_Name := name;
               External_Target :=
                 {| MetricTarget_Type := ValueMetricType;
                    MetricTarget_Value :=
                      Some (MustParse_small v "");
                    MetricTarget_AverageValue := None;
                    MetricTarget_AverageUtilization := None |} |} |}.

(** An autoscaler of deployment [web] in namespace [shop], with the
    annotations and the metric names of the bootstrap. *)
Definition hpa (annotations : gmap string string) (min max : Z)
    : HorizontalPodAutoscaler :=
  {| HPA_Name := "web-hpa"; HPA_Namespace := "shop";
     HPA_Annotations := annotations;
     HPA_ScaleTargetRef :=
       {| Ref_Kind := "Deployment"; Ref_Name := "web";
          Ref_APIVersion := "apps/v1" |};
     HPA_MinReplicas := Some min;
     HPA_MaxReplicas := max;
     HPA_Behavior := None;
     HPA_Metrics :=
       [ containerResource "api" ResourceCPU 70;
         containerResource "worker" ResourceCPU 70;
         containerResource "api" ResourceMemory 70;
         external "datadogmetric@shop:web-cpu-api" 50;
         external "datadogmetric@shop:web-cpu-worker" 50;
         external "datadogmetric@shop:web-memory-api" 90 ] |}.

Definition bootstrapped : gmap string string :=
  {[ memoryKey := "datadogmetric@shop:web-memory-";
     cpuKey := "datadogmetric@shop:web-cpu-" ]}.

Definition tortoise (phase : TortoisePhase)
    (maxReplicas minReplicas : list ReplicasRecommendation) : Tortoise :=
  {| Tortoise_Namespace := "shop";
     Spec_TargetRefs_HorizontalPodAutoscalerName := Some "web-hpa";
     Spec_TargetRefs_DeploymentName := "web";
     Spec_ResourcePolicy :=
       [ {| Policy_ContainerName := "api";
            Policy_AutoscalingPolicy :=
              {[ ResourceCPU := AutoscalingTypeHorizontal;
                 ResourceMemory := AutoscalingTypeVertical ]} |} ];
     Status_TortoisePhase := phase;
     Status_Targets_HorizontalPodAutoscaler := "";
     Status_TargetUtilizations :=
       [ {| Target_ContainerName := "api";
            Target_TargetUtilization := {[ ResourceCPU := 60 ]} |} ];
     Status_MaxReplicas := maxReplicas;
     Status_MinReplicas := minReplicas |}.

Definition allDay (weekday : Weekday) (value : Z)
    : list ReplicasRecommendation :=
  [ mkReplicasRecommendation 0 24 weekday value ].

Definition storeOf (obj : HorizontalPodAutoscaler)
    : gmap NamespacedName HorizontalPodAutoscaler :=
  {[ keyOf obj := obj ]}.

End Sample.

(** ** The package

    What the package leaves open is a parameter of the section:
    - the two annotation keys of package [pkg/annotation];
    - the order in which [range] visits a Go map, which the language does
      not fix;
    - the result of converting to [int32] a [float64] that [int32] cannot
      represent, which the language leaves to the implementation;
    - the store behind [client.Client]. *)
Section Package.

(** Modelled from the spec: the constants
    [annotation.HPAContainerBasedCPUExternalMetricNamePrefixAnnotation]
    and [annotation.HPAContainerBasedMemoryExternalMetricNamePrefixAnnotation]
    of package [pkg/annotation] are not among the sources; the spec calls
    them the NamingPrefix annotations, one per resource kind. They are
    two keys of one map literal, hence different. *)
Variable HPAContainerBasedCPUExternalMetricNamePrefixAnnotation : string.
Variable HPAContainerBasedMemoryExternalMetricNamePrefixAnnotation : string.
Hypothesis annotation_keys_differ :
  HPAContainerBasedCPUExternalMetricNamePrefixAnnotation
  <> HPAContainerBasedMemoryExternalMetricNamePrefixAnnotation.

(** [for k, v := range m]: the entries of [m], each once, in some order. *)
Variable go_range : forall V : Type, gmap string V -> list (string * V).
Hypothesis go_range_Permutation :
  forall (V : Type) (m : gmap string V), go_range V m ≡ₚ map_to_list m.

Variable int32_unrepresentable : F64.float64 -> Z.

Context {S : Type} {cl : client_Client S}.

(** [int32(x)] for a [float64] [x]: the fraction is discarded. *)
Definition int32_of_float64 (x : F64.float64) : Z :=
  match F64.Ztrunc x with
  | Some z => if in_int32 z then z else int32_unrepresentable x
  | None => int32_unrepresentable x
  end.

(** *** externalMetricNameFromAnnotation (client.go, lines 189-200) *)
Definition externalMetricNameFromAnnotation
    (hpa : HorizontalPodAutoscaler) (containerName : string)
    (k : ResourceName) : string * option error :=
  if decide (k = ResourceCPU) then
    (annotationOf hpa HPAContainerBasedCPUExternalMetricNamePrefixAnnotation
       +:+ containerName, None)
  else if decide (k = ResourceMemory) then
    (annotationOf hpa HPAContainerBasedMemoryExternalMetricNamePrefixAnnotation
       +:+ containerName, None)
  else ("", Some (errorString ("non supported resource type: " +:+ k))).

(** *** updateHPATargetValue (client.go, lines 202-245)

    The body of the first loop, on one element. [m] is a copy of the
    element, but [m.ContainerResource] is a pointer, so the assignment
    reaches the element of [hpa.Spec.Metrics]. *)
Definition setContainerResourceTarget (containerName : string)
    (k : ResourceName) (targetValue : Z) (m : MetricSpec) : MetricSpec :=
  if negb (String.eqb (MetricSpec_Type m) ContainerResourceMetricSourceType)
  then m
  else
    match MetricSpec_ContainerResource m with
    | None => m
    | Some cr =>
        if negb (String.eqb (ContainerResource_Container cr) containerName)
           || negb (String.eqb (ContainerResource_Name cr) k)
           || negb (bool_decide
                      (is_Some (MetricTarget_AverageUtilization
                                  (ContainerResource_Target cr))))
        then m
        else
          let t := ContainerResource_Target cr in
          {| MetricSpec_Type := MetricSpec_Type m;
             MetricSpec_ContainerResource :=
               Some {| ContainerResource_Name := ContainerResource_Name cr;
                       ContainerResource_Target :=
                         {| MetricTarget_Type := MetricTarget_Type t;
                            MetricTarget_Value := MetricTarget_Value t;
                            MetricTarget_AverageValue :=
                              MetricTarget_AverageValue t;
                            MetricTarget_AverageUtilization :=
                              Some targetValue |};
                       ContainerResource_Container :=
                         ContainerResource_Container cr |};
             MetricSpec_External := MetricSpec_External m |}
    end.

(** The second loop. [Value] is a pointer to a [Quantity]; [Set] writes
    through it, and panics when it is [nil]. The elements before the one
    that panics have been written. *)
Fixpoint setExternalTargets (externalMetricName : string) (targetValue : Z)
    (ms : list MetricSpec) : list MetricSpec * go unit :=
  match ms with
  | [] => ([], Return tt)
  | m :: rest =>
      let continue (m' : MetricSpec) :=
        let '(rest', r) :=
          setExternalTargets externalMetricName targetValue rest in
        (m' :: rest', r) in
      if negb (String.eqb (MetricSpec_Type m) ExternalMetricSourceType)
      then continue m
      else
        match MetricSpec_External m with
        | None => continue m
        | Some ext =>
            if negb (String.eqb (External_Metric_Name ext) externalMetricName)
            then continue m
            else
              let t := External_Target ext in
              match MetricTarget_Value t with
              | None => (m :: rest, Panic)
              | Some q =>
                  continue
                    {| MetricSpec_Type := MetricSpec_Type m;
                       MetricSpec_ContainerResource :=
                         MetricSpec_ContainerResource m;
                       MetricSpec_External :=
                         Some {| External_Metric_Name :=
                                   External_Metric_Name ext;
                                 External_Target :=
                                   {| MetricTarget_Type := MetricTarget_Type t;
                                      MetricTarget_Value :=
                                        Some (Quantity_Set q targetValue);
                                      MetricTarget_AverageValue :=
                                        MetricTarget_AverageValue t;
                                      MetricTarget_AverageUtilization :=
                                        MetricTarget_AverageUtilization t |}
                              |} |}
              end
        end
  end.

(** The function: the object behind [hpa] as it is left, and the error
    returned (or the panic). *)
Definition updateHPATargetValue (hpa : HorizontalPodAutoscaler)
    (containerName : string) (k : ResourceName) (targetValue : Z)
    : HorizontalPodAutoscaler * go (option error) :=
  let hpa :=
    set_Metrics hpa
      (map (setContainerResourceTarget containerName k targetValue)
           (HPA_Metrics hpa)) in
  let '(externalMetricName, err) :=
    externalMetricNameFromAnnotation hpa containerName k in
  match err with
  | Some err => (hpa, Return (Some err))
  | None =>
      let '(ms, r) :=
        setExternalTargets externalMetricName targetValue (HPA_Metrics hpa) in
      (set_Metrics hpa ms,
       match r with Return _ => Return None | Panic => Panic end)
  end.

(** *** UpdateHPAFromTortoiseRecommendation (client.go, lines 129-177) *)

(** The nested loops of lines 135-141 visit these triples in order. *)
Definition recommendedTargets (tortoise : Tortoise)
    : list (string * ResourceName * Z) :=
  flat_map
    (fun t =>
       map (fun kr : string * Z => (Target_ContainerName t, fst kr, snd kr))
           (go_range Z (Target_TargetUtilization t)))
    (Status_TargetUtilizations tortoise).

Fixpoint applyTargets (hpa : HorizontalPodAutoscaler)
    (targets : list (string * ResourceName * Z))
    : HorizontalPodAutoscaler * go (option error) :=
  match targets with
  | [] => (hpa, Return None)
  | (containerName, k, r) :: rest =>
      match updateHPATargetValue hpa containerName k r with
      | (hpa', Return None) => applyTargets hpa' rest
      | (hpa', Return (Some err)) => (hpa', Return (Some err))
      | (hpa', Panic) => (hpa', Panic)
      end
  end.

(** Line 160: [int32(math.Trunc(float64(currentMin) * c.replicaReductionFactor))]. *)
Definition reducedMinReplicas (c : Client) (currentMin : Z) : Z :=
  int32_of_float64
    (F64.Trunc (F64.mul (F64.of_Z currentMin) (replicaReductionFactor c))).

(** The [switch] of lines 149-173: the new [min], the tortoise as the
    branch leaves it, and the error of an early return. Dereferencing
    [hpa.Spec.MinReplicas] panics when it is [nil]. *)
Definition planMinReplicas (c : Client) (hpa : HorizontalPodAutoscaler)
    (tortoise : Tortoise) (now : Time) (max : Z)
    : go (Z * Tortoise * option error) :=
  match Status_TortoisePhase tortoise with
  | TortoisePhaseEmergency => Return (max, tortoise, None)
  | TortoisePhaseBackToNormal =>
      let '(idealMin, err) :=
        getReplicasRecommendation (Status_MinReplicas tortoise) now in
      match err with
      | Some err =>
          Return (0, tortoise,
                  Some (wrapError "get minReplicas recommendation" err))
      | None =>
          match HPA_MinReplicas hpa with
          | None => Panic
          | Some currentMin =>
              let reduced := reducedMinReplicas c currentMin in
              if idealMin >? reduced then
                Return (idealMin,
                        set_TortoisePhase tortoise TortoisePhaseWorking, None)
              else Return (reduced, tortoise, None)
          end
      end
  | _ =>
      let '(min, err) :=
        getReplicasRecommendation (Status_MinReplicas tortoise) now in
      match err with
      | Some err =>
          Return (min, tortoise,
                  Some (wrapError "get minReplicas recommendation" err))
      | None => Return (min, tortoise, None)
      end
  end.

(** Lines 143-176: the replica bounds, and the update of the store. *)
Definition planAndUpdate (c : Client) (s : S) (key : NamespacedName)
    (hpa : HorizontalPodAutoscaler) (tortoise : Tortoise) (now : Time)
    : Outcome S (option HorizontalPodAutoscaler * Tortoise * option error) :=
  let '(max, err) :=
    getReplicasRecommendation (Status_MaxReplicas tortoise) now in
  match err with
  | Some err =>
      mkOutcome s [CallGet key]
        (Return (None, tortoise,
                 Some (wrapError "get maxReplicas recommendation" err)))
  | None =>
      let hpa := set_MaxReplicas hpa max in
      match planMinReplicas c hpa tortoise now max with
      | Panic => mkOutcome s [CallGet key] Panic
      | Return (_, tortoise, Some err) =>
          mkOutcome s [CallGet key] (Return (None, tortoise, Some err))
      | Return (min, tortoise, None) =>
          let hpa := set_MinReplicas hpa (Some min) in
          let '(s', err) := client_Update s hpa in
          mkOutcome s' [CallGet key; CallUpdate hpa]
            (Return (Some hpa, tortoise, err))
      end
  end.

(** Lines 130-141, the fetch and the metric rewrites, and then the rest. *)
Definition UpdateHPAFromTortoiseRecommendation (c : Client) (s : S)
    (tortoise : Tortoise) (now : Time)
    : Outcome S (option HorizontalPodAutoscaler * Tortoise * option error) :=
  match Spec_TargetRefs_HorizontalPodAutoscalerName tortoise with
  | None => mkOutcome s [] Panic
  | Some name =>
      let key := (Tortoise_Namespace tortoise, name) in
      match client_Get s key with
      | inr err =>
          mkOutcome s [CallGet key]
            (Return (None, tortoise,
                     Some (wrapError "failed to get hpa on tortoise" err)))
      | inl hpa =>
          match applyTargets hpa (recommendedTargets tortoise) with
          | (_, Panic) => mkOutcome s [CallGet key] Panic
          | (_, Return (Some _)) =>
              mkOutcome s [CallGet key]
                (Return (None, tortoise,
                         Some (errorString
                                 "update HPA from the recommendation from tortoise")))
          | (hpa, Return None) => planAndUpdate c s key hpa tortoise now
          end
      end
  end.

(** *** CreateHPAOnTortoise (client.go, lines 42-119) *)

(** The pairs the nested loops of lines 85-108 visit, in order. *)
Definition autoscalingPolicies (tortoise : Tortoise)
    : list (string * ResourceName * AutoscalingType) :=
  flat_map
    (fun c =>
       map (fun rp : string * AutoscalingType =>
              (Policy_ContainerName c, fst rp, snd rp))
           (go_range AutoscalingType (Policy_AutoscalingPolicy c)))
    (Spec_ResourcePolicy tortoise).

(** Lines 87-90. *)
Definition defaultTargetValue (p : AutoscalingType) : Quantity :=
  match p with
  | AutoscalingTypeHorizontal => MustParse_small 50 "50"
  | _ => MustParse_small 90 "90"
  end.

(** The loop body, lines 87-106, and the loop: [m] with the metrics
    appended, or the error of the early return. *)
Fixpoint appendExternalMetrics (hpa : HorizontalPodAutoscaler)
    (m : list MetricSpec)
    (policies : list (string * ResourceName * AutoscalingType))
    : list MetricSpec + error :=
  match policies with
  | [] => inl m
  | (containerName, r, p) :: rest =>
      let value := defaultTargetValue p in
      let '(externalMetricName, err) :=
        externalMetricNameFromAnnotation hpa containerName r in
      match err with
      | Some err => inr err
      | None =>
          appendExternalMetrics hpa
            (m ++ [ {| MetricSpec_Type := ExternalMetricSourceType;
                       MetricSpec_ContainerResource := None;
                       MetricSpec_External :=
                         Some {| External_Metric_Name := externalMetricName;
                                 External_Target :=
                                   {| MetricTarget_Type := ValueMetricType;
                                      MetricTarget_Value := Some value;
                                      MetricTarget_AverageValue := None;
                                      MetricTarget_AverageUtilization := None |}
                              |} |} ])
            rest
      end
  end.

(** The literal of lines 44-82. *)
Definition defaultHPA (tortoise : Tortoise) (name : string) (dm : Deployment)
    : HorizontalPodAutoscaler :=
  {| HPA_Name := name;
     HPA_Namespace := Tortoise_Namespace tortoise;
     HPA_Annotations :=
       {[ HPAContainerBasedMemoryExternalMetricNamePrefixAnnotation :=
            "datadogmetric@" +:+ Tortoise_Namespace tortoise +:+ ":"
            +:+ Spec_TargetRefs_DeploymentName tortoise +:+ "-memory-";
          HPAContainerBasedCPUExternalMetricNamePrefixAnnotation :=
            "datadogmetric@" +:+ Tortoise_Namespace tortoise +:+ ":"
            +:+ Spec_TargetRefs_DeploymentName tortoise +:+ "-cpu-" ]};
     HPA_ScaleTargetRef :=
       {| Ref_Kind := "Deployment";
          Ref_Name := Spec_TargetRefs_DeploymentName tortoise;
          Ref_APIVersion := "apps/v1" |};
     HPA_MinReplicas :=
       Some (int32_of_float64
               (F64.Ceil (F64.div (F64.of_Z (Deployment_Status_Replicas dm))
                                  (F64.of_Z 2))));
     HPA_MaxReplicas := wrap32 (Deployment_Status_Replicas dm * 2);
     HPA_Behavior :=
       Some {| Behavior_ScaleUp :=
                 Some {| Rules_Policies :=
                           [ {| Policy_Type := PercentScalingPolicy;
                                Policy_Value := 100;
                                Policy_PeriodSeconds := 60 |} ] |};
               Behavior_ScaleDown :=
                 Some {| Rules_Policies :=
                           [ {| Policy_Type := PercentScalingPolicy;
                                Policy_Value := 2;
                                Policy_PeriodSeconds := 90 |} ] |} |};
     HPA_Metrics := [] |}.

Definition CreateHPAOnTortoise (c : Client) (s : S) (tortoise : Tortoise)
    (dm : Deployment)
    : Outcome S (option HorizontalPodAutoscaler * Tortoise * option error) :=
  match Spec_TargetRefs_HorizontalPodAutoscalerName tortoise with
  | None => mkOutcome s [] Panic
  | Some name =>
      let hpa := defaultHPA tortoise name dm in
      match appendExternalMetrics hpa [] (autoscalingPolicies tortoise) with
      | inr err => mkOutcome s [] (Return (None, tortoise, Some err))
      | inl m =>
          let hpa := set_Metrics hpa m in
          let tortoise :=
            set_Targets_HorizontalPodAutoscaler tortoise (HPA_Name hpa) in
          let '(s', err) := client_Create s hpa in
          mkOutcome s' [CallCreate hpa]
            (Return
               (match err with
                | Some e =>
                    if IsAlreadyExists e then (None, tortoise, None)
                    else (Some hpa, tortoise, Some e)
                | None => (Some hpa, tortoise, None)
                end))
      end
  end.

(** *** GetHPAOnTortoise (client.go, lines 121-127) *)
Definition GetHPAOnTortoise (c : Client) (s : S) (tortoise : Tortoise)
    : Outcome S (option HorizontalPodAutoscaler * option error) :=
  match Spec_TargetRefs_HorizontalPodAutoscalerName tortoise with
  | None => mkOutcome s [] Panic
  | Some name =>
      let key := (Tortoise_Namespace tortoise, name) in
      match client_Get s key with
      | inr err =>
          mkOutcome s [CallGet key]
            (Return (None, Some (wrapError "failed to get hpa on tortoise" err)))
      | inl hpa => mkOutcome s [CallGet key] (Return (Some hpa, None))
      end
  end.


(** ** Definitions of the specification *)

(** A slot applies at [now]: same weekday, and the hour within
    [hourFrom, hourTo). *)
Definition inWindow (now : Time) (slot : ReplicasRecommendation) : Prop :=
  Time_Weekday now = Rec_WeekDay slot
  /\ Rec_From slot <= Time_Hour now < Rec_To slot.

(** No slot of the list applies at [now]. *)
Definition noSlot (now : Time) (slots : list ReplicasRecommendation) : Prop :=
  forall slot, slot ∈ slots -> ~ inWindow now slot.

(** The error of a lookup that found no slot, as the callers wrap it. *)
Definition recommendationGap (which : string) : error :=
  wrapError which (errorString "no recommendation slot").

(** The call reaches the replica planner with [hpa]: the name of the
    autoscaler is set, the store has the object, and the metric
    rewrites went through without an error or a panic. *)
Definition reachesPlanner (s : S) (tortoise : Tortoise)
    (key : NamespacedName) (hpa : HorizontalPodAutoscaler) : Prop :=
  exists name fetched,
    Spec_TargetRefs_HorizontalPodAutoscalerName tortoise = Some name
    /\ key = (Tortoise_Namespace tortoise, name)
    /\ client_Get s key = inl fetched
    /\ applyTargets fetched (recommendedTargets tortoise) = (hpa, Return None).

(** [m] is the metric of a container and a resource kind on [hpa]: a
    container resource metric of that container and kind, or the
    external metric that bears the name computed for them. *)
Definition metricFor (hpa : HorizontalPodAutoscaler) (containerName : string)
    (k : ResourceName) (m : MetricSpec) : Prop :=
  (MetricSpec_Type m = ContainerResourceMetricSourceType
   /\ exists cr, MetricSpec_ContainerResource m = Some cr
                 /\ ContainerResource_Container cr = containerName
                 /\ ContainerResource_Name cr = k)
  \/ (MetricSpec_Type m = ExternalMetricSourceType
      /\ exists ext, MetricSpec_External m = Some ext
                     /\ externalMetricNameFromAnnotation hpa containerName k
                        = (External_Metric_Name ext, None)).


(** The name prefix the bootstrap stores for a resource kind, and the
    target it gives to a pair by its autoscaling mode: 50 when purely
    horizontal, 90 otherwise. *)
Definition bootstrapPrefix (tortoise : Tortoise) (k : ResourceName) : string :=
  "datadogmetric@" +:+ Tortoise_Namespace tortoise +:+ ":"
  +:+ Spec_TargetRefs_DeploymentName tortoise +:+ "-" +:+ k +:+ "-".

Definition bootstrapTarget (p : AutoscalingType) : Z :=
  match p with AutoscalingTypeHorizontal => 50 | _ => 90 end.

(** [m] is an external metric of the given name whose target is the
    plain value [target]. *)
Definition externalMetricWithTarget (m : MetricSpec) (name : string)
    (target : Z) : Prop :=
  MetricSpec_Type m = ExternalMetricSourceType
  /\ MetricSpec_ContainerResource m = None
  /\ exists ext q,
       MetricSpec_External m = Some ext
       /\ External_Metric_Name ext = name
       /\ MetricTarget_Type (External_Target ext) = ValueMetricType
       /\ MetricTarget_Value (External_Target ext) = Some q
       /\ Quantity_i_value q = target
       /\ Quantity_i_scale q = 0
       /\ Quantity_d q = None.

(** The container has the resource kind in its autoscaling policy, with
    mode [p]. *)
Definition hasPolicy (tortoise : Tortoise) (containerName : string)
    (k : ResourceName) (p : AutoscalingType) : Prop :=
  exists policy,
    policy ∈ Spec_ResourcePolicy tortoise
    /\ Policy_ContainerName policy = containerName
    /\ Policy_AutoscalingPolicy policy !! k = Some p.


(** An external metric of the list that bears the given name and has no
    value: [m.External.Target.Value] is [nil]. *)
Definition namedExternalWithoutValue (name : string) (ms : list MetricSpec)
    : Prop :=
  exists m ext,
    m ∈ ms
    /\ MetricSpec_Type m = ExternalMetricSourceType
    /\ MetricSpec_External m = Some ext
    /\ External_Metric_Name ext = name
    /\ MetricTarget_Value (External_Target ext) = None.

(** Every external metric of the list has a value. *)
Definition externalValuesSet (ms : list MetricSpec) : Prop :=
  forall m ext,
    m ∈ ms ->
    MetricSpec_Type m = ExternalMetricSourceType ->
    MetricSpec_External m = Some ext ->
    is_Some (MetricTarget_Value (External_Target ext)).

(** The resource kinds for which a name prefix is stored. *)
Definition supportedKind (k : ResourceName) : Prop :=
  k = ResourceCPU \/ k = ResourceMemory.


(** Two states of one autoscaler: the same name, namespace, annotations,
    scale target and behavior, and as many metrics. *)
Definition sameObject (a b : HorizontalPodAutoscaler) : Prop :=
  HPA_Name a = HPA_Name b
  /\ HPA_Namespace a = HPA_Namespace b
  /\ HPA_Annotations a = HPA_Annotations b
  /\ HPA_ScaleTargetRef a = HPA_ScaleTargetRef b
  /\ HPA_Behavior a = HPA_Behavior b
  /\ length (HPA_Metrics a) = length (HPA_Metrics b).

(** The tortoise recommends the target utilization [v] for a container
    and a resource kind. *)
Definition recommendsTarget (tortoise : Tortoise) (containerName : string)
    (k : ResourceName) (v : Z) : Prop :=
  exists t,
    t ∈ Status_TargetUtilizations tortoise
    /\ Target_ContainerName t = containerName
    /\ Target_TargetUtilization t !! k = Some v.


(** The planner run once more in the same time window, on the resource
    and the tortoise that the reconciliation before has left: the state
    after it, or [None] when it returns an error or panics. *)
Definition nextPass (c : Client) (now : Time) (max : Z)
    (st : HorizontalPodAutoscaler * Tortoise)
    : option (HorizontalPodAutoscaler * Tortoise) :=
  let hpa := set_MaxReplicas (fst st) max in
  match planMinReplicas c hpa (snd st) now max with
  | Return (min, tortoise, None) =>
      Some (set_MinReplicas hpa (Some min), tortoise)
  | _ => None
  end.

Fixpoint passes (c : Client) (now : Time) (max : Z) (n : nat)
    (st : HorizontalPodAutoscaler * Tortoise)
    : option (HorizontalPodAutoscaler * Tortoise) :=
  match n with
  | O => Some st
  | Datatypes.S n =>
      match nextPass c now max st with
      | Some st' => passes c now max n st'
      | None => None
      end
  end.

(** The minReplicas and the phase after [n] passes. *)
Definition replicasAfter (c : Client) (now : Time) (max : Z) (n : nat)
    (st : HorizontalPodAutoscaler * Tortoise)
    : option (option Z * TortoisePhase) :=
  match passes c now max n st with
  | Some (hpa, tortoise) =>
      Some (HPA_MinReplicas hpa, Status_TortoisePhase tortoise)
  | None => None
  end.

(** The reduction factor is a [float64] in (0, 1]. *)
Definition factorInRange (c : Client) : Prop :=
  F64.valid (replicaReductionFactor c) = true
  /\ F64.ltb F64.zero (replicaReductionFactor c) = true
  /\ F64.leb (replicaReductionFactor c) F64.one = true.


(** The body of the second loop of [updateHPATargetValue] on one element,
    where it does not panic. *)
Definition setExternalTarget (externalMetricName : string) (targetValue : Z)
    (m : MetricSpec) : MetricSpec :=
  if negb (String.eqb (MetricSpec_Type m) ExternalMetricSourceType) then m
  else
    match MetricSpec_External m with
    | None => m
    | Some ext =>
        if negb (String.eqb (External_Metric_Name ext) externalMetricName)
        then m
        else
          let t := External_Target ext in
          match MetricTarget_Value t with
          | None => m
          | Some q =>
              {| MetricSpec_Type := MetricSpec_Type m;
                 MetricSpec_ContainerResource := MetricSpec_ContainerResource m;
                 MetricSpec_External :=
                   Some {| External_Metric_Name := External_Metric_Name ext;
                           External_Target :=
                             {| MetricTarget_Type := MetricTarget_Type t;
                                MetricTarget_Value :=
                                  Some (Quantity_Set q targetValue);
                                MetricTarget_AverageValue :=
                                  MetricTarget_AverageValue t;
                                MetricTarget_AverageUtilization :=
                                  MetricTarget_AverageUtilization t |} |} |}
          end
    end.

(** What a rewrite that returns without error makes of one metric. *)
Definition rewriteMetric (annotations : HorizontalPodAutoscaler)
    (target : string * ResourceName * Z) (m : MetricSpec) : MetricSpec :=
  let '(containerName, k, targetValue) := target in
  let m := setContainerResourceTarget containerName k targetValue m in
  match externalMetricNameFromAnnotation annotations containerName k with
  | (name, None) => setExternalTarget name targetValue m
  | (_, Some _) => m
  end.

(** The metric with the targets that the rewrites write set to 0. *)
Definition withoutTargets (m : MetricSpec) : MetricSpec :=
  if String.eqb (MetricSpec_Type m) ContainerResourceMetricSourceType then
    match MetricSpec_ContainerResource m with
    | Some cr =>
        let t := ContainerResource_Target cr in
        match MetricTarget_AverageUtilization t with
        | Some _ =>
            {| MetricSpec_Type := MetricSpec_Type m;
               MetricSpec_ContainerResource :=
                 Some {| ContainerResource_Name := ContainerResource_Name cr;
                         ContainerResource_Target :=
                           {| MetricTarget_Type := MetricTarget_Type t;
                              MetricTarget_Value := MetricTarget_Value t;
                              MetricTarget_AverageValue :=
                                MetricTarget_AverageValue t;
                              MetricTarget_AverageUtilization := Some 0 |};
                         ContainerResource_Container :=
                           ContainerResource_Container cr |};
               MetricSpec_External := MetricSpec_External m |}
        | None => m
        end
    | None => m
    end
  else if String.eqb (MetricSpec_Type m) ExternalMetricSourceType then
    match MetricSpec_External m with
    | Some ext =>
        let t := External_Target ext in
        match MetricTarget_Value t with
        | Some q =>
            {| MetricSpec_Type := MetricSpec_Type m;
               MetricSpec_ContainerResource := MetricSpec_ContainerResource m;
               MetricSpec_External :=
                 Some {| External_Metric_Name := External_Metric_Name ext;
                         External_Target :=
                           {| MetricTarget_Type := MetricTarget_Type t;
                              MetricTarget_Value := Some (Quantity_Set q 0);
                              MetricTarget_AverageValue :=
                                MetricTarget_AverageValue t;
                              MetricTarget_AverageUtilization :=
                                MetricTarget_AverageUtilization t |} |} |}
        | None => m
        end
    | None => m
    end
  else m.

(** The rewrite for [target] writes to [m]. *)
Definition writesTo (annotations : HorizontalPodAutoscaler)
    (target : string * ResourceName * Z) (m : MetricSpec) : bool :=
  let '(containerName, k, _) := target in
  (String.eqb (MetricSpec_Type m) ContainerResourceMetricSourceType
   && match MetricSpec_ContainerResource m with
      | Some cr =>
          String.eqb (ContainerResource_Container cr) containerName
          && String.eqb (ContainerResource_Name cr) k
          && bool_decide (is_Some (MetricTarget_AverageUtilization
                                     (ContainerResource_Target cr)))
      | None => false
      end)
  || (String.eqb (MetricSpec_Type m) ExternalMetricSourceType
      && match MetricSpec_External m, externalMetricNameFromAnnotation annotations containerName k with
         | Some ext, (name, None) =>
             String.eqb (External_Metric_Name ext) name
             && bool_decide (is_Some (MetricTarget_Value (External_Target ext)))
         | _, _ => false
         end).

(** What the rewrites for a list of targets, in order, make of one
    metric. *)
Definition rewriteAll (annotations : HorizontalPodAutoscaler)
    (targets : list (string * ResourceName * Z)) (m : MetricSpec)
    : MetricSpec :=
  fold_left (fun m target => rewriteMetric annotations target m) targets m.

(** [m] is an external metric of the given name without a value. *)
Definition lacksValue (name : string) (m : MetricSpec) : bool :=
  String.eqb (MetricSpec_Type m) ExternalMetricSourceType
  && match MetricSpec_External m with
     | Some ext =>
         String.eqb (External_Metric_Name ext) name
         && negb (bool_decide (is_Some (MetricTarget_Value (External_Target ext))))
     | None => false
     end.


(** The target can be written on [hpa]: its resource kind is cpu or
    memory, and no external metric of its name lacks a value. *)
Definition writable (hpa : HorizontalPodAutoscaler)
    (target : string * ResourceName * Z) : Prop :=
  exists name,
    externalMetricNameFromAnnotation hpa target.1.1 target.1.2 = (name, None)
    /\ ~ namedExternalWithoutValue name (HPA_Metrics hpa).


(** * Properties *)

(** ** The time-window lookup *)

Lemma slotMatches_inWindow now slot :
  slotMatches now slot = true <-> inWindow now slot.
Proof.
  unfold slotMatches, inWindow.
  rewrite !andb_true_iff, Z.ltb_lt, Z.geb_le, Z.eqb_eq. lia.
Qed.

Lemma slotMatches_false now slot :
  slotMatches now slot = false <-> ~ inWindow now slot.
Proof.
  rewrite <- slotMatches_inWindow. destruct (slotMatches now slot); split; congruence.
Qed.

Lemma getReplicasRecommendation_skip now before rest :
  (forall x, x ∈ before -> ~ inWindow now x) ->
  getReplicasRecommendation (before ++ rest) now
  = getReplicasRecommendation rest now.
Proof.
  induction before as [|x before IH]; intros Hno; [reflexivity|].
  simpl. rewrite (proj2 (slotMatches_false now x)).
  - apply IH. intros y Hy. apply Hno. by right.
  - apply Hno. by left.
Qed.

Lemma getReplicasRecommendation_none now slots :
  noSlot now slots ->
  getReplicasRecommendation slots now
  = (0, Some (errorString "no recommendation slot")).
Proof.
  intros Hno.
  rewrite <- (app_nil_r slots).
  by rewrite getReplicasRecommendation_skip.
Qed.

(** The lookup either finds the first slot that applies or no slot
    applies at all. *)
Lemma getReplicasRecommendation_cases now slots :
  (exists before slot after,
      slots = before ++ slot :: after
      /\ (forall x, x ∈ before -> ~ inWindow now x)
      /\ inWindow now slot
      /\ getReplicasRecommendation slots now = (Rec_Value slot, None))
  \/ (noSlot now slots
      /\ getReplicasRecommendation slots now
         = (0, Some (errorString "no recommendation slot"))).
Proof.
  induction slots as [|r slots IH].
  - right. split; [|reflexivity]. intros x Hx. inversion Hx.
  - destruct (slotMatches now r) eqn:Hr.
    + left. exists [], r, slots. simpl. rewrite Hr.
      split; [reflexivity|]. split; [intros x Hx; inversion Hx|].
      split; [by apply slotMatches_inWindow | reflexivity].
    + apply slotMatches_false in Hr as Hr'.
      destruct IH as [(before & slot & after & -> & Hb & Hs & Hg)|[Hno Hg]].
      * left. exists (r :: before), slot, after. simpl. rewrite Hr.
        split; [reflexivity|]. split; [|by split].
        intros x Hx. apply elem_of_cons in Hx as [->|Hx]; auto.
      * right. split.
        -- intros x Hx. apply elem_of_cons in Hx as [->|Hx]; auto.
        -- simpl. by rewrite Hr.
Qed.

Lemma getReplicasRecommendation_error now slots v err :
  getReplicasRecommendation slots now = (v, Some err) ->
  noSlot now slots /\ v = 0 /\ err = errorString "no recommendation slot".
Proof.
  destruct (getReplicasRecommendation_cases now slots)
    as [(? & ? & ? & _ & _ & _ & ->)|[Hno ->]]; intros [= <- <-]; auto.
Qed.

(** C6. For every list of slots and every [now], the lookup returns the
    value of the first slot, in list order, whose weekday is that of
    [now] and whose hours contain the hour of [now]; it returns the error
    of a missing slot when no slot is such. *)
Theorem getReplicasRecommendation_first_match
    (slots : list ReplicasRecommendation) (now : Time) :
  (forall before slot after,
      slots = before ++ slot :: after ->
      (forall x, x ∈ before -> ~ inWindow now x) ->
      inWindow now slot ->
      getReplicasRecommendation slots now = (Rec_Value slot, None))
  /\ (noSlot now slots ->
      getReplicasRecommendation slots now
      = (0, Some (errorString "no recommendation slot"))).
Proof.
  split.
  - intros before slot after -> Hbefore Hslot.
    rewrite getReplicasRecommendation_skip by assumption.
    simpl. by rewrite (proj2 (slotMatches_inWindow now slot)).
  - apply getReplicasRecommendation_none.
Qed.

(** ** The external metric name *)

Lemma updateHPATargetValue_annotations hpa containerName k targetValue :
  HPA_Annotations (fst (updateHPATargetValue hpa containerName k targetValue))
  = HPA_Annotations hpa.
Proof.
  unfold updateHPATargetValue.
  destruct (externalMetricNameFromAnnotation _ _ _) as [name [err|]];
    [reflexivity|].
  by destruct (setExternalTargets _ _ _).
Qed.

Lemma externalMetricNameFromAnnotation_set_Metrics hpa ms containerName k :
  externalMetricNameFromAnnotation (set_Metrics hpa ms) containerName k
  = externalMetricNameFromAnnotation hpa containerName k.
Proof. reflexivity. Qed.

(** C3 (amended). Computing the external metric name fails exactly when
    the resource kind is neither cpu nor memory, and [updateHPATargetValue]
    returns that error to its caller. For cpu and memory the name is the
    prefix annotation followed by the container name; an absent
    annotation reads as the empty prefix, so the name is then the
    container name alone and no error is raised. *)
Theorem externalMetricName_fails_only_on_unsupported_kind
    (hpa : HorizontalPodAutoscaler) (containerName : string)
    (k : ResourceName) (targetValue : Z) :
  (k = ResourceCPU ->
     externalMetricNameFromAnnotation hpa containerName k
     = (annotationOf hpa HPAContainerBasedCPUExternalMetricNamePrefixAnnotation
          +:+ containerName, None))
  /\ (k = ResourceMemory ->
     externalMetricNameFromAnnotation hpa containerName k
     = (annotationOf hpa HPAContainerBasedMemoryExternalMetricNamePrefixAnnotation
          +:+ containerName, None))
  /\ (forall key, HPA_Annotations hpa !! key = None ->
        annotationOf hpa key +:+ containerName = containerName)
  /\ (k <> ResourceCPU -> k <> ResourceMemory ->
      let err := errorString ("non supported resource type: " +:+ k) in
      externalMetricNameFromAnnotation hpa containerName k = ("", Some err)
      /\ snd (updateHPATargetValue hpa containerName k targetValue)
         = Return (Some err)).
Proof.
  unfold updateHPATargetValue.
  rewrite externalMetricNameFromAnnotation_set_Metrics.
  unfold externalMetricNameFromAnnotation.
  repeat split.
  - intros ->. by rewrite decide_True.
  - intros ->. rewrite decide_False by discriminate. by rewrite decide_True.
  - intros key Hkey. unfold annotationOf. by rewrite Hkey.
  - by rewrite !decide_False.
  - by rewrite !decide_False.
Qed.

(** ** Applying the recommendations *)

Ltac reach H :=
  let name := fresh "name" in
  let fetched := fresh "fetched" in
  let Hname := fresh "Hname" in
  let Hget := fresh "Hget" in
  let Happly := fresh "Happly" in
  destruct H as (name & fetched & Hname & -> & Hget & Happly);
  unfold UpdateHPAFromTortoiseRecommendation;
  rewrite Hname, Hget, Happly.

(** C4. When no slot of the maxReplicas list applies at [now], or the
    phase is not Emergency and no slot of the minReplicas list applies,
    the call returns an error and no resource, the store is left as it
    was and [Update] is not among the calls made; once the planner is
    reached the error is the one of the failed lookup. *)
Theorem lookup_failure_leaves_store_unchanged
    (c : Client) (s : S) (tortoise : Tortoise) (now : Time) :
  noSlot now (Status_MaxReplicas tortoise)
  \/ (Status_TortoisePhase tortoise <> TortoisePhaseEmergency
      /\ noSlot now (Status_MinReplicas tortoise)) ->
  let o := UpdateHPAFromTortoiseRecommendation c s tortoise now in
  store o = s
  /\ Forall (fun call => isUpdate call = false) (calls o)
  /\ (forall hpa t err,
        returned o = Return (hpa, t, err) -> hpa = None /\ is_Some err)
  /\ (forall key hpa,
        reachesPlanner s tortoise key hpa ->
        exists which,
          returned o = Return (None, tortoise, Some (recommendationGap which))).
Proof.
  intros Hfail o.
  assert (Hplan : forall hpa max,
    Status_TortoisePhase tortoise <> TortoisePhaseEmergency ->
    noSlot now (Status_MinReplicas tortoise) ->
    planMinReplicas c hpa tortoise now max
    = Return (0, tortoise,
              Some (recommendationGap "get minReplicas recommendation"))).
  { intros hpa max Hphase Hmin. unfold planMinReplicas.
    rewrite (getReplicasRecommendation_none _ _ Hmin).
    by destruct (Status_TortoisePhase tortoise). }
  assert (Htail : forall key hpa,
    let o' := planAndUpdate c s key hpa tortoise now in
    store o' = s /\ calls o' = [CallGet key]
    /\ exists which,
         returned o' = Return (None, tortoise, Some (recommendationGap which))).
  { intros key hpa. unfold planAndUpdate.
    destruct (getReplicasRecommendation (Status_MaxReplicas tortoise) now)
      as [max [err|]] eqn:Hmax.
    - apply getReplicasRecommendation_error in Hmax as (_ & _ & ->).
      simpl. eauto.
    - destruct Hfail as [Hno|[Hphase Hno]].
      + rewrite (getReplicasRecommendation_none _ _ Hno) in Hmax. discriminate.
      + simpl. rewrite (Hplan _ _ Hphase Hno). simpl. eauto. }
  assert (Hearly : forall (cs : list Call)
      (r : go (option HorizontalPodAutoscaler * Tortoise * option error)),
    Forall (fun call => isUpdate call = false) cs ->
    (forall hpa t err, r = Return (hpa, t, err) -> hpa = None /\ is_Some err) ->
    ~ (exists key hpa, reachesPlanner s tortoise key hpa) ->
    let o' := mkOutcome s cs r in
    store o' = s
    /\ Forall (fun call => isUpdate call = false) (calls o')
    /\ (forall hpa t err,
          returned o' = Return (hpa, t, err) -> hpa = None /\ is_Some err)
    /\ (forall key hpa,
          reachesPlanner s tortoise key hpa ->
          exists which,
            returned o'
            = Return (None, tortoise, Some (recommendationGap which)))).
  { intros cs r Hcs Hr Hnot. simpl. split; [reflexivity|].
    split; [exact Hcs|]. split; [exact Hr|].
    intros key hpa Hreach. exfalso. apply Hnot. eauto. }
  subst o. unfold UpdateHPAFromTortoiseRecommendation.
  destruct (Spec_TargetRefs_HorizontalPodAutoscalerName tortoise)
    as [name|] eqn:Hname.
  2:{ apply Hearly; [constructor|discriminate|].
      intros (key & hpa & ? & ? & ? & _). congruence. }
  destruct (client_Get s (Tortoise_Namespace tortoise, name))
    as [fetched|err] eqn:Hget.
  2:{ apply Hearly; [by repeat constructor| |].
      - intros ? ? ? [= <- _ <-]. split; eauto.
      - intros (key & hpa & ? & ? & Hn & -> & Hget' & _).
        rewrite Hname in Hn. injection Hn as <-. congruence. }
  destruct (applyTargets fetched (recommendedTargets tortoise))
    as [hpa [[err|]|]] eqn:Happly.
  - apply Hearly; [by repeat constructor| |].
    + intros ? ? ? [= <- _ <-]. split; eauto.
    + intros (key & hpa' & ? & ? & Hn & -> & Hget' & Happly').
      rewrite Hname in Hn. injection Hn as <-. rewrite Hget in Hget'. injection Hget' as <-.
      rewrite Happly in Happly'. discriminate.
  - destruct (Htail (Tortoise_Namespace tortoise, name) hpa)
      as (Hstore & Hcalls & which & Hret).
    split; [exact Hstore|]. split; [rewrite Hcalls; by repeat constructor|].
    split.
    + intros ? ? ? Heq. rewrite Hret in Heq. injection Heq as <- _ <-.
      split; eauto.
    + intros; eauto.
  - apply Hearly; [by repeat constructor|discriminate|].
    intros (key & hpa' & ? & ? & Hn & -> & Hget' & Happly').
    rewrite Hname in Hn. injection Hn as <-. rewrite Hget in Hget'. injection Hget' as <-.
    rewrite Happly in Happly'. discriminate.
Qed.

(** C5. In phase Emergency, when the maxReplicas lookup finds [max], a
    call that reaches the planner returns, and hands to [Update], a
    resource whose minReplicas and maxReplicas are both [max], whatever
    the fetched resource had; the tortoise is returned as it was, still
    in phase Emergency. Any resource the call returns is such. *)
Theorem emergency_pins_min_to_max
    (c : Client) (s : S) (tortoise : Tortoise) (now : Time) (max : Z) :
  Status_TortoisePhase tortoise = TortoisePhaseEmergency ->
  getReplicasRecommendation (Status_MaxReplicas tortoise) now = (max, None) ->
  let o := UpdateHPAFromTortoiseRecommendation c s tortoise now in
  (forall updated t err,
      returned o = Return (Some updated, t, err) ->
      HPA_MinReplicas updated = Some max /\ HPA_MaxReplicas updated = max
      /\ t = tortoise /\ Status_TortoisePhase t = TortoisePhaseEmergency)
  /\ (forall key hpa,
        reachesPlanner s tortoise key hpa ->
        exists updated,
          updated = set_MinReplicas (set_MaxReplicas hpa max) (Some max)
          /\ returned o
             = Return (Some updated, tortoise, snd (client_Update s updated))
          /\ calls o = [CallGet key; CallUpdate updated]
          /\ store o = fst (client_Update s updated)).
Proof.
  intros Hphase Hmax o. split.
  - subst o. unfold UpdateHPAFromTortoiseRecommendation.
    intros updated t err.
    destruct (Spec_TargetRefs_HorizontalPodAutoscalerName tortoise);
      [|discriminate].
    destruct (client_Get s _); [|discriminate].
    destruct (applyTargets _ _) as [hpa [[?|]|]]; try discriminate.
    unfold planAndUpdate.
    rewrite Hmax. unfold planMinReplicas. rewrite Hphase.
    destruct (client_Update s _) as [s' err'].
    simpl. intros [= <- <- <-]. auto.
  - intros key hpa Hreach. subst o. reach Hreach. unfold planAndUpdate.
    rewrite Hmax. unfold planMinReplicas. rewrite Hphase.
    eexists. split; [reflexivity|].
    by destruct (client_Update s _).
Qed.

(** C10. In phase Emergency the minReplicas list is not consulted: when
    the maxReplicas lookup succeeds and the planner is reached, the call
    hands the resource to [Update] and returns it with the answer of the
    store, even though no minReplicas slot applies at [now]; so it
    succeeds whenever the store accepts the update. The same tortoise in
    phase Working or BackToNormal fails with the error of the
    minReplicas lookup. *)
Theorem emergency_ignores_minReplicas
    (c : Client) (s : S) (tortoise : Tortoise) (now : Time) (max : Z)
    (key : NamespacedName) (hpa : HorizontalPodAutoscaler) :
  Status_TortoisePhase tortoise = TortoisePhaseEmergency ->
  noSlot now (Status_MinReplicas tortoise) ->
  getReplicasRecommendation (Status_MaxReplicas tortoise) now = (max, None) ->
  reachesPlanner s tortoise key hpa ->
  (let updated := set_MinReplicas (set_MaxReplicas hpa max) (Some max) in
   let o := UpdateHPAFromTortoiseRecommendation c s tortoise now in
   returned o = Return (Some updated, tortoise, snd (client_Update s updated))
   /\ calls o = [CallGet key; CallUpdate updated]
   /\ (snd (client_Update s updated) = None ->
       returned o = Return (Some updated, tortoise, None)))
  /\ (forall phase,
        phase = TortoisePhaseWorking \/ phase = TortoisePhaseBackToNormal ->
        let tortoise' := set_TortoisePhase tortoise phase in
        let o := UpdateHPAFromTortoiseRecommendation c s tortoise' now in
        returned o
        = Return (None, tortoise',
                  Some (recommendationGap "get minReplicas recommendation"))
        /\ store o = s /\ calls o = [CallGet key]).
Proof.
  intros Hphase Hmin Hmax Hreach. split.
  - reach Hreach. unfold planAndUpdate.
    rewrite Hmax. unfold planMinReplicas. rewrite Hphase.
    destruct (client_Update s _) as [s' err]. simpl.
    split; [reflexivity|]. split; [reflexivity|]. by intros ->.
  - intros phase Hp tortoise' o.
    assert (Hreach' : reachesPlanner s tortoise' key hpa).
    { destruct Hreach as (name & fetched & ? & ? & ? & ?).
      by exists name, fetched. }
    subst o. reach Hreach'. unfold planAndUpdate.
    change (Status_MaxReplicas tortoise') with (Status_MaxReplicas tortoise).
    rewrite Hmax. unfold planMinReplicas.
    change (Status_MinReplicas tortoise') with (Status_MinReplicas tortoise).
    rewrite (getReplicasRecommendation_none _ _ Hmin).
    by destruct Hp as [-> | ->].
Qed.

(** ** The metric rewrite *)

Lemma append_inv_head (p a b : string) : p +:+ a = p +:+ b -> a = b.
Proof. induction p as [|ch p IH]; simpl; [auto|]. intros [= H]. auto. Qed.

Lemma length_append (a b : string) :
  String.length (a +:+ b) = (String.length a + String.length b)%nat.
Proof. induction a as [|ch a IH]; simpl; [reflexivity|]. by rewrite IH. Qed.

Lemma append_inv_tail (p q a : string) : p +:+ a = q +:+ a -> p = q.
Proof.
  revert q. induction p as [|ch p IH]; intros [|ch' q] H; simpl in *.
  - reflexivity.
  - apply (f_equal String.length) in H.
    rewrite !length_append in H. simpl in H. lia.
  - apply (f_equal String.length) in H.
    rewrite !length_append in H. simpl in H. lia.
  - injection H as -> H. f_equal. auto.
Qed.

Lemma setContainerResourceTarget_cases containerName k targetValue m :
  let m' := setContainerResourceTarget containerName k targetValue m in
  MetricSpec_Type m' = MetricSpec_Type m
  /\ MetricSpec_External m' = MetricSpec_External m
  /\ (m' = m
      \/ (MetricSpec_Type m = ContainerResourceMetricSourceType
          /\ exists cr, MetricSpec_ContainerResource m = Some cr
                        /\ ContainerResource_Container cr = containerName
                        /\ ContainerResource_Name cr = k)).
Proof.
  unfold setContainerResourceTarget.
  destruct (String.eqb (MetricSpec_Type m) ContainerResourceMetricSourceType)
    eqn:Htype; simpl; [|auto].
  destruct (MetricSpec_ContainerResource m) as [cr|] eqn:Hcr; [|auto].
  destruct (String.eqb (ContainerResource_Container cr) containerName)
    eqn:Hc; simpl; [|auto].
  destruct (String.eqb (ContainerResource_Name cr) k) eqn:Hk; simpl; [|auto].
  destruct (bool_decide _); simpl; [|auto].
  repeat split. right.
  apply String.eqb_eq in Htype, Hc, Hk. eauto.
Qed.

Lemma setContainerResourceTarget_idempotent containerName k targetValue m :
  let f := setContainerResourceTarget containerName k targetValue in
  f (f m) = f m.
Proof.
  simpl. unfold setContainerResourceTarget.
  destruct (String.eqb (MetricSpec_Type m) ContainerResourceMetricSourceType)
    eqn:Htype; simpl; [|by rewrite Htype].
  destruct (MetricSpec_ContainerResource m) as [cr|] eqn:Hcr;
    [|by rewrite Htype, Hcr].
  destruct (String.eqb (ContainerResource_Container cr) containerName)
    eqn:Hc; simpl; [|by rewrite Htype, Hcr, Hc].
  destruct (String.eqb (ContainerResource_Name cr) k) eqn:Hk; simpl;
    [|by rewrite Htype, Hcr, Hc, Hk].
  destruct (bool_decide _) eqn:Hu; simpl;
    [|by rewrite Htype, Hcr, Hc, Hk, Hu].
  by rewrite Htype, Hc, Hk.
Qed.

(** The second loop keeps the length, and changes only external metrics
    of the given name. *)
Lemma setExternalTargets_length name targetValue ms :
  length (fst (setExternalTargets name targetValue ms)) = length ms.
Proof.
  induction ms as [|m ms IH]; [reflexivity|]. simpl.
  destruct (setExternalTargets name targetValue ms) as [rest r].
  simpl in IH.
  destruct (negb _); [simpl; by rewrite IH|].
  destruct (MetricSpec_External m) as [ext|]; [|simpl; by rewrite IH].
  destruct (negb _); [simpl; by rewrite IH|].
  destruct (MetricTarget_Value _); simpl; by rewrite ?IH.
Qed.

Lemma setExternalTargets_lookup name targetValue ms i m :
  ms !! i = Some m ->
  exists m',
    fst (setExternalTargets name targetValue ms) !! i = Some m'
    /\ MetricSpec_Type m' = MetricSpec_Type m
    /\ MetricSpec_ContainerResource m' = MetricSpec_ContainerResource m
    /\ (m' = m
        \/ (MetricSpec_Type m = ExternalMetricSourceType
            /\ exists ext, MetricSpec_External m = Some ext
                           /\ External_Metric_Name ext = name)).
Proof.
  revert i. induction ms as [|x ms IH]; intros i Hi; [inversion Hi|].
  simpl.
  destruct (setExternalTargets name targetValue ms) as [rest r] eqn:Hrest.
  simpl in IH.
  assert (Hsame :
    exists m', (x :: rest) !! i = Some m'
      /\ MetricSpec_Type m' = MetricSpec_Type m
      /\ MetricSpec_ContainerResource m' = MetricSpec_ContainerResource m
      /\ (m' = m
          \/ (MetricSpec_Type m = ExternalMetricSourceType
              /\ exists ext, MetricSpec_External m = Some ext
                             /\ External_Metric_Name ext = name))).
  { destruct i as [|i]; simpl in *.
    - injection Hi as ->. exists m. auto.
    - apply IH in Hi. exact Hi. }
  destruct (String.eqb (MetricSpec_Type x) ExternalMetricSourceType)
    eqn:Htype; simpl; [|apply Hsame].
  destruct (MetricSpec_External x) as [ext|] eqn:Hext; [|apply Hsame].
  destruct (String.eqb (External_Metric_Name ext) name) eqn:Hn; simpl;
    [|apply Hsame].
  apply String.eqb_eq in Htype, Hn.
  destruct (MetricTarget_Value (External_Target ext)) as [q|].
  - destruct i as [|i]; simpl in *.
    + injection Hi as <-. eexists. split; [reflexivity|]. simpl.
      repeat split. right. eauto.
    + apply IH in Hi. exact Hi.
  - simpl. exists m. split; [exact Hi|]. auto.
Qed.

Lemma updateHPATargetValue_length hpa containerName k targetValue :
  length (HPA_Metrics (fst (updateHPATargetValue hpa containerName k targetValue)))
  = length (HPA_Metrics hpa).
Proof.
  unfold updateHPATargetValue.
  destruct (externalMetricNameFromAnnotation _ _ _) as [name [err|]]; simpl.
  - by rewrite length_map.
  - pose proof (setExternalTargets_length name targetValue
      (map (setContainerResourceTarget containerName k targetValue)
           (HPA_Metrics hpa))) as Hlen.
    destruct (setExternalTargets _ _ _) as [ms r]. simpl in *.
    by rewrite Hlen, length_map.
Qed.

(** An element that the rewrite changes is a metric of the given
    container and resource kind. *)
Lemma updateHPATargetValue_frame hpa containerName k targetValue i m :
  HPA_Metrics hpa !! i = Some m ->
  HPA_Metrics (fst (updateHPATargetValue hpa containerName k targetValue)) !! i
  = Some m
  \/ metricFor hpa containerName k m.
Proof.
  intros Hi. unfold updateHPATargetValue.
  rewrite externalMetricNameFromAnnotation_set_Metrics.
  pose proof (setContainerResourceTarget_cases containerName k targetValue m)
    as (Htype & Hext & Hcr).
  set (f := setContainerResourceTarget containerName k targetValue) in *.
  assert (Hfi : map f (HPA_Metrics hpa) !! i = Some (f m)).
  { by rewrite list_lookup_fmap, Hi. }
  destruct (externalMetricNameFromAnnotation hpa containerName k)
    as [name [err|]] eqn:Hname; simpl.
  - destruct Hcr as [Heq|Hcr]; [left; congruence|right; by left].
  - pose proof (setExternalTargets_lookup name targetValue _ _ _ Hfi)
      as (m' & Hm' & _ & _ & Hcases).
    destruct (setExternalTargets _ _ _) as [ms r]. simpl in *.
    destruct Hcases as [->|(Ht & ext & He & Hn)].
    + destruct Hcr as [Heq|Hcr]; [left; congruence|right; by left].
    + right. right. rewrite <- Htype. split; [exact Ht|].
      exists ext. rewrite <- Hext. split; [exact He|]. by rewrite Hn.
Qed.

(** C8. The rewrite for a container and a resource kind keeps the number
    of metrics and changes only metrics of that container and kind. On a
    resource whose two prefix annotations differ, as those of the
    bootstrap do, the metrics of another container for the same kind and
    the metrics of the same container for the other kind are therefore
    left as they were: rewriting (api, cpu) changes no metric of
    (worker, cpu) or of (api, memory). *)
Theorem rewrite_changes_only_its_metrics
    (hpa : HorizontalPodAutoscaler) (containerName : string)
    (k : ResourceName) (targetValue : Z) :
  let hpa' := fst (updateHPATargetValue hpa containerName k targetValue) in
  length (HPA_Metrics hpa') = length (HPA_Metrics hpa)
  /\ (forall i m,
        HPA_Metrics hpa !! i = Some m ->
        HPA_Metrics hpa' !! i <> Some m ->
        metricFor hpa containerName k m)
  /\ (annotationOf hpa HPAContainerBasedCPUExternalMetricNamePrefixAnnotation
      <> annotationOf hpa HPAContainerBasedMemoryExternalMetricNamePrefixAnnotation ->
      forall other otherKind i m,
        other <> containerName ->
        (k = ResourceCPU /\ otherKind = ResourceMemory)
        \/ (k = ResourceMemory /\ otherKind = ResourceCPU) ->
        HPA_Metrics hpa !! i = Some m ->
        metricFor hpa other k m \/ metricFor hpa containerName otherKind m ->
        HPA_Metrics hpa' !! i = Some m).
Proof.
  intros hpa'. split; [apply updateHPATargetValue_length|]. split.
  - intros i m Hi Hne.
    destruct (updateHPATargetValue_frame hpa containerName k targetValue i m Hi);
      [contradiction|assumption].
  - intros Hprefix other otherKind i m Hother Hkinds Hi Hfor.
    destruct (updateHPATargetValue_frame hpa containerName k targetValue i m Hi)
      as [Hsame|Hmine]; [exact Hsame|exfalso].
    unfold metricFor, externalMetricNameFromAnnotation in *.
    destruct Hmine as [(Ht & cr & Hcr & Hc & Hk)|(Ht & ext & He & Hn)];
      destruct Hfor as [[(Ht' & cr' & Hcr' & Hc' & Hk')|(Ht' & ext' & He' & Hn')]
                       |[(Ht' & cr' & Hcr' & Hc' & Hk')|(Ht' & ext' & He' & Hn')]];
      try (rewrite Ht in Ht'; discriminate Ht');
      try (rewrite Hcr in Hcr'; injection Hcr' as <-);
      try (rewrite He in He'; injection He' as <-).
    + congruence.
    + destruct Hkinds as [[-> ->]|[-> ->]]; rewrite Hk in Hk'; discriminate.
    + destruct Hkinds as [[-> _]|[-> _]]; simpl in *;
        rewrite <- Hn' in Hn; injection Hn as Hn;
        apply append_inv_head in Hn; congruence.
    + destruct Hkinds as [[-> ->]|[-> ->]]; simpl in *;
        rewrite <- Hn' in Hn; injection Hn as Hn;
        apply append_inv_tail in Hn; congruence.
Qed.

Lemma Quantity_Set_idempotent q v :
  Quantity_Set (Quantity_Set q v) v = Quantity_Set q v.
Proof. reflexivity. Qed.

Lemma setExternalTargets_idempotent name targetValue ms :
  setExternalTargets name targetValue
    (fst (setExternalTargets name targetValue ms))
  = setExternalTargets name targetValue ms.
Proof.
  induction ms as [|m ms IH]; [reflexivity|]. simpl.
  destruct (setExternalTargets name targetValue ms) as [rest r] eqn:Hrest.
  simpl in IH.
  destruct (String.eqb (MetricSpec_Type m) ExternalMetricSourceType)
    eqn:Htype; simpl.
  2:{ by rewrite Htype, IH. }
  destruct (MetricSpec_External m) as [ext|] eqn:Hext; simpl.
  2:{ by rewrite Htype, Hext, IH. }
  destruct (String.eqb (External_Metric_Name ext) name) eqn:Hn; simpl.
  2:{ by rewrite Htype, Hext, Hn, IH. }
  destruct (MetricTarget_Value (External_Target ext)) as [q|] eqn:Hq; simpl.
  - by rewrite Htype, Hn, IH.
  - by rewrite Htype, Hext, Hn, Hq, Hrest.
Qed.

Lemma setExternalTargets_keeps_fixed containerName k name targetValue ms :
  let f := setContainerResourceTarget containerName k targetValue in
  map f ms = ms ->
  map f (fst (setExternalTargets name targetValue ms))
  = fst (setExternalTargets name targetValue ms).
Proof.
  intros f Hfix. apply list_eq. intros i.
  rewrite list_lookup_fmap.
  destruct (fst (setExternalTargets name targetValue ms) !! i) as [m'|] eqn:Hi;
    [|reflexivity].
  simpl. f_equal.
  assert (Hlt : (i < length ms)%nat).
  { rewrite <- (setExternalTargets_length name targetValue ms).
    by eapply lookup_lt_Some. }
  apply lookup_lt_is_Some in Hlt as [m Hm].
  destruct (setExternalTargets_lookup name targetValue ms i m Hm)
    as (m'' & Hm'' & Htype & _ & Hcases).
  rewrite Hi in Hm''. injection Hm'' as <-.
  destruct Hcases as [->|(Hext & _)].
  - apply (f_equal (fun l => l !! i)) in Hfix.
    rewrite list_lookup_fmap, Hm in Hfix. simpl in Hfix. congruence.
  - unfold f, setContainerResourceTarget. by rewrite Htype, Hext.
Qed.

(** C9. The rewrite is idempotent: run on the resource a first run has
    left, with the same container, resource kind and target, it leaves
    the same resource and returns the same result. *)
Theorem updateHPATargetValue_idempotent
    (hpa : HorizontalPodAutoscaler) (containerName : string)
    (k : ResourceName) (targetValue : Z) :
  let once := updateHPATargetValue hpa containerName k targetValue in
  updateHPATargetValue (fst once) containerName k targetValue = once.
Proof.
  simpl. unfold updateHPATargetValue.
  rewrite !externalMetricNameFromAnnotation_set_Metrics.
  set (f := setContainerResourceTarget containerName k targetValue).
  assert (Hff : map f (map f (HPA_Metrics hpa)) = map f (HPA_Metrics hpa)).
  { rewrite map_map. apply map_ext. intros m.
    apply setContainerResourceTarget_idempotent. }
  destruct (externalMetricNameFromAnnotation hpa containerName k)
    as [name [err|]] eqn:Hname; simpl.
  - rewrite externalMetricNameFromAnnotation_set_Metrics, Hname. simpl.
    by rewrite Hff.
  - pose proof (setExternalTargets_idempotent name targetValue
                  (map f (HPA_Metrics hpa))) as Hidem.
    pose proof (setExternalTargets_keeps_fixed containerName k name
                  targetValue (map f (HPA_Metrics hpa)) Hff) as Hkeep.
    destruct (setExternalTargets name targetValue (map f (HPA_Metrics hpa)))
      as [ms r] eqn:Hms.
    simpl in *. fold f in Hkeep.
    rewrite !externalMetricNameFromAnnotation_set_Metrics, Hname.
    by rewrite Hkeep, Hidem.
Qed.

(** ** The bootstrap *)

Lemma autoscalingPolicies_hasPolicy tortoise containerName k p :
  In (containerName, k, p) (autoscalingPolicies tortoise)
  <-> hasPolicy tortoise containerName k p.
Proof.
  unfold autoscalingPolicies, hasPolicy. rewrite in_flat_map. split.
  - intros (policy & Hpolicy & Hin). apply in_map_iff in Hin
      as ([k' p'] & [= <- <- <-] & Hin).
    exists policy. split; [by apply list_elem_of_In|]. split; [reflexivity|].
    apply elem_of_map_to_list. rewrite <- go_range_Permutation.
    by apply list_elem_of_In.
  - intros (policy & Hpolicy & <- & Hlookup).
    exists policy. split; [by apply list_elem_of_In|].
    apply in_map_iff. exists (k, p). split; [reflexivity|].
    apply list_elem_of_In. rewrite go_range_Permutation.
    by apply elem_of_map_to_list.
Qed.

(** The metric the loop body appends for one pair. *)
Lemma appendExternalMetrics_spec hpa policies : forall m ms,
  appendExternalMetrics hpa m policies = inl ms ->
  exists added,
    ms = m ++ added
    /\ Forall2
         (fun (pair : string * ResourceName * AutoscalingType) metric =>
            let '(containerName, k, p) := pair in
            exists name,
              externalMetricNameFromAnnotation hpa containerName k
              = (name, None)
              /\ externalMetricWithTarget metric name (bootstrapTarget p))
         policies added.
Proof.
  induction policies as [|[[containerName k] p] policies IH]; intros m ms.
  - simpl. intros [= <-]. exists []. by rewrite app_nil_r.
  - simpl.
    destruct (externalMetricNameFromAnnotation hpa containerName k)
      as [name [err|]] eqn:Hname; [discriminate|].
    intros Hrest. apply IH in Hrest as (added & -> & Hall).
    eexists (_ :: added). rewrite <- app_assoc. split; [reflexivity|].
    constructor; [|exact Hall].
    exists name. split; [exact Hname|].
    unfold externalMetricWithTarget. simpl.
    split; [reflexivity|]. split; [reflexivity|].
    eexists _, _. split; [reflexivity|]. simpl.
    repeat split; by destruct p.
Qed.

Lemma defaultHPA_name tortoise name dm containerName k metricName :
  externalMetricNameFromAnnotation (defaultHPA tortoise name dm) containerName k
  = (metricName, None) ->
  metricName = bootstrapPrefix tortoise k +:+ containerName.
Proof.
  unfold externalMetricNameFromAnnotation, annotationOf, bootstrapPrefix.
  destruct (decide (k = ResourceCPU)) as [->|Hcpu].
  - simpl. rewrite lookup_insert_ne by (by apply not_eq_sym).
    rewrite lookup_singleton_eq. simpl. by intros [= <-].
  - destruct (decide (k = ResourceMemory)) as [->|Hmem]; [|discriminate].
    simpl. rewrite lookup_insert_eq. simpl. by intros [= <-].
Qed.

(** C7. The resource that the bootstrap hands to [Create] has, for every
    container and resource kind of the autoscaling policy, an external
    metric named after the pair whose target is 50 when the mode of the
    pair is horizontal and 90 otherwise; it has no other metric, and as
    many metrics as there are pairs. *)
Theorem bootstrap_metrics
    (c : Client) (s : S) (tortoise : Tortoise) (dm : Deployment)
    (hpa : HorizontalPodAutoscaler) :
  In (CallCreate hpa) (calls (CreateHPAOnTortoise c s tortoise dm)) ->
  (forall containerName k p,
      hasPolicy tortoise containerName k p ->
      exists m,
        m ∈ HPA_Metrics hpa
        /\ externalMetricWithTarget m
             (bootstrapPrefix tortoise k +:+ containerName)
             (bootstrapTarget p))
  /\ (forall m,
        m ∈ HPA_Metrics hpa ->
        exists containerName k p,
          hasPolicy tortoise containerName k p
          /\ externalMetricWithTarget m
               (bootstrapPrefix tortoise k +:+ containerName)
               (bootstrapTarget p))
  /\ length (HPA_Metrics hpa)
     = sum_list (map (fun policy => size (Policy_AutoscalingPolicy policy))
                     (Spec_ResourcePolicy tortoise)).
Proof.
  unfold CreateHPAOnTortoise.
  destruct (Spec_TargetRefs_HorizontalPodAutoscalerName tortoise)
    as [name|]; [|intros []].
  destruct (appendExternalMetrics _ _ _) as [ms|err] eqn:Happend;
    [|intros []].
  destruct (client_Create s _) as [s' err]. simpl.
  intros [[= <-]|[]]. simpl.
  apply appendExternalMetrics_spec in Happend as (added & -> & Hall).
  simpl.
  assert (Hnamed :
    Forall2
      (fun (pair : string * ResourceName * AutoscalingType) metric =>
         externalMetricWithTarget metric
           (bootstrapPrefix tortoise pair.1.2 +:+ pair.1.1)
           (bootstrapTarget pair.2))
      (autoscalingPolicies tortoise) added).
  { eapply Forall2_impl; [exact Hall|].
    intros [[containerName k] p] metric (metricName & Hname & Hmetric).
    apply defaultHPA_name in Hname as ->. exact Hmetric. }
  clear Hall. split; [|split].
  - intros containerName k p Hpolicy.
    apply autoscalingPolicies_hasPolicy, list_elem_of_In in Hpolicy.
    apply list_elem_of_lookup in Hpolicy as [i Hi].
    destruct (Forall2_lookup_l _ _ _ _ _ Hnamed Hi) as (m & Hm & Hmetric).
    exists m. split; [by eapply list_elem_of_lookup_2|exact Hmetric].
  - intros m Hm. apply list_elem_of_lookup in Hm as [i Hi].
    destruct (Forall2_lookup_r _ _ _ _ _ Hnamed Hi)
      as ([[containerName k] p] & Hpair & Hmetric).
    exists containerName, k, p. split; [|exact Hmetric].
    apply autoscalingPolicies_hasPolicy, list_elem_of_In.
    by eapply list_elem_of_lookup_2.
  - rewrite <- (Forall2_length _ _ _ Hnamed).
    unfold autoscalingPolicies.
    induction (Spec_ResourcePolicy tortoise) as [|policy policies IH];
      [reflexivity|].
    simpl. rewrite length_app, length_map.
    f_equal; [|exact IH].
    rewrite go_range_Permutation. apply length_map_to_list.
Qed.

(** * Further properties of the package *)

(** ** What the metric rewrite writes *)

Lemma supportedKind_name hpa containerName k :
  supportedKind k ->
  exists name,
    externalMetricNameFromAnnotation hpa containerName k = (name, None).
Proof.
  unfold externalMetricNameFromAnnotation. intros [-> | ->].
  - rewrite decide_True by reflexivity. eauto.
  - rewrite decide_False by discriminate. rewrite decide_True by reflexivity.
    eauto.
Qed.

Lemma unsupportedKind_error hpa containerName k :
  ~ supportedKind k ->
  externalMetricNameFromAnnotation hpa containerName k
  = ("", Some (errorString ("non supported resource type: " +:+ k))).
Proof.
  unfold externalMetricNameFromAnnotation, supportedKind. intros Hk.
  rewrite !decide_False; [reflexivity| |]; intros ->; apply Hk; auto.
Qed.

Lemma supportedKind_dec k : supportedKind k \/ ~ supportedKind k.
Proof.
  unfold supportedKind.
  destruct (decide (k = ResourceCPU)); [auto|].
  destruct (decide (k = ResourceMemory)); [auto|].
  right. intros [|]; contradiction.
Qed.

Lemma setExternalTargets_panics name targetValue ms :
  snd (setExternalTargets name targetValue ms) = Panic
  <-> namedExternalWithoutValue name ms.
Proof.
  unfold namedExternalWithoutValue.
  induction ms as [|m ms IH]; simpl.
  - split; [discriminate|]. intros (m & ext & Hin & _). inversion Hin.
  - destruct (setExternalTargets name targetValue ms) as [rest r] eqn:Hrest.
    simpl in IH.
    assert (Hskip :
      (forall ext, MetricSpec_Type m = ExternalMetricSourceType ->
                   MetricSpec_External m = Some ext ->
                   External_Metric_Name ext = name ->
                   is_Some (MetricTarget_Value (External_Target ext))) ->
      r = Panic <->
      exists m0 ext,
        m0 ∈ m :: ms
        /\ MetricSpec_Type m0 = ExternalMetricSourceType
        /\ MetricSpec_External m0 = Some ext
        /\ External_Metric_Name ext = name
        /\ MetricTarget_Value (External_Target ext) = None).
    { intros Hhead. rewrite IH. split.
      - intros (m0 & ext & Hin & H). exists m0, ext. split; [by right|exact H].
      - intros (m0 & ext & Hin & Ht & He & Hn & Hv).
        apply elem_of_cons in Hin as [->|Hin]; [|eauto 8].
        destruct (Hhead ext Ht He Hn) as [q Hq]. congruence. }
    destruct (String.eqb (MetricSpec_Type m) ExternalMetricSourceType)
      eqn:Htype; simpl.
    2:{ apply Hskip. intros ext Ht. apply String.eqb_neq in Htype.
        contradiction. }
    destruct (MetricSpec_External m) as [ext|] eqn:Hext; simpl.
    2:{ apply Hskip. intros ext _ [=]. }
    destruct (String.eqb (External_Metric_Name ext) name) eqn:Hn; simpl.
    2:{ apply Hskip. intros ext' _ [= <-] Hn'. apply String.eqb_neq in Hn.
        contradiction. }
    destruct (MetricTarget_Value (External_Target ext)) as [q|] eqn:Hq; simpl.
    + apply Hskip. intros ext' _ [= <-] _. rewrite Hq. eauto.
    + split; [intros _|reflexivity].
      apply String.eqb_eq in Htype, Hn.
      exists m, ext. split; [by left|]. auto.
Qed.

Lemma setExternalTargets_writes name targetValue ms i m ext :
  snd (setExternalTargets name targetValue ms) = Return tt ->
  ms !! i = Some m ->
  MetricSpec_Type m = ExternalMetricSourceType ->
  MetricSpec_External m = Some ext ->
  External_Metric_Name ext = name ->
  exists q m' ext',
    MetricTarget_Value (External_Target ext) = Some q
    /\ fst (setExternalTargets name targetValue ms) !! i = Some m'
    /\ MetricSpec_External m' = Some ext'
    /\ External_Metric_Name ext' = name
    /\ MetricTarget_Type (External_Target ext')
       = MetricTarget_Type (External_Target ext)
    /\ MetricTarget_Value (External_Target ext')
       = Some (Quantity_Set q targetValue).
Proof.
  revert i. induction ms as [|x ms IH]; intros i Hret Hi Ht He Hn;
    [inversion Hi|].
  simpl in *.
  destruct (setExternalTargets name targetValue ms) as [rest r] eqn:Hrest.
  simpl in IH.
  destruct i as [|i]; simpl in Hi.
  - injection Hi as ->.
    rewrite (proj2 (String.eqb_eq _ _) Ht), He in *. simpl in *.
    rewrite (proj2 (String.eqb_eq _ _) Hn) in *. simpl in *.
    destruct (MetricTarget_Value (External_Target ext)) as [q|];
      [|discriminate].
    eexists q, _, _. simpl. split; [reflexivity|]. split; [reflexivity|].
    simpl. auto.
  - assert (Hr : r = Return tt).
    { destruct (negb (String.eqb (MetricSpec_Type x) ExternalMetricSourceType));
        [exact Hret|].
      destruct (MetricSpec_External x) as [ext0|]; [|exact Hret].
      destruct (negb (String.eqb (External_Metric_Name ext0) name));
        [exact Hret|].
      destruct (MetricTarget_Value (External_Target ext0));
        [exact Hret|discriminate]. }
    destruct (IH i Hr Hi Ht He Hn) as (q & m' & ext' & Hq & Hm' & H).
    exists q, m', ext'. split; [exact Hq|]. split; [|exact H].
    destruct (negb (String.eqb (MetricSpec_Type x) ExternalMetricSourceType));
      [exact Hm'|].
    destruct (MetricSpec_External x) as [ext0|]; [|exact Hm'].
    destruct (negb (String.eqb (External_Metric_Name ext0) name));
      [exact Hm'|].
    destruct (MetricTarget_Value (External_Target ext0));
      [exact Hm'|discriminate].
Qed.

Lemma setContainerResourceTarget_keeps_external containerName k targetValue ms name :
  namedExternalWithoutValue name
    (map (setContainerResourceTarget containerName k targetValue) ms)
  <-> namedExternalWithoutValue name ms.
Proof.
  unfold namedExternalWithoutValue. split.
  - intros (m' & ext & Hin & Ht & He & H).
    apply list_elem_of_fmap in Hin as (m & -> & Hin).
    destruct (setContainerResourceTarget_cases containerName k targetValue m)
      as (Htype & Hext & _).
    exists m, ext. rewrite <- Htype, <- Hext. auto.
  - intros (m & ext & Hin & Ht & He & H).
    destruct (setContainerResourceTarget_cases containerName k targetValue m)
      as (Htype & Hext & _).
    exists (setContainerResourceTarget containerName k targetValue m), ext.
    rewrite Htype, Hext. split; [|auto].
    apply list_elem_of_fmap. eauto.
Qed.

Lemma updateHPATargetValue_result hpa containerName k targetValue :
  let f := setContainerResourceTarget containerName k targetValue in
  updateHPATargetValue hpa containerName k targetValue
  = match externalMetricNameFromAnnotation hpa containerName k with
    | (_, Some err) => (set_Metrics hpa (map f (HPA_Metrics hpa)),
                        Return (Some err))
    | (name, None) =>
        let r := setExternalTargets name targetValue (map f (HPA_Metrics hpa)) in
        (set_Metrics hpa (fst r),
         match snd r with Return _ => Return None | Panic => Panic end)
    end.
Proof.
  simpl. unfold updateHPATargetValue.
  rewrite externalMetricNameFromAnnotation_set_Metrics.
  destruct (externalMetricNameFromAnnotation hpa containerName k)
    as [name [err|]]; [reflexivity|].
  simpl. by destruct (setExternalTargets _ _ _).
Qed.

(** X1. The rewrite sets the utilization target of every container
    resource metric of the given container and resource kind that has one,
    whatever it returns; and when it returns without error it has set the
    value of every external metric that bears the computed name to the
    target, at scale 0. *)
Theorem updateHPATargetValue_writes_targets
    (hpa : HorizontalPodAutoscaler) (containerName : string)
    (k : ResourceName) (targetValue : Z) :
  let hpa' := fst (updateHPATargetValue hpa containerName k targetValue) in
  (forall i m cr u,
      HPA_Metrics hpa !! i = Some m ->
      MetricSpec_Type m = ContainerResourceMetricSourceType ->
      MetricSpec_ContainerResource m = Some cr ->
      ContainerResource_Container cr = containerName ->
      ContainerResource_Name cr = k ->
      MetricTarget_AverageUtilization (ContainerResource_Target cr) = Some u ->
      exists m' cr',
        HPA_Metrics hpa' !! i = Some m'
        /\ MetricSpec_ContainerResource m' = Some cr'
        /\ ContainerResource_Container cr' = containerName
        /\ ContainerResource_Name cr' = k
        /\ MetricTarget_AverageUtilization (ContainerResource_Target cr')
           = Some targetValue)
  /\ (snd (updateHPATargetValue hpa containerName k targetValue) = Return None ->
      forall i m ext,
        HPA_Metrics hpa !! i = Some m ->
        MetricSpec_Type m = ExternalMetricSourceType ->
        MetricSpec_External m = Some ext ->
        externalMetricNameFromAnnotation hpa containerName k
        = (External_Metric_Name ext, None) ->
        exists q m' ext',
          MetricTarget_Value (External_Target ext) = Some q
          /\ HPA_Metrics hpa' !! i = Some m'
          /\ MetricSpec_External m' = Some ext'
          /\ External_Metric_Name ext' = External_Metric_Name ext
          /\ MetricTarget_Value (External_Target ext')
             = Some (Quantity_Set q targetValue)
          /\ Quantity_i_value (Quantity_Set q targetValue) = targetValue
          /\ Quantity_i_scale (Quantity_Set q targetValue) = 0).
Proof.
  intros hpa'. subst hpa'. rewrite updateHPATargetValue_result.
  set (f := setContainerResourceTarget containerName k targetValue).
  split.
  - intros i m cr u Hi Ht Hcr Hc Hk Hu.
    assert (Hfi : map f (HPA_Metrics hpa) !! i = Some (f m)).
    { by rewrite list_lookup_fmap, Hi. }
    assert (Hfm : exists cr',
      MetricSpec_ContainerResource (f m) = Some cr'
      /\ ContainerResource_Container cr' = containerName
      /\ ContainerResource_Name cr' = k
      /\ MetricTarget_AverageUtilization (ContainerResource_Target cr')
         = Some targetValue).
    { unfold f, setContainerResourceTarget.
      rewrite (proj2 (String.eqb_eq _ _) Ht), Hcr. simpl.
      rewrite (proj2 (String.eqb_eq _ _) Hc), (proj2 (String.eqb_eq _ _) Hk), Hu.
      simpl. eexists. split; [reflexivity|]. simpl. auto. }
    destruct Hfm as (cr' & Hcr' & H).
    destruct (externalMetricNameFromAnnotation hpa containerName k)
      as [name [err|]]; simpl.
    + exists (f m), cr'. auto.
    + destruct (setExternalTargets_lookup name targetValue _ _ _ Hfi)
        as (m' & Hm' & _ & Hsame & _).
      exists m', cr'. rewrite Hsame. auto.
  - destruct (externalMetricNameFromAnnotation hpa containerName k)
      as [name [err|]]; simpl; [discriminate|].
    intros Hret i m ext Hi Ht He [= ->].
    destruct (setContainerResourceTarget_cases containerName k targetValue m)
      as (Htype & Hext & _). fold f in Htype, Hext.
    assert (Hfi : map f (HPA_Metrics hpa) !! i = Some (f m)).
    { by rewrite list_lookup_fmap, Hi. }
    rewrite <- Htype in Ht. rewrite <- Hext in He.
    assert (Hr : snd (setExternalTargets (External_Metric_Name ext) targetValue
                        (map f (HPA_Metrics hpa))) = Return tt).
    { destruct (snd (setExternalTargets _ _ _)) as [[]|];
        [reflexivity|discriminate]. }
    destruct (setExternalTargets_writes _ targetValue _ i (f m) ext
                Hr Hfi Ht He eq_refl)
      as (q & m' & ext' & Hq & Hm' & He' & Hn' & _ & Hv').
    exists q, m', ext'. auto 10.
Qed.

(** X2. The rewrite panics exactly when the resource kind is cpu or memory
    and some external metric that bears the computed name has no value; on
    a resource whose external metrics all have a value it never panics. *)
Theorem updateHPATargetValue_panics_iff
    (hpa : HorizontalPodAutoscaler) (containerName : string)
    (k : ResourceName) (targetValue : Z) :
  (snd (updateHPATargetValue hpa containerName k targetValue) = Panic
   <-> exists name,
         externalMetricNameFromAnnotation hpa containerName k = (name, None)
         /\ namedExternalWithoutValue name (HPA_Metrics hpa))
  /\ (externalValuesSet (HPA_Metrics hpa) ->
      snd (updateHPATargetValue hpa containerName k targetValue) <> Panic).
Proof.
  assert (Hiff :
    snd (updateHPATargetValue hpa containerName k targetValue) = Panic
    <-> exists name,
          externalMetricNameFromAnnotation hpa containerName k = (name, None)
          /\ namedExternalWithoutValue name (HPA_Metrics hpa)).
  { rewrite updateHPATargetValue_result.
    destruct (externalMetricNameFromAnnotation hpa containerName k)
      as [name [err|]]; simpl.
    - split; [discriminate|]. intros (? & [=] & _).
    - split.
      + intros Hp. exists name. split; [reflexivity|].
        apply (setContainerResourceTarget_keeps_external
                 containerName k targetValue), setExternalTargets_panics
          with (targetValue := targetValue).
        by destruct (snd (setExternalTargets _ _ _)).
      + intros (? & [= <-] & Hwithout).
        apply (setContainerResourceTarget_keeps_external
                 containerName k targetValue), setExternalTargets_panics
          with (targetValue := targetValue) in Hwithout.
        by rewrite Hwithout. }
  split; [exact Hiff|].
  intros Hset Hpanic. apply Hiff in Hpanic
    as (name & _ & m & ext & Hin & Ht & He & _ & Hv).
  destruct (Hset m ext Hin Ht He) as [q Hq]. congruence.
Qed.

(** X3. A rewrite for a container and resource kind of which the resource
    has no metric leaves the resource as it was, and returns no error when
    the kind is cpu or memory: a recommendation without a metric is not an
    error. *)
Theorem updateHPATargetValue_without_metric
    (hpa : HorizontalPodAutoscaler) (containerName : string)
    (k : ResourceName) (targetValue : Z) :
  (forall m, m ∈ HPA_Metrics hpa -> ~ metricFor hpa containerName k m) ->
  fst (updateHPATargetValue hpa containerName k targetValue) = hpa
  /\ (supportedKind k ->
      snd (updateHPATargetValue hpa containerName k targetValue) = Return None).
Proof.
  intros Hnone. split.
  - assert (Hms :
      HPA_Metrics (fst (updateHPATargetValue hpa containerName k targetValue))
      = HPA_Metrics hpa).
    { apply list_eq. intros i.
      destruct (HPA_Metrics hpa !! i) as [m|] eqn:Hi.
      - destruct (updateHPATargetValue_frame hpa containerName k targetValue
                    i m Hi) as [Hsame|Hfor]; [exact Hsame|].
        exfalso. apply (Hnone m); [|exact Hfor].
        by eapply list_elem_of_lookup_2.
      - apply lookup_ge_None. rewrite updateHPATargetValue_length.
        by apply lookup_ge_None. }
    rewrite updateHPATargetValue_result in *.
    destruct (externalMetricNameFromAnnotation hpa containerName k)
      as [name [err|]]; simpl in *; destruct hpa; simpl in *;
      unfold set_Metrics; simpl; by rewrite Hms.
  - intros Hk.
    destruct (supportedKind_name hpa containerName k Hk) as [name Hname].
    destruct (snd (updateHPATargetValue hpa containerName k targetValue))
      as [[err|]|] eqn:Hret; [|reflexivity|].
    + rewrite updateHPATargetValue_result, Hname in Hret. simpl in Hret.
      by destruct (snd (setExternalTargets _ _ _)).
    + exfalso.
      rewrite updateHPATargetValue_result, Hname in Hret. simpl in Hret.
      assert (Hp : snd (setExternalTargets name targetValue
                          (map (setContainerResourceTarget containerName k
                                  targetValue) (HPA_Metrics hpa))) = Panic).
      { by destruct (snd (setExternalTargets _ _ _)). }
      apply setExternalTargets_panics,
        setContainerResourceTarget_keeps_external in Hp
        as (m & ext & Hin & Ht & He & Hn & _).
      apply (Hnone m Hin). right. split; [exact Ht|].
      exists ext. split; [exact He|]. by rewrite Hn.
Qed.

(** ** The metric rewrites of a reconciliation *)

Lemma recommendedTargets_recommendsTarget tortoise containerName k v :
  In (containerName, k, v) (recommendedTargets tortoise)
  <-> recommendsTarget tortoise containerName k v.
Proof.
  unfold recommendedTargets, recommendsTarget. rewrite in_flat_map. split.
  - intros (t & Ht & Hin). apply in_map_iff in Hin
      as ([k' v'] & [= <- <- <-] & Hin).
    exists t. split; [by apply list_elem_of_In|]. split; [reflexivity|].
    apply elem_of_map_to_list. rewrite <- go_range_Permutation.
    by apply list_elem_of_In.
  - intros (t & Ht & <- & Hlookup).
    exists t. split; [by apply list_elem_of_In|].
    apply in_map_iff. exists (k, v). split; [reflexivity|].
    apply list_elem_of_In. rewrite go_range_Permutation.
    by apply elem_of_map_to_list.
Qed.

Lemma updateHPATargetValue_no_panic hpa containerName k targetValue :
  (snd (updateHPATargetValue hpa containerName k targetValue) = Panic
   -> exists name, namedExternalWithoutValue name (HPA_Metrics hpa))
  /\ (externalValuesSet (HPA_Metrics hpa) ->
      snd (updateHPATargetValue hpa containerName k targetValue) <> Panic).
Proof.
  assert (Himp :
    snd (updateHPATargetValue hpa containerName k targetValue) = Panic
    -> exists name, namedExternalWithoutValue name (HPA_Metrics hpa)).
  { rewrite updateHPATargetValue_result.
    destruct (externalMetricNameFromAnnotation hpa containerName k)
      as [name [err|]]; simpl; [discriminate|].
    intros Hp. exists name.
    apply (setContainerResourceTarget_keeps_external
             containerName k targetValue), setExternalTargets_panics
      with (targetValue := targetValue).
    by destruct (snd (setExternalTargets _ _ _)). }
  split; [exact Himp|].
  intros Hset Hpanic. apply Himp in Hpanic
    as (name & m & ext & Hin & Ht & He & _ & Hv).
  destruct (Hset m ext Hin Ht He) as [q Hq]. congruence.
Qed.

Lemma setExternalTargets_keeps_values name targetValue ms :
  externalValuesSet ms ->
  externalValuesSet (fst (setExternalTargets name targetValue ms)).
Proof.
  unfold externalValuesSet.
  induction ms as [|x ms IH]; intros Hset; [exact Hset|]. simpl.
  destruct (setExternalTargets name targetValue ms) as [rest r] eqn:Hrest.
  simpl in IH.
  assert (Hrest' : forall m ext, m ∈ rest ->
            MetricSpec_Type m = ExternalMetricSourceType ->
            MetricSpec_External m = Some ext ->
            is_Some (MetricTarget_Value (External_Target ext))).
  { apply IH. intros m ext Hin. apply Hset. by right. }
  assert (Hkeep : forall m ext, m ∈ x :: rest ->
            MetricSpec_Type m = ExternalMetricSourceType ->
            MetricSpec_External m = Some ext ->
            is_Some (MetricTarget_Value (External_Target ext))).
  { intros m ext Hin. apply elem_of_cons in Hin as [->|Hin]; [|by apply Hrest'].
    apply Hset. by left. }
  destruct (negb (String.eqb (MetricSpec_Type x) ExternalMetricSourceType));
    [exact Hkeep|].
  destruct (MetricSpec_External x) as [ext0|] eqn:Hext; [|exact Hkeep].
  destruct (negb (String.eqb (External_Metric_Name ext0) name));
    [exact Hkeep|].
  destruct (MetricTarget_Value (External_Target ext0)) as [q|] eqn:Hq; simpl.
  - intros m ext Hin Ht He.
    apply elem_of_cons in Hin as [->|Hin]; [|by eapply Hrest'].
    simpl in He. injection He as <-. simpl. eauto.
  - exact Hset.
Qed.

Lemma updateHPATargetValue_keeps_values hpa containerName k targetValue :
  externalValuesSet (HPA_Metrics hpa) ->
  externalValuesSet
    (HPA_Metrics (fst (updateHPATargetValue hpa containerName k targetValue))).
Proof.
  intros Hset. rewrite updateHPATargetValue_result.
  assert (Hmap : externalValuesSet
            (map (setContainerResourceTarget containerName k targetValue)
                 (HPA_Metrics hpa))).
  { intros m' ext Hin Ht He.
    apply list_elem_of_fmap in Hin as (m & -> & Hin).
    destruct (setContainerResourceTarget_cases containerName k targetValue m)
      as (Htype & Hext & _).
    rewrite Htype in Ht. rewrite Hext in He. eauto. }
  destruct (externalMetricNameFromAnnotation hpa containerName k)
    as [name [err|]]; simpl; [exact Hmap|].
  by apply setExternalTargets_keeps_values.
Qed.

Lemma updateHPATargetValue_sameObject hpa containerName k targetValue :
  let hpa' := fst (updateHPATargetValue hpa containerName k targetValue) in
  sameObject hpa hpa'
  /\ HPA_MinReplicas hpa' = HPA_MinReplicas hpa
  /\ HPA_MaxReplicas hpa' = HPA_MaxReplicas hpa.
Proof.
  simpl. pose proof (updateHPATargetValue_length hpa containerName k targetValue)
    as Hlen.
  rewrite updateHPATargetValue_result in *.
  destruct (externalMetricNameFromAnnotation hpa containerName k)
    as [name [err|]]; simpl in *; unfold sameObject; simpl; auto 10.
Qed.

Lemma sameObject_trans a b c : sameObject a b -> sameObject b c -> sameObject a c.
Proof. unfold sameObject. intuition congruence. Qed.

Lemma sameObject_refl a : sameObject a a.
Proof. unfold sameObject. auto 10. Qed.

(** The rewrites of a reconciliation keep the object and its replica
    bounds, and keep every external metric with a value. *)
Lemma applyTargets_sameObject targets : forall hpa,
  let hpa' := fst (applyTargets hpa targets) in
  sameObject hpa hpa'
  /\ HPA_MinReplicas hpa' = HPA_MinReplicas hpa
  /\ HPA_MaxReplicas hpa' = HPA_MaxReplicas hpa
  /\ (externalValuesSet (HPA_Metrics hpa) ->
      externalValuesSet (HPA_Metrics hpa')).
Proof.
  induction targets as [|[[containerName k] v] targets IH]; intros hpa; simpl.
  - split; [apply sameObject_refl|]. auto.
  - pose proof (updateHPATargetValue_sameObject hpa containerName k v)
      as (Hsame & Hmin & Hmax).
    pose proof (updateHPATargetValue_keeps_values hpa containerName k v)
      as Hvalues.
    destruct (updateHPATargetValue hpa containerName k v)
      as [hpa1 [[err|]|]]; simpl in *; auto.
    destruct (IH hpa1) as (Hsame' & Hmin' & Hmax' & Hvalues').
    split; [by eapply sameObject_trans|].
    split; [congruence|]. split; [congruence|]. auto.
Qed.

(** With every external metric valued, the rewrites of a reconciliation
    go through when every recommended resource kind is cpu or memory, and
    stop with an error otherwise. *)
Lemma applyTargets_outcome targets : forall hpa,
  externalValuesSet (HPA_Metrics hpa) ->
  (Forall (fun t : string * ResourceName * Z => supportedKind t.1.2) targets ->
   snd (applyTargets hpa targets) = Return None)
  /\ (Exists (fun t : string * ResourceName * Z => ~ supportedKind t.1.2) targets ->
      exists err, snd (applyTargets hpa targets) = Return (Some err)).
Proof.
  induction targets as [|[[containerName k] v] targets IH]; intros hpa Hset.
  - split; [reflexivity|]. intros Hex. inversion Hex.
  - simpl.
    pose proof (updateHPATargetValue_keeps_values hpa containerName k v Hset)
      as Hvalues.
    pose proof (proj2 (updateHPATargetValue_no_panic hpa containerName k v)
                  Hset) as Hnopanic.
    pose proof (updateHPATargetValue_result hpa containerName k v) as Hres.
    destruct (supportedKind_dec k) as [Hk|Hk].
    + destruct (supportedKind_name hpa containerName k Hk) as [name Hname].
      rewrite Hname in Hres. simpl in Hres.
      destruct (updateHPATargetValue hpa containerName k v)
        as [hpa1 [[err|]|]]; simpl in *.
      * injection Hres as _ Hres.
        by destruct (snd (setExternalTargets _ _ _)).
      * destruct (IH hpa1 Hvalues) as [Hall Hex]. split.
        -- intros Hforall. apply Hall. by inversion Hforall.
        -- intros Hexists. apply Hex.
           inversion Hexists; subst; [contradiction|assumption].
      * contradiction.
    + rewrite (unsupportedKind_error hpa containerName k Hk) in Hres.
      simpl in Hres. rewrite Hres. simpl. split.
      * intros Hforall. inversion Hforall; subst. contradiction.
      * eauto.
Qed.

(** ** The reconciliation as a whole *)

Lemma planAndUpdate_calls c s key hpa tortoise now :
  let o := planAndUpdate c s key hpa tortoise now in
  (calls o = [CallGet key] /\ store o = s
   /\ forall updated t err,
        returned o = Return (updated, t, err) -> updated = None /\ is_Some err)
  \/ (exists updated t,
        calls o = [CallGet key; CallUpdate updated]
        /\ store o = fst (client_Update s updated)
        /\ returned o = Return (Some updated, t, snd (client_Update s updated))
        /\ sameObject hpa updated).
Proof.
  simpl. unfold planAndUpdate.
  destruct (getReplicasRecommendation (Status_MaxReplicas tortoise) now)
    as [max [err|]].
  { left. simpl. split; [reflexivity|]. split; [reflexivity|].
    intros ? ? ? [= <- _ <-]. eauto. }
  destruct (planMinReplicas c (set_MaxReplicas hpa max) tortoise now max)
    as [[[min t] [err|]]|].
  - left. simpl. split; [reflexivity|]. split; [reflexivity|].
    intros ? ? ? [= <- _ <-]. eauto.
  - right. exists (set_MinReplicas (set_MaxReplicas hpa max) (Some min)), t.
    destruct (client_Update s _) as [s' err]. simpl.
    split; [reflexivity|]. split; [reflexivity|]. split; [reflexivity|].
    unfold sameObject. simpl. auto 10.
  - left. simpl. split; [reflexivity|]. split; [reflexivity|]. discriminate.
Qed.

(** X4. A reconciliation calls the store at most twice and never creates:
    either it panics on a missing autoscaler name before any call, or it
    makes one [Get] and returns no resource (an error, or a panic), or it
    makes one [Get] and then one [Update]. The store changes through that
    [Update] only; a resource is returned exactly when [Update] was called,
    it is the one handed to [Update], the error returned is the answer of
    the store, and the resource is the fetched one with other replica
    bounds and metric targets. *)
Theorem UpdateHPAFromTortoiseRecommendation_calls
    (c : Client) (s : S) (tortoise : Tortoise) (now : Time) :
  let o := UpdateHPAFromTortoiseRecommendation c s tortoise now in
  (Spec_TargetRefs_HorizontalPodAutoscalerName tortoise = None
   /\ calls o = [] /\ store o = s /\ returned o = Panic)
  \/ (exists key,
        calls o = [CallGet key] /\ store o = s
        /\ forall updated t err,
             returned o = Return (updated, t, err) ->
             updated = None /\ is_Some err)
  \/ (exists key fetched updated t,
        calls o = [CallGet key; CallUpdate updated]
        /\ client_Get s key = inl fetched
        /\ store o = fst (client_Update s updated)
        /\ returned o = Return (Some updated, t, snd (client_Update s updated))
        /\ sameObject fetched updated).
Proof.
  simpl. unfold UpdateHPAFromTortoiseRecommendation.
  destruct (Spec_TargetRefs_HorizontalPodAutoscalerName tortoise) as [name|];
    [|left; auto].
  right.
  destruct (client_Get s (Tortoise_Namespace tortoise, name))
    as [fetched|err] eqn:Hget.
  2:{ left. eexists. split; [reflexivity|]. split; [reflexivity|].
      intros ? ? ? [= <- _ <-]. eauto. }
  pose proof (applyTargets_sameObject (recommendedTargets tortoise) fetched)
    as (Hsame & _).
  destruct (applyTargets fetched (recommendedTargets tortoise))
    as [hpa [[err|]|]]; simpl in Hsame.
  - left. eexists. split; [reflexivity|]. split; [reflexivity|].
    intros ? ? ? [= <- _ <-]. eauto.
  - destruct (planAndUpdate_calls c s (Tortoise_Namespace tortoise, name)
                hpa tortoise now)
      as [(Hcalls & Hstore & Hret)|(updated & t & Hcalls & Hstore & Hret & Hobj)].
    + left. eauto.
    + right. exists (Tortoise_Namespace tortoise, name), fetched, updated, t.
      split; [exact Hcalls|]. split; [exact Hget|]. split; [exact Hstore|].
      split; [exact Hret|]. by eapply sameObject_trans.
  - left. eexists. split; [reflexivity|]. split; [reflexivity|]. discriminate.
Qed.

(** X5. When the store has no object under the name of the autoscaler,
    both [GetHPAOnTortoise] and the reconciliation return the error of the
    store wrapped in the same message, after that one [Get], and leave the
    store and the tortoise as they were. *)
Theorem get_failure_is_returned
    (c : Client) (s : S) (tortoise : Tortoise) (now : Time)
    (name : string) (err : error) :
  Spec_TargetRefs_HorizontalPodAutoscalerName tortoise = Some name ->
  client_Get s (Tortoise_Namespace tortoise, name) = inr err ->
  let wrapped := wrapError "failed to get hpa on tortoise" err in
  let key := (Tortoise_Namespace tortoise, name) in
  GetHPAOnTortoise c s tortoise
  = mkOutcome s [CallGet key] (Return (None, Some wrapped))
  /\ UpdateHPAFromTortoiseRecommendation c s tortoise now
     = mkOutcome s [CallGet key] (Return (None, tortoise, Some wrapped)).
Proof.
  intros Hname Hget. simpl.
  unfold GetHPAOnTortoise, UpdateHPAFromTortoiseRecommendation.
  by rewrite Hname, Hget.
Qed.

(** X6. Once the object is fetched and each of its external metrics has a
    value, the metric rewrites of a reconciliation cannot panic: they reach
    the planner, with the same object and the same minReplicas, when every
    recommended resource kind is cpu or memory; and when some recommended
    kind is another one, the reconciliation returns the one fixed error
    message, not the error of the kind, without any [Update]. *)
Theorem rewrites_reach_planner_or_fail
    (c : Client) (s : S) (tortoise : Tortoise) (now : Time)
    (name : string) (fetched : HorizontalPodAutoscaler) :
  Spec_TargetRefs_HorizontalPodAutoscalerName tortoise = Some name ->
  client_Get s (Tortoise_Namespace tortoise, name) = inl fetched ->
  externalValuesSet (HPA_Metrics fetched) ->
  let key := (Tortoise_Namespace tortoise, name) in
  ((forall containerName k v,
       recommendsTarget tortoise containerName k v -> supportedKind k) ->
   exists hpa,
     reachesPlanner s tortoise key hpa
     /\ sameObject fetched hpa
     /\ HPA_MinReplicas hpa = HPA_MinReplicas fetched
     /\ externalValuesSet (HPA_Metrics hpa))
  /\ ((exists containerName k v,
          recommendsTarget tortoise containerName k v /\ ~ supportedKind k) ->
      UpdateHPAFromTortoiseRecommendation c s tortoise now
      = mkOutcome s [CallGet key]
          (Return (None, tortoise,
                   Some (errorString
                           "update HPA from the recommendation from tortoise")))).
Proof.
  intros Hname Hget Hset key.
  pose proof (applyTargets_outcome (recommendedTargets tortoise) fetched Hset)
    as [Hok Hfail].
  pose proof (applyTargets_sameObject (recommendedTargets tortoise) fetched)
    as (Hsame & Hmin & _ & Hvalues).
  split.
  - intros Hkinds.
    assert (Hall : Forall (fun t : string * ResourceName * Z => supportedKind t.1.2)
                     (recommendedTargets tortoise)).
    { apply List.Forall_forall. intros [[containerName k] v] Hin.
      apply recommendedTargets_recommendsTarget in Hin. simpl. eauto. }
    specialize (Hok Hall).
    exists (fst (applyTargets fetched (recommendedTargets tortoise))).
    split; [|auto].
    exists name, fetched. split; [exact Hname|]. split; [reflexivity|].
    split; [exact Hget|].
    destruct (applyTargets fetched (recommendedTargets tortoise)); simpl in *.
    by subst.
  - intros (containerName & k & v & Hrec & Hk).
    assert (Hex : Exists (fun t : string * ResourceName * Z => ~ supportedKind t.1.2)
                    (recommendedTargets tortoise)).
    { apply List.Exists_exists. exists (containerName, k, v).
      split; [by apply recommendedTargets_recommendsTarget|exact Hk]. }
    destruct (Hfail Hex) as [err Herr].
    unfold UpdateHPAFromTortoiseRecommendation. rewrite Hname, Hget.
    destruct (applyTargets fetched (recommendedTargets tortoise)) as [hpa r].
    simpl in Herr. by subst r.
Qed.

(** X7. In phase Working, and in any phase other than Emergency and
    BackToNormal, a reconciliation that reaches the planner with both
    lookups found sets maxReplicas and minReplicas to the two looked-up
    values, without damping, hands the resource to [Update] and returns the
    tortoise as it was. *)
Theorem working_takes_both_recommendations
    (c : Client) (s : S) (tortoise : Tortoise) (now : Time) (max min : Z)
    (key : NamespacedName) (hpa : HorizontalPodAutoscaler) :
  Status_TortoisePhase tortoise <> TortoisePhaseEmergency ->
  Status_TortoisePhase tortoise <> TortoisePhaseBackToNormal ->
  getReplicasRecommendation (Status_MaxReplicas tortoise) now = (max, None) ->
  getReplicasRecommendation (Status_MinReplicas tortoise) now = (min, None) ->
  reachesPlanner s tortoise key hpa ->
  let updated := set_MinReplicas (set_MaxReplicas hpa max) (Some min) in
  UpdateHPAFromTortoiseRecommendation c s tortoise now
  = mkOutcome (fst (client_Update s updated))
      [CallGet key; CallUpdate updated]
      (Return (Some updated, tortoise, snd (client_Update s updated))).
Proof.
  intros Hne Hnb Hmax Hmin Hreach updated. reach Hreach.
  unfold planAndUpdate. rewrite Hmax. unfold planMinReplicas. rewrite Hmin.
  subst updated.
  destruct (Status_TortoisePhase tortoise); try congruence;
    by destruct (client_Update s _).
Qed.

(** X8. In phase BackToNormal, a reconciliation that reaches the planner
    with both lookups found, on a resource that has a minReplicas, sets
    minReplicas to the greater of the looked-up ideal minimum and the
    reduced current minimum, so never below the ideal minimum; the tortoise
    moves to phase Working exactly when the reduced value is below the
    ideal minimum, and is returned as it was otherwise. *)
Theorem backToNormal_takes_greater
    (c : Client) (s : S) (tortoise : Tortoise) (now : Time)
    (max idealMin currentMin : Z)
    (key : NamespacedName) (hpa : HorizontalPodAutoscaler) :
  Status_TortoisePhase tortoise = TortoisePhaseBackToNormal ->
  getReplicasRecommendation (Status_MaxReplicas tortoise) now = (max, None) ->
  getReplicasRecommendation (Status_MinReplicas tortoise) now = (idealMin, None) ->
  reachesPlanner s tortoise key hpa ->
  HPA_MinReplicas hpa = Some currentMin ->
  let reduced := reducedMinReplicas c currentMin in
  let updated :=
    set_MinReplicas (set_MaxReplicas hpa max) (Some (Z.max idealMin reduced)) in
  let tortoise' :=
    if reduced <? idealMin
    then set_TortoisePhase tortoise TortoisePhaseWorking else tortoise in
  UpdateHPAFromTortoiseRecommendation c s tortoise now
  = mkOutcome (fst (client_Update s updated))
      [CallGet key; CallUpdate updated]
      (Return (Some updated, tortoise', snd (client_Update s updated)))
  /\ HPA_MinReplicas updated = Some (Z.max idealMin reduced)
  /\ idealMin <= Z.max idealMin reduced
  /\ (Status_TortoisePhase tortoise' = TortoisePhaseWorking
      <-> reduced < idealMin).
Proof.
  intros Hphase Hmax Hmin Hreach Hcurrent reduced updated tortoise'.
  split; [|split; [reflexivity|split; [lia|]]].
  - reach Hreach. unfold planAndUpdate. rewrite Hmax.
    unfold planMinReplicas. rewrite Hphase, Hmin.
    change (HPA_MinReplicas (set_MaxReplicas hpa max))
      with (HPA_MinReplicas hpa).
    rewrite Hcurrent. fold reduced. subst updated tortoise'.
    rewrite Z.gtb_ltb.
    destruct (reduced <? idealMin) eqn:Hlt.
    + apply Z.ltb_lt in Hlt. rewrite Z.max_l by lia.
      by destruct (client_Update s _).
    + apply Z.ltb_ge in Hlt. rewrite Z.max_r by lia.
      by destruct (client_Update s _).
  - subst tortoise'. destruct (reduced <? idealMin) eqn:Hlt.
    + apply Z.ltb_lt in Hlt. simpl. tauto.
    + apply Z.ltb_ge in Hlt. rewrite Hphase. split; [discriminate|lia].
Qed.

(** X9. The planner reads the current minReplicas in phase BackToNormal
    only: there, on a resource without minReplicas, a reconciliation whose
    lookups both succeed panics after the [Get] and before any [Update];
    in phase Emergency the same resource is given a minReplicas. *)
Theorem missing_minReplicas_panics_in_backToNormal
    (c : Client) (s : S) (tortoise : Tortoise) (now : Time)
    (max idealMin : Z) (key : NamespacedName) (hpa : HorizontalPodAutoscaler) :
  getReplicasRecommendation (Status_MaxReplicas tortoise) now = (max, None) ->
  getReplicasRecommendation (Status_MinReplicas tortoise) now = (idealMin, None) ->
  reachesPlanner s tortoise key hpa ->
  HPA_MinReplicas hpa = None ->
  (Status_TortoisePhase tortoise = TortoisePhaseBackToNormal ->
   UpdateHPAFromTortoiseRecommendation c s tortoise now
   = mkOutcome s [CallGet key] Panic)
  /\ (Status_TortoisePhase tortoise = TortoisePhaseEmergency ->
      exists updated,
        returned (UpdateHPAFromTortoiseRecommendation c s tortoise now)
        = Return (Some updated, tortoise, snd (client_Update s updated))
        /\ HPA_MinReplicas updated = Some max).
Proof.
  intros Hmax Hmin Hreach Hnone. split; intros Hphase.
  - reach Hreach. unfold planAndUpdate. rewrite Hmax.
    unfold planMinReplicas. rewrite Hphase, Hmin.
    change (HPA_MinReplicas (set_MaxReplicas hpa max))
      with (HPA_MinReplicas hpa).
    by rewrite Hnone.
  - reach Hreach. unfold planAndUpdate. rewrite Hmax.
    unfold planMinReplicas. rewrite Hphase.
    exists (set_MinReplicas (set_MaxReplicas hpa max) (Some max)).
    by destruct (client_Update s _).
Qed.

(** ** The bootstrap as a whole *)

Lemma appendExternalMetrics_outcome hpa policies : forall m,
  (Forall (fun t : string * ResourceName * AutoscalingType => supportedKind t.1.2)
     policies ->
   exists ms, appendExternalMetrics hpa m policies = inl ms)
  /\ (Exists (fun t : string * ResourceName * AutoscalingType =>
                ~ supportedKind t.1.2) policies ->
      exists containerName k p,
        In (containerName, k, p) policies /\ ~ supportedKind k
        /\ appendExternalMetrics hpa m policies
           = inr (errorString ("non supported resource type: " +:+ k))).
Proof.
  induction policies as [|[[containerName k] p] policies IH]; intros m.
  - split; [simpl; eauto|]. intros Hex. inversion Hex.
  - simpl. destruct (supportedKind_dec k) as [Hk|Hk].
    + destruct (supportedKind_name hpa containerName k Hk) as [name ->].
      destruct (IH (m ++ [ {| MetricSpec_Type := ExternalMetricSourceType;
                             MetricSpec_ContainerResource := None;
                             MetricSpec_External :=
                               Some {| External_Metric_Name := name;
                                       External_Target :=
                                         {| MetricTarget_Type := ValueMetricType;
                                            MetricTarget_Value :=
                                              Some (defaultTargetValue p);
                                            MetricTarget_AverageValue := None;
                                            MetricTarget_AverageUtilization :=
                                              None |} |} |} ]))
        as [Hall Hex].
      split.
      * intros Hforall. apply Hall. by inversion Hforall.
      * intros Hexists.
        inversion Hexists as [? ? Hhead|? ? Htail]; subst; [contradiction|].
        destruct (Hex Htail) as (c' & k' & p' & Hin & Hk' & Heq).
        exists c', k', p'. split; [by right|]. auto.
    + rewrite (unsupportedKind_error hpa containerName k Hk). split.
      * intros Hforall. inversion Hforall; subst. contradiction.
      * intros _. exists containerName, k, p. split; [by left|]. auto.
Qed.

(** The resource handed to [Create]: the literal with one external metric
    for each pair of the autoscaling policies, in their order. *)
Lemma CreateHPAOnTortoise_created c s tortoise dm hpa :
  In (CallCreate hpa) (calls (CreateHPAOnTortoise c s tortoise dm)) ->
  exists name ms,
    Spec_TargetRefs_HorizontalPodAutoscalerName tortoise = Some name
    /\ hpa = set_Metrics (defaultHPA tortoise name dm) ms
    /\ Forall2
         (fun (pair : string * ResourceName * AutoscalingType) metric =>
            externalMetricWithTarget metric
              (bootstrapPrefix tortoise pair.1.2 +:+ pair.1.1)
              (bootstrapTarget pair.2)
            /\ externalMetricNameFromAnnotation hpa pair.1.1 pair.1.2
               = (bootstrapPrefix tortoise pair.1.2 +:+ pair.1.1, None))
         (autoscalingPolicies tortoise) ms.
Proof.
  unfold CreateHPAOnTortoise.
  destruct (Spec_TargetRefs_HorizontalPodAutoscalerName tortoise)
    as [name|]; [|intros []].
  destruct (appendExternalMetrics _ _ _) as [ms|err] eqn:Happend;
    [|intros []].
  destruct (client_Create s _) as [s' err]. simpl.
  intros [[= <-]|[]]. exists name, ms. split; [reflexivity|].
  split; [reflexivity|].
  apply appendExternalMetrics_spec in Happend as (added & -> & Hall).
  simpl. eapply Forall2_impl; [exact Hall|].
  intros [[containerName k] p] metric (metricName & Hname & Hmetric).
  rewrite externalMetricNameFromAnnotation_set_Metrics. simpl.
  pose proof (defaultHPA_name _ _ _ _ _ _ Hname) as ->. auto.
Qed.

(** X10. The bootstrap refuses a policy that names a resource kind other
    than cpu and memory: it returns the error of such a kind and no
    resource, calls nothing on the store, and returns the tortoise as it
    was, its status not yet pointing at the autoscaler. *)
Theorem bootstrap_refuses_unsupported_kind
    (c : Client) (s : S) (tortoise : Tortoise) (dm : Deployment)
    (name : string) :
  Spec_TargetRefs_HorizontalPodAutoscalerName tortoise = Some name ->
  (exists containerName k p,
      hasPolicy tortoise containerName k p /\ ~ supportedKind k) ->
  exists containerName k p,
    hasPolicy tortoise containerName k p /\ ~ supportedKind k
    /\ CreateHPAOnTortoise c s tortoise dm
       = mkOutcome s []
           (Return (None, tortoise,
                    Some (errorString ("non supported resource type: " +:+ k)))).
Proof.
  intros Hname (containerName & k & p & Hpolicy & Hk).
  destruct (appendExternalMetrics_outcome (defaultHPA tortoise name dm)
              (autoscalingPolicies tortoise) []) as [_ Hfail].
  destruct Hfail as (c' & k' & p' & Hin & Hk' & Heq).
  { apply List.Exists_exists. exists (containerName, k, p).
    split; [by apply autoscalingPolicies_hasPolicy|exact Hk]. }
  exists c', k', p'. split; [by apply autoscalingPolicies_hasPolicy|].
  split; [exact Hk'|].
  unfold CreateHPAOnTortoise. by rewrite Hname, Heq.
Qed.

(** X11. When every resource kind of the policies is cpu or memory, the
    bootstrap makes exactly one call, a [Create] of a resource that bears
    the name and namespace asked for, and records that name in the status
    of the tortoise whatever the store answers. If the store accepts, the
    resource is returned; if it answers that the resource already exists,
    neither a resource nor an error is returned; any other error is
    returned together with the resource. *)
Theorem bootstrap_create_outcome
    (c : Client) (s : S) (tortoise : Tortoise) (dm : Deployment)
    (name : string) :
  Spec_TargetRefs_HorizontalPodAutoscalerName tortoise = Some name ->
  (forall containerName k p,
      hasPolicy tortoise containerName k p -> supportedKind k) ->
  exists hpa,
    let o := CreateHPAOnTortoise c s tortoise dm in
    let tortoise' := set_Targets_HorizontalPodAutoscaler tortoise name in
    HPA_Name hpa = name
    /\ HPA_Namespace hpa = Tortoise_Namespace tortoise
    /\ calls o = [CallCreate hpa]
    /\ store o = fst (client_Create s hpa)
    /\ Status_Targets_HorizontalPodAutoscaler tortoise' = name
    /\ (snd (client_Create s hpa) = None ->
        returned o = Return (Some hpa, tortoise', None))
    /\ (forall e, snd (client_Create s hpa) = Some e ->
                  IsAlreadyExists e = true ->
                  returned o = Return (None, tortoise', None))
    /\ (forall e, snd (client_Create s hpa) = Some e ->
                  IsAlreadyExists e = false ->
                  returned o = Return (Some hpa, tortoise', Some e)).
Proof.
  intros Hname Hkinds.
  destruct (appendExternalMetrics_outcome (defaultHPA tortoise name dm)
              (autoscalingPolicies tortoise) []) as [Hok _].
  destruct Hok as [ms Hms].
  { apply List.Forall_forall. intros [[containerName k] p] Hin.
    apply autoscalingPolicies_hasPolicy in Hin. simpl. eauto. }
  exists (set_Metrics (defaultHPA tortoise name dm) ms).
  unfold CreateHPAOnTortoise. rewrite Hname, Hms.
  destruct (client_Create s _) as [s' [e|]]; simpl.
  - repeat split; try discriminate.
    + intros e' [= <-] He. by rewrite He.
    + intros e' [= <-] He. by rewrite He.
  - repeat split; discriminate.
Qed.

(** X12. The bootstrap and the rewrite agree on the names: on the resource
    the bootstrap hands to [Create], the rewrite for a container and a
    resource kind of the policies neither fails nor panics, and leaves an
    external metric named after the pair whose value is the new target. *)
Theorem bootstrap_then_rewrite
    (c : Client) (s : S) (tortoise : Tortoise) (dm : Deployment)
    (hpa : HorizontalPodAutoscaler) (containerName : string)
    (k : ResourceName) (p : AutoscalingType) (targetValue : Z) :
  In (CallCreate hpa) (calls (CreateHPAOnTortoise c s tortoise dm)) ->
  hasPolicy tortoise containerName k p ->
  snd (updateHPATargetValue hpa containerName k targetValue) = Return None
  /\ exists m,
       m ∈ HPA_Metrics (fst (updateHPATargetValue hpa containerName k targetValue))
       /\ externalMetricWithTarget m
            (bootstrapPrefix tortoise k +:+ containerName) targetValue.
Proof.
  intros Hcall Hpolicy.
  apply CreateHPAOnTortoise_created in Hcall as (name & ms & _ & Hhpa & Hall).
  assert (Hms : HPA_Metrics hpa = ms) by (by subst hpa).
  apply autoscalingPolicies_hasPolicy, list_elem_of_In,
    list_elem_of_lookup in Hpolicy as [i Hi].
  destruct (Forall2_lookup_l _ _ _ _ _ Hall Hi) as (m & Hm & Hmetric & Hname).
  simpl in Hmetric, Hname. rewrite <- Hms in Hm.
  assert (Hset : externalValuesSet (HPA_Metrics hpa)).
  { rewrite Hms. intros m0 ext0 Hin _ Hext0.
    apply list_elem_of_lookup in Hin as [j Hj].
    destruct (Forall2_lookup_r _ _ _ _ _ Hall Hj)
      as (pair & _ & (_ & _ & ext1 & q & He1 & _ & _ & Hq & _) & _).
    rewrite Hext0 in He1. injection He1 as <-. rewrite Hq. eauto. }
  assert (Hret : snd (updateHPATargetValue hpa containerName k targetValue)
                 = Return None).
  { pose proof (proj2 (updateHPATargetValue_no_panic hpa containerName k
                         targetValue) Hset) as Hnopanic.
    pose proof (updateHPATargetValue_result hpa containerName k targetValue)
      as Hres.
    rewrite Hname in Hres. simpl in Hres. rewrite Hres in *. simpl in *.
    by destruct (snd (setExternalTargets _ _ _)). }
  split; [exact Hret|].
  destruct Hmetric as (Ht & Hcr & ext & q & He & Hn & Htt & Hq & _).
  set (f := setContainerResourceTarget containerName k targetValue).
  destruct (setContainerResourceTarget_cases containerName k targetValue m)
    as (Htype & Hext & _). fold f in Htype, Hext.
  assert (Hfm : f m = m).
  { unfold f, setContainerResourceTarget. by rewrite Ht. }
  assert (Hfi : map f (HPA_Metrics hpa) !! i = Some m).
  { rewrite list_lookup_fmap, Hm. simpl. by rewrite Hfm. }
  rewrite updateHPATargetValue_result, Hname in *. simpl in *. fold f in Hret |- *.
  assert (Hr : snd (setExternalTargets
                      (bootstrapPrefix tortoise k +:+ containerName)
                      targetValue (map f (HPA_Metrics hpa))) = Return tt).
  { destruct (snd (setExternalTargets _ _ _)) as [[]|];
      [reflexivity|discriminate]. }
  destruct (setExternalTargets_writes _ targetValue _ i m ext Hr Hfi Ht He Hn)
    as (q' & m' & ext' & Hq' & Hm' & He' & Hn' & Htt' & Hv').
  destruct (setExternalTargets_lookup
              (bootstrapPrefix tortoise k +:+ containerName) targetValue
              _ i m Hfi)
    as (m'' & Hm'' & Htype' & Hcr' & _).
  rewrite Hm' in Hm''. injection Hm'' as <-.
  exists m'. split; [by eapply list_elem_of_lookup_2|].
  unfold externalMetricWithTarget.
  split; [congruence|]. split; [congruence|].
  exists ext', (Quantity_Set q' targetValue).
  split; [exact He'|]. split; [exact Hn'|]. split; [congruence|].
  split; [exact Hv'|]. auto.
Qed.

(** ** Rounding in binary64

    The facts about the rounding of the Standard Library's IEEE 754
    specification that the replica arithmetic needs. *)

Lemma digits2_pos_bounds (p : positive) :
  2 ^ (Z.pos (digits2_pos p) - 1) <= Z.pos p < 2 ^ Z.pos (digits2_pos p).
Proof.
  induction p as [p IH|p IH|]; simpl digits2_pos.
  - rewrite Pos2Z.inj_succ. replace (Z.succ (Z.pos (digits2_pos p)) - 1)
      with (Z.succ (Z.pos (digits2_pos p) - 1)) by lia.
    rewrite !Z.pow_succ_r by lia. lia.
  - rewrite Pos2Z.inj_succ. replace (Z.succ (Z.pos (digits2_pos p)) - 1)
      with (Z.succ (Z.pos (digits2_pos p) - 1)) by lia.
    rewrite !Z.pow_succ_r by lia. lia.
  - simpl. lia.
Qed.

Lemma iter_pos_nat {A : Type} (f : A -> A) (p : positive) : forall x,
  SpecFloat.iter_pos f p x = Nat.iter (Pos.to_nat p) f x.
Proof.
  induction p as [p IH|p IH|]; intros x; simpl SpecFloat.iter_pos.
  - rewrite !IH, Pos2Nat.inj_xI.
    rewrite <- Nat.iter_succ_r, <- Nat.iter_add. f_equal. lia.
  - rewrite !IH, Pos2Nat.inj_xO. rewrite <- Nat.iter_add. f_equal. lia.
  - reflexivity.
Qed.

Lemma shr_1_spec (mrs : shr_record) :
  0 <= shr_m mrs ->
  shr_m (shr_1 mrs) = shr_m mrs / 2
  /\ shr_r (shr_1 mrs) = Z.odd (shr_m mrs).
Proof.
  destruct mrs as [m r s]. simpl. intros Hm.
  rewrite <- Z.div2_div.
  destruct m as [|[p|p|]|p]; simpl; try lia; auto.
Qed.

Lemma shr_iter_m (n : nat) (mrs : shr_record) :
  0 <= shr_m mrs ->
  shr_m (Nat.iter n shr_1 mrs) = shr_m mrs / 2 ^ Z.of_nat n.
Proof.
  intros Hm. induction n as [|n IH].
  - simpl. by rewrite Z.div_1_r.
  - rewrite Nat.iter_succ.
    destruct (shr_1_spec (Nat.iter n shr_1 mrs)) as [-> _].
    { rewrite IH. apply Z.div_pos; lia. }
    rewrite IH, Nat2Z.inj_succ, Z.pow_succ_r by lia.
    rewrite Z.div_div by lia. f_equal. lia.
Qed.

Lemma shr_iter_r (n : nat) (mrs : shr_record) :
  0 <= shr_m mrs ->
  shr_r (Nat.iter (Datatypes.S n) shr_1 mrs) = true ->
  2 ^ Z.of_nat n <= shr_m mrs - 2 ^ Z.of_nat (Datatypes.S n) * (shr_m mrs / 2 ^ Z.of_nat (Datatypes.S n)).
Proof.
  intros Hm. rewrite Nat.iter_succ.
  destruct (shr_1_spec (Nat.iter n shr_1 mrs)) as [_ ->].
  { rewrite shr_iter_m by assumption. apply Z.div_pos; lia. }
  rewrite shr_iter_m by assumption. intros Hodd.
  rewrite Nat2Z.inj_succ.
  set (m := shr_m mrs) in *. set (k := Z.of_nat n) in *.
  assert (Hk : 0 <= k) by lia.
  rewrite Z.pow_succ_r by lia.
  assert (Hp : 0 < 2 ^ k) by (apply Z.pow_pos_nonneg; lia).
  rewrite (Z.mul_comm 2 (2 ^ k)), <- Z.div_div by lia.
  pose proof (Z.div_mod m (2 ^ k) ltac:(lia)) as Hdm.
  pose proof (Z.mod_pos_bound m (2 ^ k) Hp) as Hmod.
  set (q := m / 2 ^ k) in *.
  rewrite Zodd_mod in Hodd. apply Z.eqb_eq in Hodd.
  pose proof (Z.div_mod q 2 ltac:(lia)) as Hq.
  nia.
Qed.

Lemma Zdigits2_bounds (m : Z) :
  0 < m -> 2 ^ (Zdigits2 m - 1) <= m < 2 ^ Zdigits2 m.
Proof. destruct m as [|p|p]; try lia. intros _. apply digits2_pos_bounds. Qed.

Lemma Zdigits2_le (m k : Z) : 0 < m -> 0 <= k -> m < 2 ^ k -> Zdigits2 m <= k.
Proof.
  intros Hm Hk Hlt. pose proof (Zdigits2_bounds m Hm) as [Hlo _].
  assert (Zdigits2 m - 1 < k); [|lia].
  apply (Z.pow_lt_mono_r_iff 2); lia.
Qed.

Lemma Zdigits2_pos (m : Z) : 0 < m -> 0 < Zdigits2 m.
Proof. destruct m; simpl; lia. Qed.

Lemma shr_fexp_exact_spec (m e : Z) :
  0 <= m ->
  let n := fexp 53 1024 (Zdigits2 m + e) - e in
  let mrs := fst (shr_fexp 53 1024 m e loc_Exact) in
  let e' := snd (shr_fexp 53 1024 m e loc_Exact) in
  (n <= 0 /\ mrs = Build_shr_record m false false /\ e' = e)
  \/ (0 < n /\ e' = e + n /\ shr_m mrs = m / 2 ^ n
      /\ (shr_r mrs = true -> 2 ^ (n - 1) <= m - 2 ^ n * (m / 2 ^ n))).
Proof.
  intros Hm n mrs e'. subst mrs e'. unfold shr_fexp. fold n.
  simpl shr_record_of_loc. unfold shr.
  destruct n as [|p|p] eqn:Hn.
  - left. simpl. repeat split; lia.
  - right. simpl fst. simpl snd. rewrite iter_pos_nat.
    split; [lia|]. split; [reflexivity|].
    rewrite <- (positive_nat_Z p).
    split.
    + by rewrite shr_iter_m.
    + destruct (Pos2Nat.is_succ p) as [k Hk]. rewrite Hk.
      intros Hr. apply shr_iter_r in Hr; [|assumption].
      simpl shr_m in Hr. replace (Z.of_nat (Datatypes.S k) - 1) with (Z.of_nat k) by lia.
      exact Hr.
  - left. simpl. repeat split; lia.
Qed.

Lemma round_nearest_even_bound (mrs : shr_record) :
  let m' := round_nearest_even (shr_m mrs) (loc_of_shr_record mrs) in
  (m' = shr_m mrs) \/ (m' = shr_m mrs + 1 /\ shr_r mrs = true).
Proof.
  destruct mrs as [m [|] [|]]; simpl; auto.
  destruct (Z.even m); auto.
Qed.

Lemma pow2_pos (k : Z) : 0 <= k -> 0 < 2 ^ k.
Proof. intros. apply Z.pow_pos_nonneg; lia. Qed.

Lemma pow2_split (a b : Z) : 0 <= a -> 0 <= b -> 2 ^ (a + b) = 2 ^ a * 2 ^ b.
Proof. intros. apply Z.pow_add_r; lia. Qed.

Lemma pow2_sub (a e : Z) : 0 <= a -> e <= 0 -> 2 ^ (a - e) = 2 ^ a * 2 ^ (- e).
Proof. intros. rewrite <- pow2_split by lia. reflexivity. Qed.

Lemma fexp_unfold (k : Z) : fexp 53 1024 k = Z.max (k - 53) (-1074).
Proof. reflexivity. Qed.

(** Shifting an exact mantissa to its canonical exponent keeps it under a
    bound that is a multiple of the unit in the last place. *)
Lemma shr_fexp_bound (m e B : Z) :
  0 <= m -> -1074 <= e <= 0 -> 0 < B < 2 ^ 53 -> m <= B * 2 ^ (- e) ->
  let sh := shr_fexp 53 1024 m e loc_Exact in
  0 <= shr_m (fst sh) /\ snd sh <= 0
  /\ shr_m (fst sh) <= B * 2 ^ (- snd sh)
  /\ (m < B * 2 ^ (- e) -> shr_m (fst sh) < B * 2 ^ (- snd sh)).
Proof.
  intros Hm He HB Hle sh. subst sh.
  pose proof (shr_fexp_exact_spec m e Hm) as Hspec. cbv zeta in Hspec.
  remember (fexp 53 1024 (Zdigits2 m + e) - e) as n eqn:Hn0.
  rewrite fexp_unfold in Hn0.
  destruct Hspec as [(Hn & -> & ->)|(Hn & -> & -> & _)].
  - simpl. repeat split; lia.
  - assert (Hmpos : 0 < m).
    { destruct (Z.eq_dec m 0) as [->|]; [|lia]. simpl in Hn0. lia. }
    assert (Hd : Zdigits2 m + e <= 53).
    { assert (Zdigits2 m <= 53 - e); [|lia].
      apply Zdigits2_le; [lia|lia|].
      rewrite (pow2_sub 53 e) by lia.
      pose proof (pow2_pos (- e) ltac:(lia)). nia. }
    pose proof (pow2_pos n ltac:(lia)) as HP.
    assert (Hpow : 2 ^ (- e) = 2 ^ (- (e + n)) * 2 ^ n).
    { rewrite <- pow2_split by lia. f_equal. lia. }
    pose proof (pow2_pos (- (e + n)) ltac:(lia)) as HC.
    split; [apply Z.div_pos; lia|]. split; [lia|]. split.
    + apply Z.div_le_upper_bound; [lia|]. rewrite Hpow in Hle. lia.
    + intros Hlt. apply Z.div_lt_upper_bound; [lia|]. rewrite Hpow in Hlt. lia.
Qed.

(** Rounding the exact mantissa [M] at exponent [e] to nearest stays under
    a bound [B] that the value [M * 2^e] does not exceed; it stays strictly
    under it when the value is away from [B] by [D * 2^e], with [D] more
    than half a unit in the last place. *)
Lemma round_shr_fexp_bound (M : positive) (e B D : Z) :
  e <= 0 -> 0 < B < 2 ^ 53 -> 0 <= D ->
  Z.pos M + D <= B * 2 ^ (- e) ->
  (0 < D -> Z.pos M < D * 2 ^ 53) ->
  let sh := shr_fexp 53 1024 (Z.pos M) e loc_Exact in
  let m2 := round_nearest_even (shr_m (fst sh)) (loc_of_shr_record (fst sh)) in
  0 <= m2 /\ -1074 <= snd sh <= 0
  /\ m2 <= B * 2 ^ (- snd sh)
  /\ (0 < D -> m2 < B * 2 ^ (- snd sh)).
Proof.
  intros He HB HD Hle Hgap sh m2. subst m2 sh.
  pose proof (Zdigits2_bounds (Z.pos M) ltac:(lia)) as [Hlo Hhi].
  pose proof (Zdigits2_pos (Z.pos M) ltac:(lia)) as Hdpos.
  assert (Hd : Zdigits2 (Z.pos M) + e <= 53).
  { assert (Zdigits2 (Z.pos M) <= 53 - e); [|lia].
    apply Zdigits2_le; [lia|lia|].
    rewrite (pow2_sub 53 e) by lia.
    pose proof (pow2_pos (- e) ltac:(lia)). nia. }
  pose proof (shr_fexp_exact_spec (Z.pos M) e ltac:(lia)) as Hspec.
  cbv zeta in Hspec.
  remember (Zdigits2 (Z.pos M)) as d eqn:Hd0.
  remember (fexp 53 1024 (d + e) - e) as n eqn:Hn0.
  rewrite fexp_unfold in Hn0.
  destruct Hspec as [(Hn & -> & ->)|(Hn & -> & Hm1 & Hr)].
  - simpl. repeat split; lia.
  - pose proof (round_nearest_even_bound
                  (fst (shr_fexp 53 1024 (Z.pos M) e loc_Exact))) as Hround.
    simpl in Hround. rewrite Hm1 in *.
    set (m1 := Z.pos M / 2 ^ n) in *.
    set (m2 := round_nearest_even _ _) in *.
    pose proof (pow2_pos n ltac:(lia)) as HP.
    pose proof (pow2_pos (n - 1) ltac:(lia)) as HH.
    assert (HPH : 2 ^ n = 2 * 2 ^ (n - 1)).
    { rewrite <- Z.pow_succ_r by lia. f_equal. lia. }
    assert (Hpow : 2 ^ (- e) = 2 ^ (- (e + n)) * 2 ^ n).
    { rewrite <- pow2_split by lia. f_equal. lia. }
    pose proof (pow2_pos (- (e + n)) ltac:(lia)) as HC.
    pose proof (Z.mul_div_le (Z.pos M) (2 ^ n) HP) as Hdiv_lo.
    fold m1 in Hdiv_lo.
    assert (Hm1pos : 0 <= m1) by (apply Z.div_pos; lia).
    rewrite Hpow in Hle.
    set (C := B * 2 ^ (- (e + n))) in *.
    assert (HleC : Z.pos M + D <= C * 2 ^ n) by (unfold C; lia).
    split; [lia|]. split; [lia|].
    destruct Hround as [->|[-> Hrbit]].
    + split; [nia|]. intros HDpos. nia.
    + specialize (Hr Hrbit). split; [nia|].
      intros HDpos. specialize (Hgap HDpos).
      destruct (Z.lt_ge_cases (m1 + 1) C) as [|Hge]; [assumption|exfalso].
      assert (HDH : D <= 2 ^ (n - 1)) by nia.
      destruct (Z.max_spec (d + e - 53) (-1074)) as [[Hlt Hmax]|[Hge' Hmax]].
      * assert (HC' : 2 ^ 53 < C).
        { unfold C. replace (- (e + n)) with 1074 by lia.
          assert (2 ^ 53 < 2 ^ 1074) by (apply Z.pow_lt_mono_r; lia). nia. }
        assert (Hm1lt : m1 < 2 ^ 53).
        { apply Z.div_lt_upper_bound; [lia|].
          rewrite <- pow2_split by lia.
          eapply Z.lt_le_trans; [exact Hhi|].
          apply Z.pow_le_mono_r; lia. }
        lia.
      * assert (Hbig : 2 ^ (n - 1) * 2 ^ 53 <= Z.pos M).
        { rewrite <- pow2_split by lia.
          replace (n - 1 + 53) with (d - 1) by lia. exact Hlo. }
        nia.
Qed.

Lemma binary_round_aux_bound (s : bool) (M : positive) (e B D : Z) :
  e <= 0 -> 0 < B < 2 ^ 53 -> 0 <= D ->
  Z.pos M + D <= B * 2 ^ (- e) ->
  (0 < D -> Z.pos M < D * 2 ^ 53) ->
  match binary_round_aux 53 1024 s (Z.pos M) e loc_Exact with
  | S754_zero s' => s' = s
  | S754_finite s' m' e' =>
      s' = s /\ e' <= 0 /\ Z.pos m' <= B * 2 ^ (- e')
      /\ (0 < D -> Z.pos m' < B * 2 ^ (- e'))
  | _ => False
  end.
Proof.
  intros He HB HD Hle Hgap.
  pose proof (round_shr_fexp_bound M e B D He HB HD Hle Hgap)
    as (Hm2 & He1 & Hle2 & Hlt2).
  cbv zeta in *. unfold binary_round_aux.
  destruct (shr_fexp 53 1024 (Z.pos M) e loc_Exact) as [mrs1 e1].
  simpl fst in *. simpl snd in *.
  set (m2 := round_nearest_even (shr_m mrs1) (loc_of_shr_record mrs1)) in *.
  pose proof (shr_fexp_bound m2 e1 B Hm2 He1 HB Hle2) as (Hm3 & He3 & Hle3 & Hlt3).
  cbv zeta in *.
  destruct (shr_fexp 53 1024 m2 e1 loc_Exact) as [mrs3 e3].
  simpl fst in *. simpl snd in *.
  destruct (shr_m mrs3) as [|m3|m3]; [reflexivity| |lia].
  replace (e3 <=? 1024 - 53) with true by (symmetry; apply Z.leb_le; lia).
  split; [reflexivity|]. split; [exact He3|]. split; [exact Hle3|].
  intros HDpos. apply Hlt3, Hlt2, HDpos.
Qed.

Lemma shr_fexp_noshift (m e : Z) :
  0 < m < 2 ^ 53 -> -1074 <= e ->
  shr_fexp 53 1024 m e loc_Exact = (Build_shr_record m false false, e).
Proof.
  intros Hm He.
  pose proof (shr_fexp_exact_spec m e ltac:(lia)) as Hspec. cbv zeta in Hspec.
  pose proof (Zdigits2_le m 53 ltac:(lia) ltac:(lia) ltac:(lia)) as Hd.
  rewrite fexp_unfold in Hspec.
  destruct (shr_fexp 53 1024 m e loc_Exact) as [mrs e'].
  simpl in Hspec. destruct Hspec as [(_ & -> & ->)|(Hn & _)]; [reflexivity|lia].
Qed.

Lemma binary_round_aux_exact (s : bool) (M : positive) (e : Z) :
  Z.pos M < 2 ^ 53 -> -1074 <= e <= 971 ->
  binary_round_aux 53 1024 s (Z.pos M) e loc_Exact = S754_finite s M e.
Proof.
  intros HM He. unfold binary_round_aux.
  rewrite shr_fexp_noshift by lia. simpl round_nearest_even.
  rewrite shr_fexp_noshift by lia. simpl shr_m.
  by replace (e <=? 1024 - 53) with true by (symmetry; apply Z.leb_le; lia).
Qed.

Lemma iter_xO (k p : positive) :
  Z.pos (Pos.iter xO p k) = Z.pos p * 2 ^ Z.pos k.
Proof.
  induction k as [|k IH] using Pos.peano_ind.
  - simpl. lia.
  - rewrite Pos.iter_succ, Pos2Z.inj_succ, Z.pow_succ_r by lia.
    rewrite Pos2Z.inj_xO, IH. lia.
Qed.

(** [float64(z)] is exact for an integer of less than 54 bits. *)
Lemma binary_normalize_exact (z : Z) (szero : bool) :
  z <> 0 -> Z.abs z < 2 ^ 53 ->
  exists m e,
    binary_normalize 53 1024 z 0 szero = S754_finite (z <? 0) m e
    /\ -52 <= e <= 0
    /\ Z.pos m = Z.abs z * 2 ^ (- e)
    /\ 2 ^ 52 <= Z.pos m < 2 ^ 53.
Proof.
  intros Hz Habs.
  assert (Hround : forall s p, Z.pos p < 2 ^ 53 ->
    exists m e, binary_round 53 1024 s p 0 = S754_finite s m e
      /\ -52 <= e <= 0 /\ Z.pos m = Z.pos p * 2 ^ (- e)
      /\ 2 ^ 52 <= Z.pos m < 2 ^ 53).
  { intros s p Hp. unfold binary_round, shl_align.
    pose proof (digits2_pos_bounds p) as [Hlo Hhi].
    pose proof (Zdigits2_le (Z.pos p) 53 ltac:(lia) ltac:(lia) Hp) as Hd.
    simpl Zdigits2 in Hd. rewrite fexp_unfold.
    set (d := Z.pos (digits2_pos p)) in *.
    destruct (Z.max (d + 0 - 53) (-1074) - 0) as [|k|k] eqn:Hk; try lia.
    - assert (d = 53) by lia.
      rewrite binary_round_aux_exact by lia.
      exists p, 0. rewrite Z.mul_1_r. repeat split; try lia.
      replace 52 with (d - 1) by lia. exact Hlo.
    - assert (Hkd : Z.pos k = 53 - d) by lia.
      assert (Hp2 : Z.pos (Pos.iter xO p k) = Z.pos p * 2 ^ (53 - d)).
      { by rewrite iter_xO, Hkd. }
      assert (Hsplit : 2 ^ 53 = 2 ^ d * 2 ^ (53 - d)).
      { rewrite <- pow2_split by lia. f_equal. lia. }
      assert (Hsplit' : 2 ^ 52 = 2 ^ (d - 1) * 2 ^ (53 - d)).
      { rewrite <- pow2_split by lia. f_equal. lia. }
      pose proof (pow2_pos (53 - d) ltac:(lia)) as Hpos.
      rewrite binary_round_aux_exact by nia.
      eexists _, _. split; [reflexivity|]. split; [lia|].
      replace (- Z.max (d + 0 - 53) (-1074)) with (53 - d) by lia.
      split; [exact Hp2|]. nia. }
  destruct z as [|p|p]; [congruence| |]; simpl binary_normalize.
  - apply (Hround false p Habs).
  - apply (Hround true p Habs).
Qed.

Lemma SFcompare_pos (m1 m2 : positive) (e1 e2 : Z) :
  SFcompare (S754_finite false m1 e1) (S754_finite false m2 e2)
  = Some (match e1 ?= e2 with
          | Lt => Lt
          | Gt => Gt
          | Eq => Pos.compare_cont Eq m1 m2
          end).
Proof. reflexivity. Qed.

Lemma one_eq : F64.one = S754_finite false 4503599627370496 (-52).
Proof. vm_compute. reflexivity. Qed.

Lemma pow2_52 : Z.pos 4503599627370496 = 2 ^ 52.
Proof. reflexivity. Qed.

Lemma valid_mantissa (mf : positive) (ef : Z) :
  F64.valid (S754_finite false mf ef) = true -> Z.pos mf < 2 ^ 53.
Proof.
  unfold F64.valid, valid_binary, bounded, canonical_mantissa.
  intros Hvalid. apply andb_true_iff in Hvalid as [Hcanon _].
  apply Z.eqb_eq in Hcanon.
  change (fexp F64.prec F64.emax) with (fexp 53 1024) in Hcanon.
  rewrite fexp_unfold in Hcanon.
  pose proof (digits2_pos_bounds mf) as [_ Hhi].
  eapply Z.lt_le_trans; [exact Hhi|]. apply Z.pow_le_mono_r; lia.
Qed.

Lemma compare_one (mf : positive) (ef : Z) :
  Z.pos mf < 2 ^ 53 ->
  match SFcompare (S754_finite false mf ef)
          (S754_finite false 4503599627370496 (-52)) with
  | Some Lt => ef <= -52 /\ Z.pos mf < 2 ^ (- ef)
  | Some Eq => ef = -52 /\ Z.pos mf = 2 ^ (- ef)
  | _ => True
  end.
Proof.
  intros Hmf. rewrite SFcompare_pos.
  destruct (ef ?= -52) eqn:Hcmp.
  - apply Z.compare_eq in Hcmp. subst ef.
    rewrite Pos.compare_cont_spec. unfold Pos.switch_Eq.
    change (2 ^ (- -52)) with (2 ^ 52).
    destruct (mf ?= 4503599627370496)%positive eqn:Hc.
    + apply Pos.compare_eq in Hc. subst mf. split; reflexivity.
    + apply Pos2Z.pos_lt_pos in Hc. rewrite pow2_52 in Hc. split; [lia|exact Hc].
    + exact I.
  - change (ef < -52) in Hcmp.
    assert (2 ^ 53 <= 2 ^ (- ef)) by (apply Z.pow_le_mono_r; lia).
    split; lia.
  - exact I.
Qed.

(** A valid factor in (0, 1]: its mantissa and exponent. *)
Lemma factor_cases (f : F64.float64) :
  F64.valid f = true -> F64.ltb F64.zero f = true -> F64.leb f F64.one = true ->
  exists mf ef,
    f = S754_finite false mf ef
    /\ Z.pos mf < 2 ^ 53 /\ ef <= -52
    /\ Z.pos mf <= 2 ^ (- ef)
    /\ (F64.ltb f F64.one = true -> Z.pos mf < 2 ^ (- ef)).
Proof.
  rewrite one_eq. intros Hvalid Hpos Hle.
  destruct f as [s|s| |s mf ef]; try discriminate.
  { by destruct s. }
  destruct s; [discriminate|].
  exists mf, ef. split; [reflexivity|].
  pose proof (valid_mantissa mf ef Hvalid) as Hmf.
  pose proof (compare_one mf ef Hmf) as Hcmp.
  unfold F64.leb, F64.ltb, SFleb, SFltb in *.
  destruct (SFcompare (S754_finite false mf ef)
              (S754_finite false 4503599627370496 (-52))) as [[| |]|];
    try discriminate.
  - destruct Hcmp as [-> Hcmp]. split; [exact Hmf|]. split; [lia|].
    split; [lia|discriminate].
  - destruct Hcmp as [He Hcmp]. split; [exact Hmf|]. split; [exact He|].
    split; [lia|]. intros _. exact Hcmp.
Qed.

(** The product of [float64(c)] and a factor in (0, 1] has the sign of
    [c], is finite, and does not exceed [c] in magnitude; it is strictly
    less when the factor is less than 1. *)
Lemma mul_of_Z_bound (c : Z) (mf : positive) (ef : Z) :
  c <> 0 -> Z.abs c <= 2 ^ 31 ->
  Z.pos mf < 2 ^ 53 -> ef <= -52 -> Z.pos mf <= 2 ^ (- ef) ->
  match F64.mul (F64.of_Z c) (S754_finite false mf ef) with
  | S754_zero s' => s' = (c <? 0)
  | S754_finite s' m' e' =>
      s' = (c <? 0) /\ e' <= 0 /\ Z.pos m' <= Z.abs c * 2 ^ (- e')
      /\ (Z.pos mf < 2 ^ (- ef) -> Z.pos m' < Z.abs c * 2 ^ (- e'))
  | _ => False
  end.
Proof.
  intros Hc Habs Hmf Hef Hle.
  assert (H31 : 2 ^ 31 < 2 ^ 53) by (apply Z.pow_lt_mono_r; lia).
  destruct (binary_normalize_exact c false Hc ltac:(lia))
    as (mc & ec & Hof & Hec & Hmc & Hcanon).
  unfold F64.mul, F64.of_Z, F64.prec, F64.emax. rewrite Hof.
  change (SFmul 53 1024 (S754_finite (c <? 0) mc ec) (S754_finite false mf ef))
    with (binary_round_aux 53 1024 (xorb (c <? 0) false)
            (Z.pos (mc * mf)) (ec + ef) loc_Exact).
  rewrite xorb_false_r.
  pose proof (pow2_pos (- ec) ltac:(lia)) as Hpc.
  pose proof (pow2_pos (- ef) ltac:(lia)) as Hpf.
  assert (Hpow : Z.abs c * 2 ^ (- (ec + ef)) = Z.pos mc * 2 ^ (- ef)).
  { replace (- (ec + ef)) with (- ec + - ef) by lia.
    rewrite pow2_split by lia. rewrite Hmc. ring. }
  set (D := if Z.pos mf <? 2 ^ (- ef) then Z.pos mc else 0).
  assert (HD : 0 <= D)
    by (unfold D; destruct (Z.pos mf <? 2 ^ (- ef)); lia).
  assert (Hsum : Z.pos (mc * mf) + D <= Z.abs c * 2 ^ (- (ec + ef))).
  { rewrite Hpow, Pos2Z.inj_mul. unfold D.
    destruct (Z.pos mf <? 2 ^ (- ef)) eqn:Hlt.
    - apply Z.ltb_lt in Hlt.
      replace (Z.pos mc * Z.pos mf + Z.pos mc) with (Z.pos mc * (Z.pos mf + 1))
        by ring.
      apply Z.mul_le_mono_nonneg_l; lia.
    - rewrite Z.add_0_r. apply Z.mul_le_mono_nonneg_l; lia. }
  assert (Hgap : 0 < D -> Z.pos (mc * mf) < D * 2 ^ 53).
  { unfold D. destruct (Z.pos mf <? 2 ^ (- ef)); [|lia].
    intros _. rewrite Pos2Z.inj_mul. apply Z.mul_lt_mono_pos_l; lia. }
  pose proof (binary_round_aux_bound (c <? 0) (mc * mf) (ec + ef)
                (Z.abs c) D ltac:(lia) ltac:(lia) HD Hsum Hgap) as Hbound.
  destruct (binary_round_aux 53 1024 (c <? 0) (Z.pos (mc * mf)) (ec + ef)
              loc_Exact) as [s'|s'| |s' m' e']; try exact Hbound.
  destruct Hbound as (Hs & He' & Hm' & Hstrict).
  split; [exact Hs|]. split; [exact He'|]. split; [exact Hm'|].
  intros Hlt. apply Hstrict. unfold D.
  apply Z.ltb_lt in Hlt. rewrite Hlt. lia.
Qed.

(** ** The reduced minimum *)

Lemma Ztrunc_binary_normalize (z : Z) (szero : bool) :
  Z.abs z < 2 ^ 53 ->
  F64.Ztrunc (binary_normalize 53 1024 z 0 szero) = Some z.
Proof.
  intros Habs. destruct (Z.eq_dec z 0) as [->|Hz]; [reflexivity|].
  destruct (binary_normalize_exact z szero Hz Habs)
    as (m & e & -> & He & Hm & _).
  simpl. f_equal. rewrite Hm.
  pose proof (pow2_pos (- e) ltac:(lia)) as Hp.
  destruct (0 <=? e) eqn:Hle.
  - apply Z.leb_le in Hle. assert (e = 0) as -> by lia.
    simpl. destruct (z <? 0) eqn:Hs; simpl;
      [apply Z.ltb_lt in Hs|apply Z.ltb_ge in Hs]; lia.
  - rewrite Z.div_mul by lia.
    destruct (z <? 0) eqn:Hs; simpl;
      [apply Z.ltb_lt in Hs|apply Z.ltb_ge in Hs]; lia.
Qed.

Lemma Ztrunc_Trunc (x : F64.float64) (z : Z) :
  F64.Ztrunc x = Some z -> Z.abs z < 2 ^ 53 ->
  F64.Ztrunc (F64.Trunc x) = Some z.
Proof.
  intros Hx Habs. unfold F64.Trunc. rewrite Hx.
  by apply Ztrunc_binary_normalize.
Qed.

Lemma ltb_leb_one (f : F64.float64) :
  F64.ltb f F64.one = true -> F64.leb f F64.one = true.
Proof.
  unfold F64.ltb, F64.leb, SFltb, SFleb.
  by destruct (SFcompare f F64.one) as [[| |]|].
Qed.

(** The reduced minimum is the integer part of the product, computed
    without leaving [int32]; it lies between zero and the current minimum,
    and strictly nearer to zero when the factor is less than 1. *)
Lemma reducedMinReplicas_bounds (c : Client) (currentMin : Z) :
  factorInRange c ->
  int32_min <= currentMin <= int32_max ->
  let product := F64.mul (F64.of_Z currentMin) (replicaReductionFactor c) in
  let r := reducedMinReplicas c currentMin in
  F64.Ztrunc product = Some r
  /\ (0 <= currentMin -> 0 <= r <= currentMin)
  /\ (currentMin <= 0 -> currentMin <= r <= 0)
  /\ (F64.ltb (replicaReductionFactor c) F64.one = true ->
      currentMin <> 0 -> Z.abs r < Z.abs currentMin)
  /\ (0 <= currentMin -> F64.Zfloor product = Some r).
Proof.
  intros (Hvalid & Hpos & Hle) Hrange product r.
  destruct (factor_cases _ Hvalid Hpos Hle)
    as (mf & ef & Hf & Hmf & Hef & Hmle & Hstrict).
  unfold int32_min, int32_max in Hrange.
  assert (H31 : 2 ^ 31 < 2 ^ 53) by (apply Z.pow_lt_mono_r; lia).
  assert (Hcases : exists z,
    F64.Ztrunc product = Some z
    /\ (0 <= currentMin -> 0 <= z <= currentMin)
    /\ (currentMin <= 0 -> currentMin <= z <= 0)
    /\ (Z.pos mf < 2 ^ (- ef) -> currentMin <> 0 ->
        Z.abs z < Z.abs currentMin)
    /\ (0 <= currentMin -> F64.Zfloor product = Some z)).
  { subst product. rewrite Hf.
    destruct (Z.eq_dec currentMin 0) as [->|Hne].
    { exists 0. simpl. repeat split; try lia; reflexivity. }
    pose proof (mul_of_Z_bound currentMin mf ef Hne ltac:(lia) Hmf Hef Hmle)
      as Hbound.
    destruct (F64.mul (F64.of_Z currentMin) (S754_finite false mf ef))
      as [s'|s'| |s' m' e']; try contradiction.
    { exists 0. simpl. repeat split; try lia; reflexivity. }
    destruct Hbound as (-> & He' & Hm' & Hlt').
    pose proof (pow2_pos (- e') ltac:(lia)) as Hp.
    set (t := if 0 <=? e' then Z.pos m' * 2 ^ e' else Z.pos m' / 2 ^ (- e')).
    assert (Ht : 0 <= t <= Z.abs currentMin
                 /\ (Z.pos m' < Z.abs currentMin * 2 ^ (- e') ->
                     t < Z.abs currentMin)).
    { unfold t. destruct (0 <=? e') eqn:Hle0.
      - apply Z.leb_le in Hle0. assert (e' = 0) as -> by lia.
        simpl in *. lia.
      - split; [split|].
        + apply Z.div_pos; lia.
        + apply Z.div_le_upper_bound; lia.
        + intros Hlt. apply Z.div_lt_upper_bound; lia. }
    destruct Ht as [Ht Htlt].
    exists (cond_Zopp (currentMin <? 0) t). simpl F64.Ztrunc. fold t.
    split; [reflexivity|].
    destruct (currentMin <? 0) eqn:Hs;
      [apply Z.ltb_lt in Hs|apply Z.ltb_ge in Hs]; simpl cond_Zopp.
    - repeat split; lia.
    - split; [lia|]. split; [lia|]. split; [lia|].
      intros _. simpl. unfold t. by destruct (0 <=? e'). }
  destruct Hcases as (z & Htrunc & Hnonneg & Hnonpos & Hlt & Hfloor).
  assert (Hr : r = z).
  { subst r. unfold reducedMinReplicas, int32_of_float64. fold product.
    rewrite (Ztrunc_Trunc product z Htrunc) by lia.
    assert (Hin : in_int32 z = true).
    { unfold in_int32, int32_min, int32_max.
      apply andb_true_iff. rewrite !Z.leb_le. lia. }
    by rewrite Hin. }
  rewrite Hr. split; [exact Htrunc|]. split; [exact Hnonneg|].
  split; [exact Hnonpos|]. split; [|exact Hfloor].
  intros Hltb Hne. apply Hlt; [by apply Hstrict|exact Hne].
Qed.

(** X13. With a reduction factor in (0, 1] and a current minimum within
    [int32], the reduced minimum is exactly the integer part of the
    [float64] product of the two, which is its floor when the current
    minimum is not negative; it lies between zero and the current minimum,
    and is strictly nearer to zero than a nonzero current minimum when the
    factor is less than 1. *)
Theorem reducedMinReplicas_is_floor_of_product
    (c : Client) (currentMin : Z) :
  factorInRange c ->
  int32_min <= currentMin <= int32_max ->
  let product := F64.mul (F64.of_Z currentMin) (replicaReductionFactor c) in
  let r := reducedMinReplicas c currentMin in
  F64.Ztrunc product = Some r
  /\ (0 <= currentMin -> F64.Zfloor product = Some r /\ 0 <= r <= currentMin)
  /\ (currentMin <= 0 -> currentMin <= r <= 0)
  /\ (F64.ltb (replicaReductionFactor c) F64.one = true ->
      0 < currentMin -> r < currentMin).
Proof.
  intros Hfactor Hrange product r.
  destruct (reducedMinReplicas_bounds c currentMin Hfactor Hrange)
    as (Htrunc & Hnonneg & Hnonpos & Hlt & Hfloor).
  split; [exact Htrunc|]. split; [auto|]. split; [exact Hnonpos|].
  intros Hltb Hpos. specialize (Hlt Hltb ltac:(lia)).
  specialize (Hnonneg ltac:(lia)). fold r in Hlt, Hnonneg. lia.
Qed.

(** ** The decay of phase BackToNormal *)

Lemma nextPass_backToNormal c now max hpa tortoise idealMin currentMin :
  Status_TortoisePhase tortoise = TortoisePhaseBackToNormal ->
  getReplicasRecommendation (Status_MinReplicas tortoise) now = (idealMin, None) ->
  HPA_MinReplicas hpa = Some currentMin ->
  let reduced := reducedMinReplicas c currentMin in
  nextPass c now max (hpa, tortoise)
  = Some (set_MinReplicas (set_MaxReplicas hpa max)
            (Some (if reduced <? idealMin then idealMin else reduced)),
          if reduced <? idealMin
          then set_TortoisePhase tortoise TortoisePhaseWorking else tortoise).
Proof.
  intros Hphase Hmin Hcurrent reduced.
  unfold nextPass, planMinReplicas. simpl fst. simpl snd.
  rewrite Hphase, Hmin.
  change (HPA_MinReplicas (set_MaxReplicas hpa max)) with (HPA_MinReplicas hpa).
  rewrite Hcurrent. fold reduced. rewrite Z.gtb_ltb.
  by destruct (reduced <? idealMin).
Qed.

Lemma replicasAfter_working c now max idealMin : forall n hpa tortoise,
  Status_TortoisePhase tortoise = TortoisePhaseWorking ->
  getReplicasRecommendation (Status_MinReplicas tortoise) now = (idealMin, None) ->
  HPA_MinReplicas hpa = Some idealMin ->
  replicasAfter c now max n (hpa, tortoise)
  = Some (Some idealMin, TortoisePhaseWorking).
Proof.
  unfold replicasAfter.
  induction n as [|n IH]; intros hpa tortoise Hphase Hmin Hcurrent; simpl.
  - by rewrite Hcurrent, Hphase.
  - unfold nextPass, planMinReplicas. simpl fst. simpl snd.
    rewrite Hphase, Hmin. by apply IH.
Qed.

Lemma replicasAfter_succ c now max n st st' :
  nextPass c now max st = Some st' ->
  replicasAfter c now max (Datatypes.S n) st = replicasAfter c now max n st'.
Proof. unfold replicasAfter. simpl. by intros ->. Qed.

(** With a factor below 1 the minimum falls by one at least in each pass
    that stays in phase BackToNormal, so that phase ends. *)
Lemma backToNormal_decay c now max idealMin :
  factorInRange c ->
  F64.ltb (replicaReductionFactor c) F64.one = true ->
  1 <= idealMin ->
  forall (bound : nat) hpa tortoise currentMin,
    Status_TortoisePhase tortoise = TortoisePhaseBackToNormal ->
    getReplicasRecommendation (Status_MinReplicas tortoise) now
    = (idealMin, None) ->
    HPA_MinReplicas hpa = Some currentMin ->
    int32_min <= currentMin <= int32_max ->
    currentMin - idealMin <= Z.of_nat bound ->
    exists n : nat,
      (1 <= n <= Datatypes.S bound)%nat
      /\ (forall k : nat, (k < n)%nat ->
            exists m,
              replicasAfter c now max k (hpa, tortoise)
              = Some (Some m, TortoisePhaseBackToNormal)
              /\ m <= currentMin - Z.of_nat k
              /\ ((0 < k)%nat -> idealMin <= m))
      /\ (forall j : nat, (n <= j)%nat ->
            replicasAfter c now max j (hpa, tortoise)
            = Some (Some idealMin, TortoisePhaseWorking)).
Proof.
  intros Hfactor Hltb Hideal.
  induction bound as [|bound IH];
    intros hpa tortoise currentMin Hphase Hmin Hcurrent Hrange Hbound.
  - pose proof (nextPass_backToNormal c now max hpa tortoise idealMin
                  currentMin Hphase Hmin Hcurrent) as Hnext.
    destruct (reducedMinReplicas_bounds c currentMin Hfactor Hrange)
      as (_ & Hnonneg & Hnonpos & Hlt & _).
    specialize (Hlt Hltb).
    assert (Hcross : reducedMinReplicas c currentMin < idealMin) by lia.
    cbv zeta in Hnext.
    rewrite (proj2 (Z.ltb_lt _ _) Hcross) in Hnext.
    exists 1%nat. split; [lia|]. split.
    + intros k Hk. assert (k = 0%nat) as -> by lia.
      exists currentMin. unfold replicasAfter. simpl.
      rewrite Hcurrent, Hphase. split; [reflexivity|]. lia.
    + intros j Hj. destruct j as [|j]; [lia|].
      rewrite (replicasAfter_succ _ _ _ _ _ _ Hnext).
      by apply replicasAfter_working.
  - pose proof (nextPass_backToNormal c now max hpa tortoise idealMin
                  currentMin Hphase Hmin Hcurrent) as Hnext.
    destruct (reducedMinReplicas_bounds c currentMin Hfactor Hrange)
      as (_ & Hnonneg & Hnonpos & Hlt & _).
    specialize (Hlt Hltb).
    cbv zeta in Hnext.
    destruct (reducedMinReplicas c currentMin <? idealMin) eqn:Hcross.
    + exists 1%nat. split; [lia|]. split.
      * intros k Hk. assert (k = 0%nat) as -> by lia.
        exists currentMin. unfold replicasAfter. simpl.
        rewrite Hcurrent, Hphase. split; [reflexivity|]. lia.
      * intros j Hj. destruct j as [|j]; [lia|].
        rewrite (replicasAfter_succ _ _ _ _ _ _ Hnext).
        by apply replicasAfter_working.
    + apply Z.ltb_ge in Hcross.
      set (reduced := reducedMinReplicas c currentMin) in *.
      assert (Hpos : 0 < currentMin) by lia.
      assert (Hless : reduced < currentMin) by lia.
      assert (Hrange' : int32_min <= reduced <= int32_max)
        by (unfold int32_min, int32_max in *; lia).
      assert (Hbound' : reduced - idealMin <= Z.of_nat bound) by lia.
      destruct (IH (set_MinReplicas (set_MaxReplicas hpa max) (Some reduced))
                  tortoise reduced Hphase Hmin eq_refl Hrange' Hbound')
        as (n & Hn & Hbefore & Hafter).
      exists (Datatypes.S n). split; [lia|]. split.
      * intros k Hk. destruct k as [|k].
        -- exists currentMin. unfold replicasAfter. simpl.
           rewrite Hcurrent, Hphase. split; [reflexivity|]. lia.
        -- rewrite (replicasAfter_succ _ _ _ _ _ _ Hnext).
           destruct (Hbefore k ltac:(lia)) as (m & Hm & Hle & Hge).
           exists m. split; [exact Hm|]. split; [lia|].
           intros _. destruct k as [|k]; [|apply Hge; lia].
           unfold replicasAfter in Hm. simpl in Hm.
           injection Hm as <-. lia.
      * intros j Hj. destruct j as [|j]; [lia|].
        rewrite (replicasAfter_succ _ _ _ _ _ _ Hnext).
        apply Hafter. lia.
Qed.

(** X14. With a reduction factor in (0, 1) and an ideal minimum of 1 at
    least, the decay of phase BackToNormal ends: reconciling again and
    again within one time window, the minReplicas falls by one at least
    in every pass that stays in phase BackToNormal, never below the ideal
    minimum once a pass has run, and after at most
    [currentMin - idealMin + 1] passes (one pass when the current minimum
    is not above the ideal one) the phase is Working and the minReplicas
    is the ideal minimum, and both stay so. *)
Theorem backToNormal_decay_ends
    (c : Client) (now : Time) (max idealMin currentMin : Z)
    (hpa : HorizontalPodAutoscaler) (tortoise : Tortoise) :
  factorInRange c ->
  F64.ltb (replicaReductionFactor c) F64.one = true ->
  1 <= idealMin ->
  Status_TortoisePhase tortoise = TortoisePhaseBackToNormal ->
  getReplicasRecommendation (Status_MinReplicas tortoise) now = (idealMin, None) ->
  HPA_MinReplicas hpa = Some currentMin ->
  int32_min <= currentMin <= int32_max ->
  exists n : nat,
    (1 <= n <= Datatypes.S (Z.to_nat (currentMin - idealMin)))%nat
    /\ (forall k : nat, (k < n)%nat ->
          exists m,
            replicasAfter c now max k (hpa, tortoise)
            = Some (Some m, TortoisePhaseBackToNormal)
            /\ m <= currentMin - Z.of_nat k
            /\ ((0 < k)%nat -> idealMin <= m))
    /\ (forall j : nat, (n <= j)%nat ->
          replicasAfter c now max j (hpa, tortoise)
          = Some (Some idealMin, TortoisePhaseWorking)).
Proof.
  intros Hfactor Hltb Hideal Hphase Hmin Hcurrent Hrange.
  apply (backToNormal_decay c now max idealMin Hfactor Hltb Hideal
           (Z.to_nat (currentMin - idealMin)) hpa tortoise currentMin);
    try assumption.
  lia.
Qed.


(** ** More on the time-window lookup *)

(** X15. The lookup in two lists of slots put end to end is the lookup in
    the first when that finds a slot, and the lookup in the second
    otherwise: later slots are consulted only when no earlier one
    applies. *)
Theorem getReplicasRecommendation_app
    (first second : list ReplicasRecommendation) (now : Time) :
  getReplicasRecommendation (first ++ second) now
  = match getReplicasRecommendation first now with
    | (value, None) => (value, None)
    | (_, Some _) => getReplicasRecommendation second now
    end.
Proof.
  induction first as [|r rest IH]; simpl; [reflexivity|].
  by destruct (slotMatches now r).
Qed.

(** X16. A slot whose hourTo is not above its hourFrom applies at no
    time: a window written across midnight, as from 22 to 2, is never
    found, and the lookup is the same with such slots left out. *)
Theorem empty_windows_are_never_found
    (recommendations : list ReplicasRecommendation) (now : Time) :
  (forall slot, Rec_To slot <= Rec_From slot -> slotMatches now slot = false)
  /\ getReplicasRecommendation
       (filter (fun slot => Rec_From slot < Rec_To slot) recommendations) now
     = getReplicasRecommendation recommendations now.
Proof.
  assert (Hnever : forall slot,
             Rec_To slot <= Rec_From slot -> slotMatches now slot = false).
  { intros slot Hle. unfold slotMatches.
    destruct (Time_Hour now <? Rec_To slot) eqn:Hlt; [|reflexivity].
    destruct (Time_Hour now >=? Rec_From slot) eqn:Hge; [|reflexivity].
    apply Z.ltb_lt in Hlt. rewrite Z.geb_le in Hge. lia. }
  split; [exact Hnever|].
  induction recommendations as [|r rest IH]; [reflexivity|].
  rewrite filter_cons. destruct (decide (Rec_From r < Rec_To r)) as [Hlt|Hge].
  - simpl. by rewrite IH.
  - simpl. rewrite Hnever by lia. exact IH.
Qed.


(** ** The replica bounds of the bootstrap *)

Lemma Zdigits2_eq (m k : Z) : 0 < k -> 2 ^ (k - 1) <= m < 2 ^ k -> Zdigits2 m = k.
Proof.
  intros Hk [Hlo Hhi].
  assert (Hm : 0 < m) by (pose proof (pow2_pos (k - 1) ltac:(lia)); lia).
  pose proof (Zdigits2_bounds m Hm) as [Hdlo Hdhi].
  pose proof (Zdigits2_pos m Hm) as Hd.
  pose proof (Zdigits2_le m k Hm ltac:(lia) Hhi) as Hle.
  destruct (Z.eq_dec (Zdigits2 m) k) as [|Hne]; [assumption|].
  exfalso. assert (Hlt : Zdigits2 m <= k - 1) by lia.
  pose proof (Z.pow_le_mono_r 2 (Zdigits2 m) (k - 1) ltac:(lia) Hlt). lia.
Qed.

Lemma binary_round_aux_double (s : bool) (M : positive) (e : Z) :
  2 ^ 52 <= Z.pos M < 2 ^ 53 -> -1075 <= e <= 970 ->
  binary_round_aux 53 1024 s (Z.pos M~0) e loc_Exact = S754_finite s M (e + 1).
Proof.
  intros HM He. unfold binary_round_aux.
  assert (Hsh : shr_fexp 53 1024 (Z.pos M~0) e loc_Exact
                = (Build_shr_record (Z.pos M) false false, e + 1)).
  { unfold shr_fexp.
    rewrite (Zdigits2_eq (Z.pos M~0) 54) by (rewrite Pos2Z.inj_xO; lia).
    rewrite fexp_unfold.
    replace (Z.max (54 + e - 53) (-1074) - e) with 1 by lia.
    reflexivity. }
  rewrite Hsh. simpl round_nearest_even.
  rewrite shr_fexp_noshift by lia. simpl shr_m.
  by replace (e + 1 <=? 1024 - 53) with true by (symmetry; apply Z.leb_le; lia).
Qed.

Lemma two_eq : F64.of_Z 2 = S754_finite false 4503599627370496 (-51).
Proof. vm_compute. reflexivity. Qed.

Lemma div_two (s : bool) (m : positive) (e : Z) :
  2 ^ 52 <= Z.pos m < 2 ^ 53 -> -52 <= e <= 0 ->
  F64.div (S754_finite s m e) (F64.of_Z 2) = S754_finite s m (e - 1).
Proof.
  intros Hm He. rewrite two_eq. unfold F64.div, SFdiv, SFdiv_core_binary.
  rewrite (Zdigits2_eq (Z.pos m) 53) by lia.
  rewrite (Zdigits2_eq (Z.pos 4503599627370496) 53) by (try rewrite pow2_52; lia).
  rewrite fexp_unfold.
  replace (Z.min (Z.max (53 + e - (53 + -51) - 53) (-1074)) (e - -51))
    with (e - 2) by lia.
  replace (e - -51 - (e - 2)) with 53 by lia.
  rewrite Z.shiftl_mul_pow2 by lia.
  assert (Hdiv : Z.div_eucl (Z.pos m * 2 ^ 53) (Z.pos 4503599627370496)
                 = (Z.pos m~0, 0)).
  { pose proof (Z.div_eucl_eq (Z.pos m * 2 ^ 53) (Z.pos 4503599627370496)
                  ltac:(lia)) as Heq.
    pose proof (Z.mod_pos_bound (Z.pos m * 2 ^ 53) (Z.pos 4503599627370496)
                  ltac:(lia)) as Hmod.
    unfold Z.modulo, Z.div in *.
    destruct (Z.div_eucl _ _) as [q r].
    rewrite pow2_52 in *. 
    assert (Hq : q = Z.pos m * 2 /\ r = 0).
    { replace (2 ^ 53) with (2 ^ 52 * 2) in Heq by reflexivity.
      assert (H52 : 0 < 2 ^ 52) by (apply pow2_pos; lia).
      nia. }
    destruct Hq as [-> ->]. f_equal. lia. }
  rewrite Hdiv. 
  change (new_location (Z.pos 4503599627370496) 0) with loc_Exact.
  rewrite xorb_false_r.
  rewrite binary_round_aux_double by lia. f_equal. lia.
Qed.

Lemma div_up_pow2 (r P : Z) :
  0 < P -> (r * P + 2 * P - 1) / (2 * P) = (r + 1) / 2.
Proof.
  intros HP. symmetry.
  apply (Z.div_unique _ _ _ ((r + 1) mod 2 * P + P - 1)).
  - left. pose proof (Z.mod_pos_bound (r + 1) 2 ltac:(lia)). nia.
  - pose proof (Z.div_mod (r + 1) 2 ltac:(lia)). nia.
Qed.

(** Line 59: [int32(math.Ceil(float64(replicas) / 2.0))] is the replicas
    halved and rounded up. *)
Lemma ceil_of_half (replicas : Z) :
  int32_min <= replicas <= int32_max ->
  int32_of_float64
    (F64.Ceil (F64.div (F64.of_Z replicas) (F64.of_Z 2)))
  = (replicas + 1) / 2.
Proof.
  intros Hrange. unfold int32_min, int32_max in Hrange.
  destruct (Z.eq_dec replicas 0) as [->|Hne]; [reflexivity|].
  assert (Habs : Z.abs replicas < 2 ^ 53) by lia.
  change (F64.of_Z replicas) with (binary_normalize 53 1024 replicas 0 false).
  destruct (binary_normalize_exact replicas false Hne Habs)
    as (m & e & -> & He & Hm & Hbits).
  rewrite div_two by lia.
  pose proof (pow2_pos (- e) ltac:(lia)) as HP.
  assert (Hpow : 2 ^ (- (e - 1)) = 2 * 2 ^ (- e)).
  { replace (- (e - 1)) with (1 + - e) by lia.
    rewrite pow2_split by lia. reflexivity. }
  assert (Hceil : F64.Zceil (S754_finite (replicas <? 0) m (e - 1))
                  = Some ((replicas + 1) / 2)).
  { unfold F64.Zceil.
    replace (0 <=? e - 1) with false by (symmetry; apply Z.leb_gt; lia).
    rewrite Hpow, Hm. f_equal.
    destruct (replicas <? 0) eqn:Hs.
    - apply Z.ltb_lt in Hs.
      rewrite Z.div_mul_cancel_r by lia. rewrite Z.abs_neq by lia.
      pose proof (Z.div_mod (- replicas) 2 ltac:(lia)).
      pose proof (Z.mod_pos_bound (- replicas) 2 ltac:(lia)).
      pose proof (Z.div_mod (replicas + 1) 2 ltac:(lia)).
      pose proof (Z.mod_pos_bound (replicas + 1) 2 ltac:(lia)). lia.
    - apply Z.ltb_ge in Hs. rewrite Z.abs_eq by lia.
      apply div_up_pow2. lia. }
  unfold int32_of_float64, F64.Ceil. rewrite Hceil.
  assert (Hhalf : int32_min <= (replicas + 1) / 2 <= int32_max).
  { pose proof (Z.div_mod (replicas + 1) 2 ltac:(lia)).
    pose proof (Z.mod_pos_bound (replicas + 1) 2 ltac:(lia)).
    unfold int32_min, int32_max. lia. }
  rewrite Ztrunc_binary_normalize
    by (unfold int32_min, int32_max in Hhalf; lia).
  unfold in_int32.
  replace (int32_min <=? (replicas + 1) / 2) with true
    by (symmetry; apply Z.leb_le; lia).
  by replace ((replicas + 1) / 2 <=? int32_max) with true
    by (symmetry; apply Z.leb_le; lia).
Qed.

(** X17. The resource the bootstrap hands to [Create] has for minReplicas
    the replicas of the deployment halved and rounded up, and for
    maxReplicas twice the replicas in [int32] arithmetic. For up to
    2^30 - 1 replicas that is twice the replicas, and the minimum is not
    above the maximum; from 2^30 replicas on the product wraps around and
    maxReplicas is negative. A deployment without replicas gives 0 for
    both. *)
Theorem bootstrap_replica_bounds
    (c : Client) (s : S) (tortoise : Tortoise) (dm : Deployment)
    (hpa : HorizontalPodAutoscaler) :
  In (CallCreate hpa) (calls (CreateHPAOnTortoise c s tortoise dm)) ->
  let replicas := Deployment_Status_Replicas dm in
  0 <= replicas <= int32_max ->
  HPA_MinReplicas hpa = Some ((replicas + 1) / 2)
  /\ HPA_MaxReplicas hpa = wrap32 (replicas * 2)
  /\ (replicas < 2 ^ 30 ->
      HPA_MaxReplicas hpa = replicas * 2
      /\ (replicas + 1) / 2 <= HPA_MaxReplicas hpa)
  /\ (2 ^ 30 <= replicas ->
      HPA_MaxReplicas hpa = replicas * 2 - 2 ^ 32 /\ HPA_MaxReplicas hpa < 0)
  /\ (replicas = 0 -> HPA_MinReplicas hpa = Some 0 /\ HPA_MaxReplicas hpa = 0).
Proof.
  intros Hcall replicas Hrange.
  apply CreateHPAOnTortoise_created in Hcall as (name & ms & _ & -> & _).
  change (HPA_MinReplicas (set_Metrics (defaultHPA tortoise name dm) ms))
    with (Some (int32_of_float64
                  (F64.Ceil (F64.div (F64.of_Z replicas) (F64.of_Z 2))))).
  change (HPA_MaxReplicas (set_Metrics (defaultHPA tortoise name dm) ms))
    with (wrap32 (replicas * 2)).
  unfold int32_max in Hrange.
  rewrite ceil_of_half by (unfold int32_min, int32_max; lia).
  assert (Hsmall : replicas < 2 ^ 30 -> wrap32 (replicas * 2) = replicas * 2).
  { intros Hlt. unfold wrap32.
    rewrite Z.mod_small by lia. lia. }
  assert (Hlarge : 2 ^ 30 <= replicas ->
                   wrap32 (replicas * 2) = replicas * 2 - 2 ^ 32).
  { intros Hge. unfold wrap32.
    rewrite <- (Z.mod_add _ (-1)) by lia.
    rewrite Z.mod_small by lia. lia. }
  split; [reflexivity|]. split; [reflexivity|].
  split; [|split].
  - intros Hlt. rewrite (Hsmall Hlt). split; [reflexivity|].
    pose proof (Z.div_mod (replicas + 1) 2 ltac:(lia)).
    pose proof (Z.mod_pos_bound (replicas + 1) 2 ltac:(lia)). lia.
  - intros Hge. rewrite (Hlarge Hge). split; [reflexivity|]. lia.
  - intros Hzero. rewrite Hzero. split; reflexivity.
Qed.

(** ** The rewrites of a reconciliation, metric by metric *)

Ltac metric_cases m c k name :=
  let ty := fresh "ty" in
  let Hc := fresh "Hc" in
  let He := fresh "He" in
  destruct m as [ty [[crn [tt tv tav [tu|]] crc]|] [[en [et [ev|] eav eu]]|]];
  simpl;
  (destruct (String.eqb ty ContainerResourceMetricSourceType) eqn:Hc;
   [apply String.eqb_eq in Hc; subst ty
   |destruct (String.eqb ty ExternalMetricSourceType) eqn:He;
    [apply String.eqb_eq in He; subst ty|]]);
  simpl; try rewrite ?Hc, ?He; simpl;
  try (destruct (String.eqb crc c); simpl);
  try (destruct (String.eqb crn k); simpl);
  try (destruct (String.eqb en name); simpl);
  try rewrite ?Hc, ?He; simpl;
  try reflexivity; try congruence.

Lemma rewriteMetric_withoutTargets hpa t m :
  withoutTargets (rewriteMetric hpa t m) = withoutTargets m.
Proof.
  destruct t as [[c k] v].
  unfold rewriteMetric, withoutTargets, setContainerResourceTarget,
    setExternalTarget.
  destruct (externalMetricNameFromAnnotation hpa c k) as [name [err|]];
    metric_cases m c k name.
Qed.

Lemma writesTo_withoutTargets hpa t m :
  writesTo hpa t (withoutTargets m) = writesTo hpa t m.
Proof.
  destruct t as [[c k] v].
  unfold writesTo, withoutTargets.
  destruct (externalMetricNameFromAnnotation hpa c k) as [name [err|]];
    metric_cases m c k name.
Qed.

Lemma rewriteMetric_skips hpa t m :
  writesTo hpa t m = false -> rewriteMetric hpa t m = m.
Proof.
  destruct t as [[c k] v].
  unfold rewriteMetric, writesTo, setContainerResourceTarget,
    setExternalTarget.
  destruct (externalMetricNameFromAnnotation hpa c k) as [name [err|]];
    metric_cases m c k name.
Qed.

Lemma rewriteMetric_overwrites hpa t m :
  writesTo hpa t m = true ->
  rewriteMetric hpa t m = rewriteMetric hpa t (withoutTargets m).
Proof.
  destruct t as [[c k] v].
  unfold rewriteMetric, writesTo, withoutTargets, setContainerResourceTarget,
    setExternalTarget.
  destruct (externalMetricNameFromAnnotation hpa c k) as [name [err|]];
    metric_cases m c k name.
Qed.
Lemma lacksValue_withoutTargets name m :
  lacksValue name (withoutTargets m) = lacksValue name m.
Proof.
  unfold lacksValue, withoutTargets.
  metric_cases m name name name.
Qed.

Lemma lacksValue_spec name ms :
  namedExternalWithoutValue name ms
  <-> Exists (fun m => lacksValue name m = true) ms.
Proof.
  unfold namedExternalWithoutValue. rewrite Exists_exists. split.
  - intros (m & ext & Hin & Hty & Hext & Hname & Hvalue).
    exists m. split; [exact Hin|]. unfold lacksValue.
    rewrite Hty, Hext, Hname, Hvalue. simpl.
    by rewrite String.eqb_refl.
  - intros (m & Hin & Hlacks). unfold lacksValue in Hlacks.
    apply andb_true_iff in Hlacks as [Hty Hrest].
    destruct (MetricSpec_External m) as [ext|] eqn:Hext; [|discriminate].
    apply andb_true_iff in Hrest as [Hname Hvalue].
    apply String.eqb_eq in Hty, Hname.
    exists m, ext. repeat (split; [assumption|]).
    destruct (MetricTarget_Value (External_Target ext)); [|reflexivity].
    simpl in Hvalue. discriminate.
Qed.

(** Rewrites keep the metrics that bear a name and lack a value. *)
Lemma namedExternalWithoutValue_map name (f g : MetricSpec -> MetricSpec) ms :
  (forall m, withoutTargets (f m) = withoutTargets (g m)) ->
  namedExternalWithoutValue name (map f ms)
  <-> namedExternalWithoutValue name (map g ms).
Proof.
  intros Hsame. rewrite !lacksValue_spec, !Exists_exists.
  assert (Hlacks : forall m, lacksValue name (f m) = lacksValue name (g m)).
  { intros m. rewrite <- (lacksValue_withoutTargets name (f m)), Hsame.
    apply lacksValue_withoutTargets. }
  split; intros (m' & Hin & Hm'); apply list_elem_of_fmap in Hin as (m & -> & Hin).
  - exists (g m). split; [by apply list_elem_of_fmap_2|]. by rewrite <- Hlacks.
  - exists (f m). split; [by apply list_elem_of_fmap_2|]. by rewrite Hlacks.
Qed.

Lemma rewriteAll_withoutTargets hpa targets : forall m,
  withoutTargets (rewriteAll hpa targets m) = withoutTargets m.
Proof.
  unfold rewriteAll.
  induction targets as [|t targets IH]; intros m; simpl; [reflexivity|].
  by rewrite IH, rewriteMetric_withoutTargets.
Qed.

(** On the metrics that differ in the written targets only, the rewrites
    of a list either change nothing or end in the same metric. *)
Lemma rewriteAll_skips_or_overwrites hpa targets : forall m m',
  withoutTargets m = withoutTargets m' ->
  (rewriteAll hpa targets m = m /\ rewriteAll hpa targets m' = m')
  \/ rewriteAll hpa targets m = rewriteAll hpa targets m'.
Proof.
  unfold rewriteAll.
  induction targets as [|t targets IH]; intros m m' Hsame; simpl; [by left|].
  assert (Hwrites : writesTo hpa t m = writesTo hpa t m').
  { rewrite <- (writesTo_withoutTargets hpa t m), Hsame.
    apply writesTo_withoutTargets. }
  destruct (writesTo hpa t m) eqn:Hm.
  - right. rewrite (rewriteMetric_overwrites hpa t m Hm).
    rewrite (rewriteMetric_overwrites hpa t m') by done.
    by rewrite Hsame.
  - rewrite (rewriteMetric_skips hpa t m Hm).
    rewrite (rewriteMetric_skips hpa t m') by done.
    by apply IH.
Qed.

Lemma rewriteAll_idempotent hpa targets m :
  rewriteAll hpa targets (rewriteAll hpa targets m) = rewriteAll hpa targets m.
Proof.
  destruct (rewriteAll_skips_or_overwrites hpa targets m
              (rewriteAll hpa targets m)) as [[_ Hfix]|Hsame].
  - symmetry. apply rewriteAll_withoutTargets.
  - exact Hfix.
  - by rewrite <- Hsame.
Qed.

Lemma rewriteMetric_annotations a b t m :
  HPA_Annotations a = HPA_Annotations b ->
  rewriteMetric a t m = rewriteMetric b t m.
Proof.
  intros Hann. destruct t as [[c k] v].
  unfold rewriteMetric, externalMetricNameFromAnnotation, annotationOf.
  by rewrite Hann.
Qed.

Lemma rewriteAll_annotations a b targets :
  HPA_Annotations a = HPA_Annotations b ->
  forall m, rewriteAll a targets m = rewriteAll b targets m.
Proof.
  intros Hann. unfold rewriteAll.
  induction targets as [|t targets IH]; intros m; simpl; [reflexivity|].
  by rewrite IH, (rewriteMetric_annotations a b t m Hann).
Qed.

Lemma setExternalTargets_map name targetValue ms :
  snd (setExternalTargets name targetValue ms) = Return tt ->
  fst (setExternalTargets name targetValue ms)
  = map (setExternalTarget name targetValue) ms.
Proof.
  induction ms as [|m ms IH]; [reflexivity|]. simpl.
  unfold setExternalTarget.
  destruct (setExternalTargets name targetValue ms) as [rest r] eqn:Hrest.
  simpl in IH.
  destruct (negb (String.eqb (MetricSpec_Type m) ExternalMetricSourceType));
    simpl; [by intros ->%IH|].
  destruct (MetricSpec_External m) as [ext|]; simpl; [|by intros ->%IH].
  destruct (negb (String.eqb (External_Metric_Name ext) name));
    simpl; [by intros ->%IH|].
  destruct (MetricTarget_Value (External_Target ext)) as [q|]; simpl;
    [by intros ->%IH|discriminate].
Qed.

Lemma set_Metrics_same hpa : set_Metrics hpa (HPA_Metrics hpa) = hpa.
Proof. by destruct hpa. Qed.

(** A rewrite returns without error exactly when the resource kind is cpu
    or memory and no external metric of the computed name lacks a value;
    it has then rewritten the metrics one by one. *)
Lemma updateHPATargetValue_returns hpa containerName k targetValue :
  snd (updateHPATargetValue hpa containerName k targetValue) = Return None
  <-> exists name,
        externalMetricNameFromAnnotation hpa containerName k = (name, None)
        /\ ~ namedExternalWithoutValue name (HPA_Metrics hpa).
Proof.
  rewrite updateHPATargetValue_result.
  destruct (externalMetricNameFromAnnotation hpa containerName k)
    as [name [err|]] eqn:Hname; simpl.
  - split; [discriminate|]. intros (name' & [=] & _).
  - pose proof (setExternalTargets_panics name targetValue
                  (map (setContainerResourceTarget containerName k targetValue)
                     (HPA_Metrics hpa))) as Hpanics.
    rewrite setContainerResourceTarget_keeps_external in Hpanics.
    destruct (snd (setExternalTargets name targetValue _)) as [[]|].
    + split; [intros _|reflexivity]. exists name. split; [reflexivity|].
      intros Hlacks. apply Hpanics in Hlacks. discriminate.
    + split; [discriminate|]. intros (name' & [= <-] & Hnot).
      exfalso. by apply Hnot, Hpanics.
Qed.

Lemma updateHPATargetValue_rewriteMetric hpa containerName k targetValue :
  snd (updateHPATargetValue hpa containerName k targetValue) = Return None ->
  fst (updateHPATargetValue hpa containerName k targetValue)
  = set_Metrics hpa
      (map (rewriteMetric hpa (containerName, k, targetValue))
         (HPA_Metrics hpa)).
Proof.
  rewrite updateHPATargetValue_result. unfold rewriteMetric.
  destruct (externalMetricNameFromAnnotation hpa containerName k)
    as [name [err|]] eqn:Hname; simpl; [discriminate|].
  intros Hreturn. rewrite setExternalTargets_map.
  - by rewrite map_map.
  - by destruct (snd (setExternalTargets name targetValue _)) as [[]|].
Qed.

Lemma namedExternalWithoutValue_rewritten name (f : MetricSpec -> MetricSpec) ms :
  (forall m, withoutTargets (f m) = withoutTargets m) ->
  namedExternalWithoutValue name (map f ms)
  <-> namedExternalWithoutValue name ms.
Proof.
  intros Hsame.
  rewrite (namedExternalWithoutValue_map name f id ms Hsame).
  by rewrite map_id.
Qed.

Lemma writable_rewritten hpa (f : MetricSpec -> MetricSpec) target :
  (forall m, withoutTargets (f m) = withoutTargets m) ->
  writable (set_Metrics hpa (map f (HPA_Metrics hpa))) target
  <-> writable hpa target.
Proof.
  intros Hsame. unfold writable.
  setoid_rewrite externalMetricNameFromAnnotation_set_Metrics.
  simpl. by setoid_rewrite (namedExternalWithoutValue_rewritten _ f _ Hsame).
Qed.

Lemma applyTargets_rewriteAll targets : forall hpa,
  snd (applyTargets hpa targets) = Return None ->
  fst (applyTargets hpa targets)
  = set_Metrics hpa (map (rewriteAll hpa targets) (HPA_Metrics hpa)).
Proof.
  induction targets as [|[[containerName k] v] targets IH]; intros hpa; simpl.
  - intros _. unfold rewriteAll. simpl. rewrite map_id.
    symmetry. apply set_Metrics_same.
  - pose proof (updateHPATargetValue_rewriteMetric hpa containerName k v)
      as Hstep.
    destruct (updateHPATargetValue hpa containerName k v)
      as [hpa1 [[err|]|]]; simpl; try discriminate.
    simpl in Hstep. specialize (Hstep eq_refl). subst hpa1.
    intros Hrest. rewrite (IH _ Hrest). simpl. unfold set_Metrics. simpl.
    f_equal. rewrite map_map. apply map_ext. intros m.
    by rewrite (rewriteAll_annotations _ hpa) by reflexivity.
Qed.

Lemma applyTargets_returns targets : forall hpa,
  snd (applyTargets hpa targets) = Return None
  <-> Forall (writable hpa) targets.
Proof.
  induction targets as [|[[containerName k] v] targets IH]; intros hpa; simpl.
  - split; [constructor|reflexivity].
  - rewrite Forall_cons.
    pose proof (updateHPATargetValue_returns hpa containerName k v) as Hstep.
    pose proof (updateHPATargetValue_rewriteMetric hpa containerName k v)
      as Hmetrics.
    destruct (updateHPATargetValue hpa containerName k v)
      as [hpa1 [[err|]|]]; simpl in *.
    + split; [discriminate|]. intros [Hhead _].
      apply Hstep in Hhead. discriminate.
    + rewrite IH, (Hmetrics eq_refl).
      assert (Hhead : writable hpa (containerName, k, v))
        by (by apply Hstep).
      split.
      * intros Hall. split; [exact Hhead|].
        eapply Forall_impl; [exact Hall|]. intros t.
        apply writable_rewritten. intros m.
        apply rewriteMetric_withoutTargets.
      * intros [_ Hall]. eapply Forall_impl; [exact Hall|]. intros t.
        apply writable_rewritten. intros m.
        apply rewriteMetric_withoutTargets.
    + split; [discriminate|]. intros [Hhead _].
      apply Hstep in Hhead. discriminate.
Qed.

(** X18. The metric rewrites of a reconciliation are idempotent as a
    whole: when the rewrites for all the recommended targets have gone
    through on a resource, running them again on the resource they have
    left goes through again and changes nothing, also when several
    recommendations write to one metric. *)
Theorem applyTargets_idempotent
    (hpa hpa' : HorizontalPodAutoscaler)
    (targets : list (string * ResourceName * Z)) :
  applyTargets hpa targets = (hpa', Return None) ->
  applyTargets hpa' targets = (hpa', Return None).
Proof.
  intros Hfirst.
  assert (Hreturn : snd (applyTargets hpa targets) = Return None)
    by (by rewrite Hfirst).
  pose proof (applyTargets_rewriteAll targets hpa Hreturn) as Hmetrics.
  rewrite Hfirst in Hmetrics. simpl in Hmetrics.
  assert (Hagain : snd (applyTargets hpa' targets) = Return None).
  { apply applyTargets_returns. apply applyTargets_returns in Hreturn.
    rewrite Hmetrics. eapply Forall_impl; [exact Hreturn|]. intros t.
    apply writable_rewritten. intros m. apply rewriteAll_withoutTargets. }
  pose proof (applyTargets_rewriteAll targets hpa' Hagain) as Hsecond.
  destruct (applyTargets hpa' targets) as [hpa'' r]. simpl in *.
  subst r. f_equal. rewrite Hsecond, Hmetrics. unfold set_Metrics. simpl.
  f_equal. rewrite map_map. apply map_ext. intros m.
  rewrite (rewriteAll_annotations _ hpa) by reflexivity.
  apply rewriteAll_idempotent.
Qed.

(** ** A reconciliation after a reconciliation *)







(** ** What the metric rewrite leaves alone *)

(** X20. The rewrite writes only where a target is set already. A
    container resource metric without an average utilization (one that
    targets an average value, say) is left as it is even for the
    container and the resource kind of the rewrite; so is an entry whose
    type is neither ContainerResource nor External, and an entry whose
    type names a source that it does not have, which is skipped without
    a panic. *)
Theorem updateHPATargetValue_skips
    (hpa : HorizontalPodAutoscaler) (containerName : string)
    (k : ResourceName) (targetValue : Z) (i : nat) (m : MetricSpec) :
  HPA_Metrics hpa !! i = Some m ->
  (MetricSpec_Type m <> ContainerResourceMetricSourceType
   /\ MetricSpec_Type m <> ExternalMetricSourceType)
  \/ (MetricSpec_Type m = ContainerResourceMetricSourceType
      /\ (MetricSpec_ContainerResource m = None
          \/ exists cr,
               MetricSpec_ContainerResource m = Some cr
               /\ MetricTarget_AverageUtilization (ContainerResource_Target cr)
                  = None))
  \/ (MetricSpec_Type m = ExternalMetricSourceType
      /\ MetricSpec_External m = None) ->
  HPA_Metrics (fst (updateHPATargetValue hpa containerName k targetValue)) !! i
  = Some m.
Proof.
  intros Hm Hcases.
  set (f := setContainerResourceTarget containerName k targetValue).
  assert (Hf : f m = m).
  { unfold f, setContainerResourceTarget.
    destruct Hcases as [[Hcr _]|[[_ [Hnone|(cr & Hsome & Hau)]]|[Hext _]]].
    - apply String.eqb_neq in Hcr. by rewrite Hcr.
    - rewrite Hnone. by destruct (negb _).
    - rewrite Hsome, Hau. simpl. rewrite !orb_true_r. by destruct (negb _).
    - rewrite Hext. reflexivity. }
  assert (Hexternal : MetricSpec_Type m = ExternalMetricSourceType ->
                      MetricSpec_External m = None).
  { destruct Hcases as [[_ Hext]|[[Hcr _]|[_ Hnone]]]; intros Htype.
    - contradiction.
    - rewrite Hcr in Htype. discriminate.
    - exact Hnone. }
  rewrite updateHPATargetValue_result. fold f.
  assert (Hfm : map f (HPA_Metrics hpa) !! i = Some m)
    by (rewrite list_lookup_fmap, Hm; simpl; by rewrite Hf).
  destruct (externalMetricNameFromAnnotation hpa containerName k)
    as [name [err|]]; simpl; [exact Hfm|].
  destruct (setExternalTargets_lookup name targetValue _ i m Hfm)
    as (m' & Hm' & _ & _ & [->|(Htype & ext & Hext & _)]); [exact Hm'|].
  rewrite (Hexternal Htype) in Hext. discriminate.
Qed.

End Package.

(** * The package on the in-memory store *)



(** With the slots of the scenario, Monday 14:00 finds 5 and Tuesday
    14:00 finds no slot. *)
Lemma getReplicasRecommendation_first_match_scenario :
  getReplicasRecommendation Sample.slots Sample.mondayAt14 = (5, None)
  /\ getReplicasRecommendation Sample.slots Sample.tuesdayAt14
     = (0, Some (errorString "no recommendation slot")).
Proof.
  split.
  - apply (proj1 (getReplicasRecommendation_first_match
                    Sample.slots Sample.mondayAt14)
             [mkReplicasRecommendation 0 12 Monday 3]
             (mkReplicasRecommendation 12 24 Monday 5) []).
    + reflexivity.
    + intros x Hx. apply list_elem_of_singleton in Hx as ->.
      unfold inWindow; simpl. lia.
    + unfold inWindow; simpl. split; [reflexivity | lia].
  - apply (proj2 (getReplicasRecommendation_first_match
                    Sample.slots Sample.tuesdayAt14)).
    intros x Hx. unfold Sample.slots in Hx.
    apply elem_of_cons in Hx as [->|Hx];
      [|apply list_elem_of_singleton in Hx as ->];
      unfold inWindow; simpl; unfold Tuesday, Monday; lia.
Defined.

(** * The properties on the sample objects *)

Local Abbreviation updateFromRecommendation :=
  (UpdateHPAFromTortoiseRecommendation Sample.cpuKey Sample.memoryKey
     Sample.range Sample.unrepresentable).
Local Abbreviation rewriteTarget :=
  (updateHPATargetValue Sample.cpuKey Sample.memoryKey).
Local Abbreviation sampleStore :=
  (Sample.storeOf (Sample.hpa Sample.bootstrapped 10 20)).

Lemma sample_reachesPlanner phase maxReplicas minReplicas :
  reachesPlanner Sample.cpuKey Sample.memoryKey Sample.range sampleStore
    (Sample.tortoise phase maxReplicas minReplicas) ("shop", "web-hpa")
    (fst (rewriteTarget (Sample.hpa Sample.bootstrapped 10 20)
            "api" ResourceCPU 60)).
Proof.
  exists "web-hpa", (Sample.hpa Sample.bootstrapped 10 20).
  split; [reflexivity|]. split; [reflexivity|].
  split; vm_compute; reflexivity.
Qed.

Lemma sample_noSlot weekday value :
  weekday <> Monday ->
  noSlot Sample.mondayAt14 (Sample.allDay weekday value).
Proof.
  intros Hday slot Hslot. apply list_elem_of_singleton in Hslot as ->.
  unfold inWindow. simpl. intros [Heq _]. by apply Hday.
Qed.

(** C3, as the specification states it, fails: on a resource without
    annotations the name for cpu is computed, without the prefix, and the
    rewrite returns no error. *)
Lemma absent_prefix_is_no_error :
  let hpa := Sample.hpa ∅ 10 20 in
  HPA_Annotations hpa !! Sample.cpuKey = None
  /\ externalMetricNameFromAnnotation Sample.cpuKey Sample.memoryKey
       hpa "api" ResourceCPU = ("api", None)
  /\ snd (rewriteTarget hpa "api" ResourceCPU 60) = Return None.
Proof. vm_compute. repeat split; reflexivity. Qed.

Lemma externalMetricName_fails_only_on_unsupported_kind_sample :
  externalMetricNameFromAnnotation Sample.cpuKey Sample.memoryKey
    (Sample.hpa Sample.bootstrapped 10 20) "api" ResourceCPU
  = ("datadogmetric@shop:web-cpu-api", None)
  /\ snd (rewriteTarget (Sample.hpa Sample.bootstrapped 10 20)
            "api" "ephemeral-storage" 60)
     = Return (Some (errorString
                       "non supported resource type: ephemeral-storage")).
Proof.
  pose proof (externalMetricName_fails_only_on_unsupported_kind
                Sample.cpuKey Sample.memoryKey
                (Sample.hpa Sample.bootstrapped 10 20) "api" ResourceCPU 60)
    as (Hcpu & _).
  pose proof (externalMetricName_fails_only_on_unsupported_kind
                Sample.cpuKey Sample.memoryKey
                (Sample.hpa Sample.bootstrapped 10 20) "api"
                "ephemeral-storage" 60)
    as (_ & _ & _ & Hother).
  split.
  - rewrite Hcpu by reflexivity. vm_compute; reflexivity.
  - apply Hother; discriminate.
Defined.

(** C4 on the sample: on a Monday, with minReplicas slots for Tuesday
    only, a tortoise in phase Working gets an error and the store keeps
    the resource it had. *)
Lemma lookup_failure_leaves_store_unchanged_sample :
  let tortoise :=
    Sample.tortoise TortoisePhaseWorking
      (Sample.allDay Monday 20) (Sample.allDay Tuesday 6) in
  let o :=
    updateFromRecommendation (New Sample.half 90) sampleStore tortoise
      Sample.mondayAt14 in
  store o = sampleStore
  /\ Forall (fun call => isUpdate call = false) (calls o)
  /\ exists which,
       returned o = Return (None, tortoise, Some (recommendationGap which)).
Proof.
  intros tortoise o.
  destruct (lookup_failure_leaves_store_unchanged
              Sample.cpuKey Sample.memoryKey Sample.range
              Sample.unrepresentable (New Sample.half 90) sampleStore
              tortoise Sample.mondayAt14)
    as (Hstore & Hcalls & _ & Hreach).
  - right. split; [discriminate|]. by apply sample_noSlot.
  - split; [exact Hstore|]. split; [exact Hcalls|].
    eapply Hreach, sample_reachesPlanner.
Defined.

(** C5 on the sample: the fetched resource has minReplicas 10; in phase
    Emergency, with 20 looked up, both bounds become 20. *)
Lemma emergency_pins_min_to_max_sample :
  let tortoise :=
    Sample.tortoise TortoisePhaseEmergency
      (Sample.allDay Monday 20) (Sample.allDay Monday 6) in
  let o :=
    updateFromRecommendation (New Sample.half 90) sampleStore tortoise
      Sample.mondayAt14 in
  exists updated,
    returned o = Return (Some updated, tortoise, None)
    /\ HPA_MinReplicas updated = Some 20 /\ HPA_MaxReplicas updated = 20
    /\ Status_TortoisePhase tortoise = TortoisePhaseEmergency.
Proof.
  intros tortoise o.
  destruct (emergency_pins_min_to_max
              Sample.cpuKey Sample.memoryKey Sample.range
              Sample.unrepresentable (New Sample.half 90) sampleStore
              tortoise Sample.mondayAt14 20)
    as (Hany & Hreach); [reflexivity|reflexivity|].
  destruct (Hreach _ _ (sample_reachesPlanner _ _ _))
    as (updated & Hupdated & Hret & _).
  exists updated.
  assert (Hok : snd (client_Update sampleStore updated) = None)
    by (subst updated; vm_compute; reflexivity).
  rewrite Hok in Hret. split; [exact Hret|].
  destruct (Hany _ _ _ Hret) as (Hmin & Hmax & _ & Hphase). auto.
Defined.

(** C10 on the sample: with minReplicas slots for Tuesday only, the call
    on a Monday succeeds in phase Emergency and fails in the two other
    phases. *)
Lemma emergency_ignores_minReplicas_sample :
  let tortoise phase :=
    Sample.tortoise phase (Sample.allDay Monday 20) (Sample.allDay Tuesday 6) in
  let o phase :=
    updateFromRecommendation (New Sample.half 90) sampleStore (tortoise phase)
      Sample.mondayAt14 in
  (exists updated,
      returned (o TortoisePhaseEmergency)
      = Return (Some updated, tortoise TortoisePhaseEmergency, None))
  /\ returned (o TortoisePhaseWorking)
     = Return (None, tortoise TortoisePhaseWorking,
               Some (recommendationGap "get minReplicas recommendation"))
  /\ returned (o TortoisePhaseBackToNormal)
     = Return (None, tortoise TortoisePhaseBackToNormal,
               Some (recommendationGap "get minReplicas recommendation")).
Proof.
  intros tortoise o.
  pose proof (emergency_ignores_minReplicas
                Sample.cpuKey Sample.memoryKey Sample.range
                Sample.unrepresentable (New Sample.half 90) sampleStore
                (tortoise TortoisePhaseEmergency) Sample.mondayAt14 20
                _ _ eq_refl (sample_noSlot Tuesday 6 ltac:(discriminate))
                eq_refl (sample_reachesPlanner _ _ _))
    as [Hemergency Hothers].
  cbv zeta in Hemergency. destruct Hemergency as (_ & _ & Hok).
  split; [|split].
  - eexists. apply Hok. vm_compute. reflexivity.
  - apply (Hothers TortoisePhaseWorking). by left.
  - apply (Hothers TortoisePhaseBackToNormal). by right.
Defined.

(** C8 on the sample: the rewrite of (api, cpu) changes the first and
    the fourth metric only; the metrics of (worker, cpu) and of
    (api, memory) stay. *)
Lemma rewrite_changes_only_its_metrics_sample :
  let hpa := Sample.hpa Sample.bootstrapped 10 20 in
  let hpa' := fst (rewriteTarget hpa "api" ResourceCPU 60) in
  HPA_Metrics hpa' !! 1%nat = Some (Sample.containerResource "worker" ResourceCPU 70)
  /\ HPA_Metrics hpa' !! 2%nat = Some (Sample.containerResource "api" ResourceMemory 70)
  /\ HPA_Metrics hpa' !! 4%nat = Some (Sample.external "datadogmetric@shop:web-cpu-worker" 50)
  /\ HPA_Metrics hpa' !! 5%nat = Some (Sample.external "datadogmetric@shop:web-memory-api" 90).
Proof.
  intros hpa hpa'.
  destruct (rewrite_changes_only_its_metrics Sample.cpuKey Sample.memoryKey
              hpa "api" ResourceCPU 60) as (_ & _ & Hframe).
  assert (Hprefix : annotationOf hpa Sample.cpuKey <> annotationOf hpa Sample.memoryKey)
    by (vm_compute; discriminate).
  specialize (Hframe Hprefix "worker" ResourceMemory).
  assert (Hother : "worker" <> "api") by discriminate.
  assert (Hkinds : (ResourceCPU = ResourceCPU /\ ResourceMemory = ResourceMemory)
                   \/ (ResourceCPU = ResourceMemory /\ ResourceMemory = ResourceCPU))
    by (by left).
  split; [|split; [|split]]; apply Hframe; try assumption; try reflexivity.
  - left. left. split; [reflexivity|]. eexists. by split.
  - right. left. split; [reflexivity|]. eexists. by split.
  - left. right. split; [reflexivity|]. eexists. split; [reflexivity|].
    vm_compute; reflexivity.
  - right. right. split; [reflexivity|]. eexists. split; [reflexivity|].
    vm_compute; reflexivity.
Defined.

(** C7 on the sample: the api container scales cpu horizontally and
    memory vertically; the bootstrap of a deployment of 7 replicas asks
    for the two external metrics, with targets 50 and 90. *)
Lemma bootstrap_metrics_sample :
  let tortoise := Sample.tortoise TortoisePhaseWorking [] [] in
  let o :=
    CreateHPAOnTortoise Sample.cpuKey Sample.memoryKey Sample.range
      Sample.unrepresentable (New Sample.half 90)
      (∅ : gmap NamespacedName HorizontalPodAutoscaler) tortoise
      (mkDeployment 7) in
  exists hpa,
    calls o = [CallCreate hpa]
    /\ HPA_MinReplicas hpa = Some 4 /\ HPA_MaxReplicas hpa = 14
    /\ (exists m, m ∈ HPA_Metrics hpa
                  /\ externalMetricWithTarget m
                       "datadogmetric@shop:web-cpu-api" 50)
    /\ (exists m, m ∈ HPA_Metrics hpa
                  /\ externalMetricWithTarget m
                       "datadogmetric@shop:web-memory-api" 90)
    /\ length (HPA_Metrics hpa) = 2%nat.
Proof.
  intros tortoise o.
  eexists. split; [vm_compute; reflexivity|].
  match goal with |- HPA_MinReplicas ?h = _ /\ _ => set (hpa := h) end.
  assert (Hcall : In (CallCreate hpa) (calls o))
    by (vm_compute; left; reflexivity).
  destruct (bootstrap_metrics Sample.cpuKey Sample.memoryKey
              ltac:(discriminate) Sample.range
              ltac:(reflexivity) Sample.unrepresentable (New Sample.half 90)
              ∅ tortoise (mkDeployment 7) hpa Hcall)
    as (Hall & _ & Hlen).
  split; [reflexivity|]. split; [reflexivity|].
  split; [|split].
  - apply (Hall "api" ResourceCPU AutoscalingTypeHorizontal).
    eexists. split; [by left|]. split; reflexivity.
  - apply (Hall "api" ResourceMemory AutoscalingTypeVertical).
    eexists. split; [by left|]. split; reflexivity.
  - reflexivity.
Defined.


(** * The further properties on the sample objects *)

Local Abbreviation sampleHPA := (Sample.hpa Sample.bootstrapped 10 20).
Local Abbreviation bootstrap :=
  (CreateHPAOnTortoise Sample.cpuKey Sample.memoryKey Sample.range
     Sample.unrepresentable).

Lemma sample_keys_differ : Sample.cpuKey <> Sample.memoryKey.
Proof. discriminate. Qed.

Lemma sample_externalValuesSet : externalValuesSet (HPA_Metrics sampleHPA).
Proof.
  intros m ext Hin Htype Hext. simpl in Hin.
  repeat (apply elem_of_cons in Hin as [->|Hin]);
    try discriminate; try (injection Hext as <-; simpl; eauto).
  inversion Hin.
Qed.

Lemma sample_recommends_cpu phase maxReplicas minReplicas containerName k v :
  recommendsTarget (Sample.tortoise phase maxReplicas minReplicas)
    containerName k v ->
  supportedKind k.
Proof.
  intros (t & Hin & _ & Hlookup).
  apply list_elem_of_singleton in Hin as ->. simpl in Hlookup.
  apply lookup_singleton_Some in Hlookup as [<- _]. by left.
Qed.

Lemma sample_policies_supported phase maxReplicas minReplicas containerName k p :
  hasPolicy (Sample.tortoise phase maxReplicas minReplicas) containerName k p ->
  supportedKind k.
Proof.
  intros (policy & Hin & _ & Hlookup).
  apply list_elem_of_singleton in Hin as ->. simpl in Hlookup.
  apply lookup_insert_Some in Hlookup as [[<- _]|[_ Hlookup]]; [by left|].
  apply lookup_singleton_Some in Hlookup as [<- _]. by right.
Qed.

(** X1 on the sample: the rewrite of (api, cpu) to 60 sets the
    utilization of the first metric and the value of the fourth. *)
Lemma updateHPATargetValue_writes_targets_sample :
  let hpa' := fst (rewriteTarget sampleHPA "api" ResourceCPU 60) in
  (exists m' cr',
      HPA_Metrics hpa' !! 0%nat = Some m'
      /\ MetricSpec_ContainerResource m' = Some cr'
      /\ MetricTarget_AverageUtilization (ContainerResource_Target cr')
         = Some 60)
  /\ (exists q m' ext',
        HPA_Metrics hpa' !! 3%nat = Some m'
        /\ MetricSpec_External m' = Some ext'
        /\ MetricTarget_Value (External_Target ext')
           = Some (Quantity_Set q 60)
        /\ Quantity_i_value (Quantity_Set q 60) = 60).
Proof.
  intros hpa'.
  destruct (updateHPATargetValue_writes_targets Sample.cpuKey Sample.memoryKey
              sampleHPA "api" ResourceCPU 60) as [Hutilization Hvalue].
  split.
  - destruct (Hutilization 0%nat _ _ 70 eq_refl eq_refl eq_refl eq_refl
                eq_refl eq_refl)
      as (m' & cr' & Hm' & Hcr' & _ & _ & Htarget).
    exists m', cr'. split; [exact Hm'|]. split; [exact Hcr'|exact Htarget].
  - destruct (Hvalue ltac:(vm_compute; reflexivity) 3%nat _ _ eq_refl eq_refl
                eq_refl ltac:(vm_compute; reflexivity))
      as (q & m' & ext' & _ & Hm' & Hext' & _ & Hq & Hv & _).
    exists q, m', ext'. split; [exact Hm'|]. split; [exact Hext'|].
    split; [exact Hq|exact Hv].
Defined.

(** X2 on the sample: without a value on the external metric of
    (api, cpu) the rewrite panics; on the sample resource it does not. *)
Lemma updateHPATargetValue_panics_iff_sample :
  let valueless :=
    {| MetricSpec_Type := ExternalMetricSourceType;
       MetricSpec_ContainerResource := None;
       MetricSpec_External :=
         Some {| External_Metric_Name := "datadogmetric@shop:web-cpu-api";
                 External_Target := Sample.utilization 50 |} |} in
  snd (rewriteTarget (set_Metrics sampleHPA [valueless]) "api" ResourceCPU 60)
  = Panic
  /\ snd (rewriteTarget sampleHPA "api" ResourceCPU 60) <> Panic.
Proof.
  intros valueless. split.
  - apply (proj1 (updateHPATargetValue_panics_iff Sample.cpuKey
                    Sample.memoryKey (set_Metrics sampleHPA [valueless])
                    "api" ResourceCPU 60)).
    exists "datadogmetric@shop:web-cpu-api".
    split; [vm_compute; reflexivity|].
    exists valueless, {| External_Metric_Name := "datadogmetric@shop:web-cpu-api";
                         External_Target := Sample.utilization 50 |}.
    split; [by left|]. repeat split.
  - apply (proj2 (updateHPATargetValue_panics_iff Sample.cpuKey
                    Sample.memoryKey sampleHPA "api" ResourceCPU 60)).
    apply sample_externalValuesSet.
Defined.

(** X3 on the sample: the resource has no metric of a container [db];
    the rewrite for (db, cpu) leaves it as it is and returns no error. *)
Lemma updateHPATargetValue_without_metric_sample :
  fst (rewriteTarget sampleHPA "db" ResourceCPU 60) = sampleHPA
  /\ snd (rewriteTarget sampleHPA "db" ResourceCPU 60) = Return None.
Proof.
  destruct (updateHPATargetValue_without_metric Sample.cpuKey Sample.memoryKey
              sampleHPA "db" ResourceCPU 60) as [Hsame Hreturn].
  - intros m Hin. simpl in Hin.
    repeat (apply elem_of_cons in Hin as [->|Hin]); [..|inversion Hin];
      intros [(_ & cr & [= <-] & Hcontainer & _)|(_ & ext & [= <-] & Hname)];
      vm_compute in *; congruence.
  - split; [exact Hsame|]. apply Hreturn. by left.
Defined.

(** X4 on the sample: in phase Working the reconciliation makes a [Get]
    and then an [Update]. *)
Lemma UpdateHPAFromTortoiseRecommendation_calls_sample :
  let tortoise :=
    Sample.tortoise TortoisePhaseWorking
      (Sample.allDay Monday 20) (Sample.allDay Monday 6) in
  let o :=
    updateFromRecommendation (New Sample.half 90) sampleStore tortoise
      Sample.mondayAt14 in
  exists key fetched updated,
    calls o = [CallGet key; CallUpdate updated]
    /\ client_Get sampleStore key = inl fetched
    /\ sameObject fetched updated.
Proof.
  intros tortoise o.
  destruct (UpdateHPAFromTortoiseRecommendation_calls
              Sample.cpuKey Sample.memoryKey Sample.range
              Sample.unrepresentable (New Sample.half 90) sampleStore
              tortoise Sample.mondayAt14)
    as [(Hname & _)|[(key & Hcalls & _)|
         (key & fetched & updated & t & Hcalls & Hget & _ & _ & Hsame)]].
  - discriminate Hname.
  - apply (f_equal length) in Hcalls. vm_compute in Hcalls.
    discriminate Hcalls.
  - exists key, fetched, updated.
    split; [exact Hcalls|]. split; [exact Hget|exact Hsame].
Defined.

(** X5 on the sample: on the empty store both calls return the wrapped
    NotFound. *)
Lemma get_failure_is_returned_sample :
  let tortoise :=
    Sample.tortoise TortoisePhaseWorking
      (Sample.allDay Monday 20) (Sample.allDay Monday 6) in
  let wrapped :=
    wrapError "failed to get hpa on tortoise"
      (StatusError StatusReasonNotFound) in
  let store0 : gmap NamespacedName HorizontalPodAutoscaler := ∅ in
  GetHPAOnTortoise (New Sample.half 90) store0 tortoise
  = mkOutcome store0 [CallGet ("shop", "web-hpa")]
      (Return (None, Some wrapped))
  /\ updateFromRecommendation (New Sample.half 90) store0 tortoise
       Sample.mondayAt14
     = mkOutcome store0 [CallGet ("shop", "web-hpa")]
         (Return (None, tortoise, Some wrapped)).
Proof.
  intros tortoise wrapped store0.
  apply (get_failure_is_returned Sample.cpuKey Sample.memoryKey Sample.range
           Sample.unrepresentable (New Sample.half 90) store0 tortoise
           Sample.mondayAt14 "web-hpa" (StatusError StatusReasonNotFound));
    reflexivity.
Defined.

(** X6 on the sample: the one recommendation is for cpu, and the
    rewrites reach the planner. *)
Lemma rewrites_reach_planner_or_fail_sample :
  let tortoise :=
    Sample.tortoise TortoisePhaseWorking
      (Sample.allDay Monday 20) (Sample.allDay Monday 6) in
  exists hpa,
    reachesPlanner Sample.cpuKey Sample.memoryKey Sample.range sampleStore
      tortoise ("shop", "web-hpa") hpa
    /\ sameObject sampleHPA hpa
    /\ HPA_MinReplicas hpa = Some 10.
Proof.
  intros tortoise.
  assert (Hget : client_Get sampleStore (Tortoise_Namespace tortoise, "web-hpa")
                 = inl sampleHPA) by (vm_compute; reflexivity).
  destruct (rewrites_reach_planner_or_fail Sample.cpuKey Sample.memoryKey
              Sample.range ltac:(reflexivity) Sample.unrepresentable
              (New Sample.half 90) sampleStore tortoise Sample.mondayAt14
              "web-hpa" sampleHPA eq_refl Hget sample_externalValuesSet)
    as [Hreach _].
  destruct (Hreach (sample_recommends_cpu _ _ _))
    as (hpa & Hplanner & Hsame & Hmin & _).
  exists hpa. split; [exact Hplanner|]. split; [exact Hsame|].
  rewrite Hmin. reflexivity.
Defined.

(** X7 on the sample: on a Monday at 14, in phase Working, the bounds
    become the looked-up 6 and 20. *)
Lemma working_takes_both_recommendations_sample :
  let tortoise :=
    Sample.tortoise TortoisePhaseWorking
      (Sample.allDay Monday 20) (Sample.allDay Monday 6) in
  let updated :=
    set_MinReplicas
      (set_MaxReplicas (fst (rewriteTarget sampleHPA "api" ResourceCPU 60)) 20)
      (Some 6) in
  updateFromRecommendation (New Sample.half 90) sampleStore tortoise
    Sample.mondayAt14
  = mkOutcome (fst (client_Update sampleStore updated))
      [CallGet ("shop", "web-hpa"); CallUpdate updated]
      (Return (Some updated, tortoise, snd (client_Update sampleStore updated))).
Proof.
  intros tortoise updated.
  apply (working_takes_both_recommendations Sample.cpuKey Sample.memoryKey
           Sample.range Sample.unrepresentable (New Sample.half 90)
           sampleStore tortoise Sample.mondayAt14 20 6);
    [discriminate|discriminate|reflexivity|reflexivity|].
  apply sample_reachesPlanner.
Defined.

(** X8 on the sample, the two scenarios of the decay: from a minimum of
    10 with ideal minimum 6, the factor 0.5 gives 5, below the ideal, so
    the minimum is 6 and the phase Working; the factor 0.9 gives 9, so
    the minimum is 9 and the phase stays. *)
Lemma backToNormal_takes_greater_sample :
  let tortoise :=
    Sample.tortoise TortoisePhaseBackToNormal
      (Sample.allDay Monday 20) (Sample.allDay Monday 6) in
  let rewritten := fst (rewriteTarget sampleHPA "api" ResourceCPU 60) in
  let result factor :=
    returned (updateFromRecommendation (New factor 90) sampleStore tortoise
                Sample.mondayAt14) in
  (exists answer,
      result Sample.half
      = Return (Some (set_MinReplicas (set_MaxReplicas rewritten 20) (Some 6)),
                set_TortoisePhase tortoise TortoisePhaseWorking, answer))
  /\ (exists answer,
        result Sample.nine_tenths
        = Return (Some (set_MinReplicas (set_MaxReplicas rewritten 20) (Some 9)),
                  tortoise, answer)).
Proof.
  intros tortoise rewritten result.
  pose proof (fun factor =>
    backToNormal_takes_greater Sample.cpuKey Sample.memoryKey
      Sample.range Sample.unrepresentable (New factor 90)
      sampleStore tortoise Sample.mondayAt14 20 6 10 ("shop", "web-hpa")
      rewritten eq_refl eq_refl eq_refl (sample_reachesPlanner _ _ _) eq_refl)
    as Hdecay.
  split.
  - destruct (Hdecay Sample.half) as (Hcall & _).
    assert (Hreduced : reducedMinReplicas Sample.unrepresentable
                         (New Sample.half 90) 10 = 5)
      by (vm_compute; reflexivity).
    rewrite Hreduced in Hcall. unfold result. rewrite Hcall.
    eexists. reflexivity.
  - destruct (Hdecay Sample.nine_tenths) as (Hcall & _).
    assert (Hreduced : reducedMinReplicas Sample.unrepresentable
                         (New Sample.nine_tenths 90) 10 = 9)
      by (vm_compute; reflexivity).
    rewrite Hreduced in Hcall. unfold result. rewrite Hcall.
    eexists. reflexivity.
Defined.

(** X9 on the sample: the stored resource has no minReplicas; in phase
    BackToNormal the reconciliation panics after the [Get]. *)
Lemma missing_minReplicas_panics_in_backToNormal_sample :
  let unset := set_MinReplicas sampleHPA None in
  let tortoise :=
    Sample.tortoise TortoisePhaseBackToNormal
      (Sample.allDay Monday 20) (Sample.allDay Monday 6) in
  updateFromRecommendation (New Sample.half 90) (Sample.storeOf unset)
    tortoise Sample.mondayAt14
  = mkOutcome (Sample.storeOf unset) [CallGet ("shop", "web-hpa")] Panic.
Proof.
  intros unset tortoise.
  assert (Hreach :
    reachesPlanner Sample.cpuKey Sample.memoryKey Sample.range
      (Sample.storeOf unset) tortoise ("shop", "web-hpa")
      (fst (rewriteTarget unset "api" ResourceCPU 60))).
  { exists "web-hpa", unset. split; [reflexivity|]. split; [reflexivity|].
    split; vm_compute; reflexivity. }
  apply (proj1 (missing_minReplicas_panics_in_backToNormal
                  Sample.cpuKey Sample.memoryKey Sample.range
                  Sample.unrepresentable (New Sample.half 90)
                  (Sample.storeOf unset) tortoise Sample.mondayAt14 20 6
                  ("shop", "web-hpa") _ eq_refl eq_refl Hreach eq_refl)).
  reflexivity.
Defined.

(** X10 on the sample: a policy for ephemeral-storage is refused before
    any call. *)
Lemma bootstrap_refuses_unsupported_kind_sample :
  let tortoise :=
    {| Tortoise_Namespace := "shop";
       Spec_TargetRefs_HorizontalPodAutoscalerName := Some "web-hpa";
       Spec_TargetRefs_DeploymentName := "web";
       Spec_ResourcePolicy :=
         [ {| Policy_ContainerName := "api";
              Policy_AutoscalingPolicy :=
                {[ "ephemeral-storage" := AutoscalingTypeHorizontal ]} |} ];
       Status_TortoisePhase := TortoisePhaseWorking;
       Status_Targets_HorizontalPodAutoscaler := "";
       Status_TargetUtilizations := [];
       Status_MaxReplicas := [];
       Status_MinReplicas := [] |} in
  let store0 : gmap NamespacedName HorizontalPodAutoscaler := ∅ in
  bootstrap (New Sample.half 90) store0 tortoise (mkDeployment 7)
  = mkOutcome store0 []
      (Return (None, tortoise,
               Some (errorString
                       "non supported resource type: ephemeral-storage"))).
Proof.
  intros tortoise store0.
  assert (Hkind : forall containerName k p,
             hasPolicy tortoise containerName k p -> k = "ephemeral-storage").
  { intros containerName k p (policy & Hin & _ & Hlookup).
    apply list_elem_of_singleton in Hin as ->. simpl in Hlookup.
    by apply lookup_singleton_Some in Hlookup as [<- _]. }
  destruct (bootstrap_refuses_unsupported_kind Sample.cpuKey Sample.memoryKey
              Sample.range ltac:(reflexivity) Sample.unrepresentable
              (New Sample.half 90) store0 tortoise (mkDeployment 7) "web-hpa"
              eq_refl)
    as (containerName & k & p & Hhas & _ & Hcall).
  - exists "api", "ephemeral-storage", AutoscalingTypeHorizontal. split.
    + eexists. split; [by left|]. split; [reflexivity|].
      simpl. apply lookup_singleton_eq.
    + intros [Hcpu|Hmemory]; discriminate.
  - rewrite Hcall, (Hkind _ _ _ Hhas). reflexivity.
Defined.

(** X11 on the sample: on the empty store the bootstrap creates the
    resource and returns it. *)
Lemma bootstrap_create_outcome_sample :
  let tortoise := Sample.tortoise TortoisePhaseWorking [] [] in
  let store0 : gmap NamespacedName HorizontalPodAutoscaler := ∅ in
  let o := bootstrap (New Sample.half 90) store0 tortoise (mkDeployment 7) in
  exists hpa,
    HPA_Name hpa = "web-hpa" /\ HPA_Namespace hpa = "shop"
    /\ calls o = [CallCreate hpa]
    /\ store o = {[ ("shop", "web-hpa") := hpa ]}
    /\ returned o
       = Return (Some hpa,
                 set_Targets_HorizontalPodAutoscaler tortoise "web-hpa", None).
Proof.
  intros tortoise store0 o.
  destruct (bootstrap_create_outcome Sample.cpuKey Sample.memoryKey
              Sample.range ltac:(reflexivity) Sample.unrepresentable
              (New Sample.half 90) store0 tortoise (mkDeployment 7) "web-hpa"
              eq_refl (sample_policies_supported _ _ _))
    as (hpa & Hname & Hnamespace & Hcalls & Hstore & _ & Haccepted & _).
  assert (Hcreate : client_Create store0 hpa
                    = ({[ ("shop", "web-hpa") := hpa ]}, None)).
  { simpl. unfold keyOf. rewrite Hname, Hnamespace. unfold store0.
    rewrite lookup_empty. reflexivity. }
  exists hpa. split; [exact Hname|]. split; [exact Hnamespace|].
  split; [exact Hcalls|]. split.
  - unfold o. rewrite Hstore, Hcreate. reflexivity.
  - apply Haccepted. rewrite Hcreate. reflexivity.
Defined.

(** X12 on the sample: on the bootstrapped resource the rewrite of
    (api, cpu) to 60 returns no error and leaves the metric of that name
    at 60. *)
Lemma bootstrap_then_rewrite_sample :
  let tortoise := Sample.tortoise TortoisePhaseWorking [] [] in
  let store0 : gmap NamespacedName HorizontalPodAutoscaler := ∅ in
  let o := bootstrap (New Sample.half 90) store0 tortoise (mkDeployment 7) in
  exists hpa,
    calls o = [CallCreate hpa]
    /\ snd (rewriteTarget hpa "api" ResourceCPU 60) = Return None
    /\ exists m,
         m ∈ HPA_Metrics (fst (rewriteTarget hpa "api" ResourceCPU 60))
         /\ externalMetricWithTarget m "datadogmetric@shop:web-cpu-api" 60.
Proof.
  intros tortoise store0 o.
  eexists. split; [vm_compute; reflexivity|].
  match goal with
  | |- snd (rewriteTarget ?h _ _ _) = _ /\ _ => set (hpa := h)
  end.
  assert (Hcall : In (CallCreate hpa) (calls o))
    by (vm_compute; left; reflexivity).
  apply (bootstrap_then_rewrite Sample.cpuKey Sample.memoryKey
           ltac:(discriminate) Sample.range ltac:(reflexivity)
           Sample.unrepresentable (New Sample.half 90) store0 tortoise
           (mkDeployment 7) hpa "api" ResourceCPU AutoscalingTypeHorizontal 60
           Hcall).
  eexists. split; [by left|]. split; reflexivity.
Defined.

(** X13 on the sample: 10 replicas and the factor 0.5 give 5. *)
Lemma reducedMinReplicas_is_floor_of_product_sample :
  let c := New Sample.half 90 in
  let product := F64.mul (F64.of_Z 10) (replicaReductionFactor c) in
  let r := reducedMinReplicas Sample.unrepresentable c 10 in
  F64.Ztrunc product = Some r /\ F64.Zfloor product = Some r
  /\ 0 <= r < 10.
Proof.
  intros c product r.
  destruct (reducedMinReplicas_is_floor_of_product Sample.unrepresentable c 10)
    as (Htrunc & Hfloor & _ & Hless).
  - vm_compute. repeat split; reflexivity.
  - vm_compute. split; discriminate.
  - destruct (Hfloor ltac:(lia)) as [Hfloor' Hbounds].
    split; [exact Htrunc|]. split; [exact Hfloor'|].
    split; [apply Hbounds|].
    apply Hless; [vm_compute; reflexivity|lia].
Defined.

(** X14 on the sample: from 10 replicas, with the factor 0.5 and the
    ideal minimum 6, the decay ends within five passes. *)
Lemma backToNormal_decay_ends_sample :
  let c := New Sample.half 90 in
  let tortoise :=
    Sample.tortoise TortoisePhaseBackToNormal
      (Sample.allDay Monday 20) (Sample.allDay Monday 6) in
  let after n :=
    replicasAfter Sample.unrepresentable c Sample.mondayAt14 20 n
      (sampleHPA, tortoise) in
  exists n : nat,
    (1 <= n <= 5)%nat
    /\ (forall k : nat, (k < n)%nat ->
          exists m,
            after k = Some (Some m, TortoisePhaseBackToNormal)
            /\ m <= 10 - Z.of_nat k /\ ((0 < k)%nat -> 6 <= m))
    /\ (forall j : nat, (n <= j)%nat ->
          after j = Some (Some 6, TortoisePhaseWorking)).
Proof.
  intros c tortoise after.
  apply (backToNormal_decay_ends Sample.unrepresentable c Sample.mondayAt14
           20 6 10 sampleHPA tortoise).
  - vm_compute. repeat split; reflexivity.
  - vm_compute. reflexivity.
  - lia.
  - reflexivity.
  - reflexivity.
  - reflexivity.
  - vm_compute. split; discriminate.
Defined.

(** X16 on the sample: a slot from 22 to 2 is not found at 23 hours; the
    lookup goes on to the slot after it. *)
Lemma empty_windows_are_never_found_sample :
  let night := mkReplicasRecommendation 22 2 Monday 9 in
  let day := mkReplicasRecommendation 0 24 Monday 5 in
  slotMatches (mkTime 23 Monday) night = false
  /\ getReplicasRecommendation [night; day] (mkTime 23 Monday) = (5, None).
Proof.
  intros night day.
  destruct (empty_windows_are_never_found [night; day] (mkTime 23 Monday))
    as [Hnever Hfilter].
  split.
  - apply Hnever. simpl. lia.
  - rewrite <- Hfilter. reflexivity.
Defined.

(** X17 on the sample: a deployment of 7 replicas gives the bounds 4 and
    14. *)
Lemma bootstrap_replica_bounds_sample :
  let tortoise := Sample.tortoise TortoisePhaseWorking [] [] in
  let store0 : gmap NamespacedName HorizontalPodAutoscaler := ∅ in
  let o := bootstrap (New Sample.half 90) store0 tortoise (mkDeployment 7) in
  exists hpa,
    calls o = [CallCreate hpa]
    /\ HPA_MinReplicas hpa = Some 4 /\ HPA_MaxReplicas hpa = 14.
Proof.
  intros tortoise store0 o.
  eexists. split; [vm_compute; reflexivity|].
  match goal with |- HPA_MinReplicas ?h = _ /\ _ => set (hpa := h) end.
  assert (Hcall : In (CallCreate hpa) (calls o))
    by (vm_compute; left; reflexivity).
  pose proof (bootstrap_replica_bounds Sample.cpuKey Sample.memoryKey
                sample_keys_differ Sample.range
                Sample.unrepresentable (New Sample.half 90)
                store0 tortoise (mkDeployment 7) hpa Hcall) as Hbounds.
  cbv zeta in Hbounds.
  destruct Hbounds as (Hmin & _ & Hsmall & _).
  - vm_compute. split; discriminate.
  - split; [exact Hmin|]. apply Hsmall. reflexivity.
Defined.

(** X18 on the sample: two recommendations write to the metrics of
    (api, cpu), 60 and then 70; run again, the rewrites leave the
    resource as the first run has left it. *)
Lemma applyTargets_idempotent_sample :
  let targets := [("api", ResourceCPU, 60); ("api", ResourceCPU, 70)] in
  let hpa' := fst (applyTargets Sample.cpuKey Sample.memoryKey sampleHPA targets) in
  applyTargets Sample.cpuKey Sample.memoryKey hpa' targets = (hpa', Return None).
Proof.
  intros targets hpa'.
  apply (applyTargets_idempotent Sample.cpuKey Sample.memoryKey sampleHPA).
  vm_compute. reflexivity.
Defined.


(** X20 on the sample: a metric of (api, cpu) that targets an average
    value is left as it is by the rewrite of (api, cpu). *)
Lemma updateHPATargetValue_skips_sample :
  let averageValue :=
    {| MetricSpec_Type := ContainerResourceMetricSourceType;
       MetricSpec_ContainerResource :=
         Some {| ContainerResource_Name := ResourceCPU;
                 ContainerResource_Target :=
                   {| MetricTarget_Type := "AverageValue";
                      MetricTarget_Value := None;
                      MetricTarget_AverageValue :=
                        Some (MustParse_small 500 "500");
                      MetricTarget_AverageUtilization := None |};
                 ContainerResource_Container := "api" |};
       MetricSpec_External := None |} in
  let hpa := set_Metrics sampleHPA [averageValue] in
  HPA_Metrics (fst (rewriteTarget hpa "api" ResourceCPU 60)) !! 0%nat
  = Some averageValue.
Proof.
  intros averageValue hpa.
  apply (updateHPATargetValue_skips Sample.cpuKey Sample.memoryKey hpa
           "api" ResourceCPU 60 0%nat averageValue eq_refl).
  right. left. split; [reflexivity|]. right.
  eexists. split; reflexivity.
Defined.
